(** * EPG server: timestamp parsing, index building, persistence, query.

    A shallow embedding of [main.go].  Go strings are byte sequences and are
    modelled by [string] (a list of 8-bit [ascii]); Go [int] values that the
    program manipulates are far from the 64-bit limits and are modelled by
    [Z]; Go maps are [gmap]s; slices are lists.  A nil map or slice is not
    told apart from an empty one.

    The functions of the Go standard library that the program calls
    ([strings.Split], [strconv.Atoi], [time.Date], [Time.Format],
    [time.Parse], [json.Marshal], [json.Unmarshal], [filepath.Base],
    [strings.TrimSuffix], [strings.HasSuffix], [strings.ToLower]) are
    modelled in the modules [GoString], [strconv], [time], [utf8], [json]
    and [filepath] and next to the function that calls them, for the
    arguments the program passes to them.  The logging functions are
    modelled by the line they hand to the logger; the calls to them are left
    out of the other functions.  What the network, the file system and the
    decoders of XML and YAML answer is a parameter of the functions that
    call them. *)

From Stdlib Require Import ZArith Ascii String List Lia.
From Stdlib Require Import DecimalString DecimalN.
From stdpp Require Import gmap strings list fin_maps sorting.

Local Open Scope Z_scope.

(** ** Byte strings *)

Module GoString.

(** [len(s)]: the number of bytes. *)
Definition len (s : string) : Z := Z.of_nat (String.length s).

(** [s[lo:hi]] for [0 <= lo <= hi <= len(s)]. *)
Definition slice (s : string) (lo hi : nat) : string :=
  String.substring lo (hi - lo) s.

Definition space : ascii := Ascii.ascii_of_nat 32.

(** [strings.Split(s, sep)] for a one-byte separator: the pieces of [s]
    between the occurrences of [sep], in order.  The last equation of the
    inner match is dead code kept for totality. *)
Fixpoint Split (s : string) (sep : ascii) : list string :=
  match s with
  | EmptyString => [EmptyString]
  | String c rest =>
      if Ascii.eqb c sep then EmptyString :: Split rest sep
      else match Split rest sep with
           | piece :: pieces => String c piece :: pieces
           | [] => [String c EmptyString]
           end
  end.

(** The part of [s] before the first [sep] (all of [s] when there is none). *)
Fixpoint before (sep : ascii) (s : string) : string :=
  match s with
  | EmptyString => EmptyString
  | String c rest =>
      if Ascii.eqb c sep then EmptyString else String c (before sep rest)
  end.

Fixpoint contains (sep : ascii) (s : string) : bool :=
  match s with
  | EmptyString => false
  | String c rest => Ascii.eqb c sep || contains sep rest
  end.

Definition isDigit (c : ascii) : bool :=
  let n := Ascii.nat_of_ascii c in ((48 <=? n) && (n <=? 57))%nat.

Definition digitVal (c : ascii) : Z := Z.of_nat (Ascii.nat_of_ascii c) - 48.

Fixpoint allDigits (s : string) : bool :=
  match s with
  | EmptyString => true
  | String c rest => isDigit c && allDigits rest
  end.

(** Value of a run of decimal digits, most significant first. *)
Fixpoint digitsVal (acc : Z) (s : string) : Z :=
  match s with
  | EmptyString => acc
  | String c rest => digitsVal (acc * 10 + digitVal c) rest
  end.

End GoString.

(** ** [strconv.Atoi] *)

Module strconv.
Import GoString.

Inductive NumError := ErrSyntax | ErrRange.

Definition maxInt : Z := 2 ^ 63 - 1.
Definition minInt : Z := - 2 ^ 63.

(** [Atoi(s)]: an optional sign followed by one or more decimal digits.
    On a syntax error the value returned is 0; out of the [int] range the
    value is clamped. *)
Definition Atoi (s : string) : Z * option NumError :=
  let '(neg, body) :=
    match s with
    | String c rest =>
        if Ascii.eqb c "-"%char then (true, rest)
        else if Ascii.eqb c "+"%char then (false, rest)
        else (false, s)
    | EmptyString => (false, s)
    end in
  match body with
  | EmptyString => (0, Some ErrSyntax)
  | _ =>
      if allDigits body then
        let n := digitsVal 0 body in
        let v := if neg then - n else n in
        if maxInt <? v then (maxInt, Some ErrRange)
        else if v <? minInt then (minInt, Some ErrRange)
        else (v, None)
      else (0, Some ErrSyntax)
  end.

End strconv.

(** ** The [time] package: locations, [Date], [Format], [Parse] *)

Module time.
Import GoString.

(** What [Location.lookup] reports for an instant: the offset east of UTC
    in seconds and the interval of Unix seconds on which it is in force. *)
Record zone := { offset : Z; zstart : Z; zend : Z }.

Record Location := { lookup : Z -> zone }.

(** A [Time] is an instant (Unix seconds; the program never sets
    nanoseconds) together with the location it is displayed in. *)
Record Time := { unix : Z; loc : Location }.

Definition alpha : Z := - 2 ^ 63.
Definition omega : Z := 2 ^ 63 - 1.

Definition FixedZone (off : Z) : Location :=
  {| lookup := fun _ => {| offset := off; zstart := alpha; zend := omega |} |}.

Definition isLeap (year : Z) : bool :=
  (year mod 4 =? 0) && (negb (year mod 100 =? 0) || (year mod 400 =? 0)).

(** [daysBefore[m]]: days in a non-leap year before month [m + 1]. *)
Definition daysBefore (m : Z) : Z :=
  nth (Z.to_nat m) [0; 31; 59; 90; 120; 151; 181; 212; 243; 273; 304; 334; 365] 0.

Definition daysIn (month year : Z) : Z :=
  if (month =? 2) && isLeap year then 29
  else daysBefore month - daysBefore (month - 1).

(** Days from 1970-01-01 to January 1 of [year]. *)
Definition daysSinceEpoch (year : Z) : Z :=
  let y := year - 1 in
  365 * (year - 1970) + (y / 4 - y / 100 + y / 400) - 477.

(** [norm(hi, lo, base)]: carry [lo] into [hi] so that [0 <= lo < base]. *)
Definition norm (hi lo base : Z) : Z * Z := (hi + lo / base, lo mod base).

(** [time.Date(year, month, day, hour, min, sec, 0, loc)]. *)
Definition Date (year month day hour min sec : Z) (l : Location) : Time :=
  let '(year, m) := norm year (month - 1) 12 in
  let month := m + 1 in
  let '(min, sec) := norm min sec 60 in
  let '(hour, min) := norm hour min 60 in
  let '(day, hour) := norm day hour 24 in
  let d := daysSinceEpoch year + daysBefore (month - 1) in
  let d := if isLeap year && (3 <=? month) then d + 1 else d in
  let d := d + (day - 1) in
  let u := d * 86400 + (hour * 3600 + min * 60 + sec) in
  let z := lookup l u in
  let u :=
    if offset z =? 0 then u
    else
      let utc := u - offset z in
      let off :=
        if (utc <? zstart z) || (zend z <=? utc) then offset (lookup l utc)
        else offset z in
      u - off in
  {| unix := u; loc := l |}.

(** Calendar fields of an instant as shown in its location. *)
Record civil := { cyear : Z; cmonth : Z; cday : Z; chour : Z; cmin : Z; csec : Z }.

(** The month (1..12) and day of month of the 0-based day [yday] of a year. *)
Definition monthDay (leap : bool) (yday : Z) : Z * Z :=
  if leap && (yday =? 59) then (2, 29)
  else
    let yd := if leap && (59 <? yday) then yday - 1 else yday in
    let m := Z.of_nat (List.length (List.filter (fun k => daysBefore k <=? yd)
                                     [1; 2; 3; 4; 5; 6; 7; 8; 9; 10; 11])) in
    (m + 1, yd - daysBefore m + 1).

(** Year and day of year of a day count from 1970-01-01, by the 400-, 100-,
    4- and 1-year cycles of the Gregorian calendar counted from year 1. *)
Definition yearDay (days : Z) : Z * Z :=
  let d := days + 719162 in
  let n400 := d / 146097 in
  let d := d mod 146097 in
  let n100 := Z.min 3 (d / 36524) in
  let d := d - 36524 * n100 in
  let n4 := d / 1461 in
  let d := d mod 1461 in
  let n1 := Z.min 3 (d / 365) in
  let d := d - 365 * n1 in
  (400 * n400 + 100 * n100 + 4 * n4 + n1 + 1, d).

Definition fields (t : Time) : civil :=
  let wall := unix t + offset (lookup (loc t) (unix t)) in
  let '(year, yday) := yearDay (wall / 86400) in
  let '(month, day) := monthDay (isLeap year) yday in
  let s := wall mod 86400 in
  {| cyear := year; cmonth := month; cday := day;
     chour := s / 3600; cmin := (s mod 3600) / 60; csec := s mod 60 |}.

Definition digitChar (d : Z) : ascii := Ascii.ascii_of_nat (48 + Z.to_nat d).

Definition decimal (u : Z) : string :=
  NilZero.string_of_uint (N.to_uint (Z.to_N u)).

Fixpoint zeros (n : nat) : string :=
  match n with O => EmptyString | S k => String "0"%char (zeros k) end.

(** [appendInt(b, x, width)]: sign, then the decimal digits of [|x|]
    padded with zeros to [width]. *)
Definition appendInt (x : Z) (width : nat) : string :=
  let u := Z.abs x in
  let sign := if x <? 0 then "-"%string else ""%string in
  let body :=
    if (Nat.eqb width 2) && (u <? 100) then
      String (digitChar (u / 10)) (String (digitChar (u mod 10)) EmptyString)
    else
      let ds := decimal u in
      String.append (zeros (width - String.length ds)) ds in
  String.append sign body.

(** [t.Format("2006-01-02")]. *)
Definition FormatDate (t : Time) : string :=
  let c := fields t in
  String.append (appendInt (cyear c) 4)
    (String "-"%char (String.append (appendInt (cmonth c) 2)
       (String "-"%char (appendInt (cday c) 2)))).

(** [t.Format("15:04")]. *)
Definition FormatHHMM (t : Time) : string :=
  let c := fields t in
  String.append (appendInt (chour c) 2) (String ":"%char (appendInt (cmin c) 2)).

(** *** [time.Parse] with the layout ["2006-01-02"] *)

Inductive ParseError := errBad | errMonthRange | errExtraText | errDayRange.

Definition isDigitAt (s : string) (i : nat) : bool :=
  match String.get i s with
  | Some c => isDigit c
  | None => false
  end.

Definition byteAt (s : string) (i : nat) : ascii :=
  match String.get i s with
  | Some c => c
  | None => Ascii.zero
  end.

Definition drop (n : nat) (s : string) : string :=
  String.substring n (String.length s - n) s.

(** [getnum(s, fixed)]: a one- or two-digit number at the head of [s];
    with [fixed], exactly two digits. *)
Definition getnum (s : string) (fixed : bool) : option (Z * string) :=
  if negb (isDigitAt s 0) then None
  else if negb (isDigitAt s 1) then
    if fixed then None else Some (digitVal (byteAt s 0), drop 1 s)
  else Some (digitVal (byteAt s 0) * 10 + digitVal (byteAt s 1), drop 2 s).

(** [skip(value, prefix)] for the one-byte prefix ["-"]. *)
Definition skipDash (value : string) : option string :=
  match value with
  | String c rest => if Ascii.eqb c "-"%char then Some rest else None
  | EmptyString => None
  end.

(** [time.Parse("2006-01-02", value)]: the year is exactly four digits,
    month and day exactly two; the month is range-checked as it is read,
    trailing text is refused, and the day is checked against the month
    last.  The instant returned is midnight UTC of that day. *)
Definition ParseDate (value : string) : Time + ParseError :=
  if (String.length value <? 4)%nat || negb (isDigitAt value 0) then inr errBad
  else
    let p := slice value 0 4 in
    let value := drop 4 value in
    if negb (allDigits p) then inr errBad
    else
      let year := digitsVal 0 p in
      match skipDash value with
      | None => inr errBad
      | Some value =>
          match getnum value true with
          | None => inr errBad
          | Some (month, value) =>
              if (month <=? 0) || (12 <? month) then inr errMonthRange
              else
                match skipDash value with
                | None => inr errBad
                | Some value =>
                    match getnum value true with
                    | None => inr errBad
                    | Some (day, value) =>
                        if negb (String.length value =? 0)%nat then inr errExtraText
                        else if (day <? 1) || (daysIn month year <? day)
                        then inr errDayRange
                        else inl (Date year month day 0 0 0 (FixedZone 0))
                    end
                end
          end
      end.

End time.

(** ** Data model *)

Record DisplayName := { dn_Lang : string; dn_Value : string }.

Record Channel := { ch_ID : string; ch_DisplayName : list DisplayName }.

Record Programme := {
  prog_Start : string;
  prog_Stop : string;
  prog_Channel : string;
  prog_Title : string
}.

Record TV := { tv_Channels : list Channel; tv_Programmes : list Programme }.

Record ProgramItem := { item_Start : string; item_End : string; item_Title : string }.

(** The cache: channel name to channel id, and channel id to date to the
    programmes of that day. *)
Record EPGCache := {
  ChannelMap : gmap string string;
  ProgramData : gmap string (gmap string (list ProgramItem))
}.

Record EPGResponse := {
  resp_ChannelName : string;
  resp_Date : string;
  resp_EPGData : list ProgramItem
}.

(** The package-level [epgCache] before anything is loaded. *)
Definition epgCache0 : EPGCache := {| ChannelMap := ∅; ProgramData := ∅ |}.

(** Go's [error] values: made by [errors.New], by [fmt.Errorf] wrapping
    another error with [%w], or handed over by a library or the operating
    system. *)
Inductive error :=
| New (msg : string)
| Wrap (prefix : string) (e : error)
| External (what : string).

Inductive result (A : Type) :=
| Ok (a : A)
| Err (e : error).
Arguments Ok {A} a.
Arguments Err {A} e.

Definition errInvalidTimeFormat : error := New "无效的时间格式".
Definition errTimeLength : error := New "时间格式长度不正确".

(** ** [parseEPGTime] *)

Section ParseTime.
Import GoString.

(** [time.Local], set once by [main] from the configuration. *)
Variable Local : time.Location.

Definition parseEPGTime (timeStr : string) : result time.Time :=
  let parts := Split timeStr space in
  if (List.length parts <? 1)%nat then Err errInvalidTimeFormat
  else
    let baseTime := List.hd EmptyString parts in
    if negb (len baseTime =? 14) then Err errTimeLength
    else
      let year := fst (strconv.Atoi (slice baseTime 0 4)) in
      let month := fst (strconv.Atoi (slice baseTime 4 6)) in
      let day := fst (strconv.Atoi (slice baseTime 6 8)) in
      let hour := fst (strconv.Atoi (slice baseTime 8 10)) in
      let minute := fst (strconv.Atoi (slice baseTime 10 12)) in
      let second := fst (strconv.Atoi (slice baseTime 12 14)) in
      Ok (time.Date year month day hour minute second Local).

End ParseTime.

(** ** [buildEPGCache] *)

Section Build.
Variable Local : time.Location.

(** The inner loop over [ch.DisplayName]: the first display name tagged
    ["zh"] with a non-empty value is recorded, and the loop breaks. *)
Fixpoint scanDisplayNames (id : string) (dns : list DisplayName)
    (m : gmap string string) : gmap string string :=
  match dns with
  | [] => m
  | dn :: rest =>
      if bool_decide (dn_Lang dn = "zh") && negb (bool_decide (dn_Value dn = ""))
      then <[dn_Value dn := id]> m
      else scanDisplayNames id rest m
  end.

(** Loop 1: the channel name to id mapping. *)
Definition buildChannelMap (chs : list Channel) (m : gmap string string)
    : gmap string string :=
  foldl (fun m ch => scanDisplayNames (ch_ID ch) (ch_DisplayName ch) m) m chs.

(** The body of loop 2 for one programme.  A timestamp that fails to parse
    logs a warning and [continue]s, leaving the index as it is. *)
Definition addProgramme (pd : gmap string (gmap string (list ProgramItem)))
    (prog : Programme) : gmap string (gmap string (list ProgramItem)) :=
  match parseEPGTime Local (prog_Start prog) with
  | Err _ => pd
  | Ok startTime =>
      match parseEPGTime Local (prog_Stop prog) with
      | Err _ => pd
      | Ok stopTime =>
          let dateStr := time.FormatDate startTime in
          let startStr := time.FormatHHMM startTime in
          let stopStr := time.FormatHHMM stopTime in
          let item := {| item_Start := startStr; item_End := stopStr;
                         item_Title := prog_Title prog |} in
          let pd :=
            match pd !! prog_Channel prog with
            | Some _ => pd
            | None => <[prog_Channel prog := ∅]> pd
            end in
          let byDate := default ∅ (pd !! prog_Channel prog) in
          let byDate :=
            match byDate !! dateStr with
            | Some _ => byDate
            | None => <[dateStr := []]> byDate
            end in
          let byDate :=
            <[dateStr := default [] (byDate !! dateStr) ++ [item]]> byDate in
          <[prog_Channel prog := byDate]> pd
      end
  end.

(** Loop 2: the programme index. *)
Definition buildProgramData (progs : list Programme)
    (pd : gmap string (gmap string (list ProgramItem)))
    : gmap string (gmap string (list ProgramItem)) :=
  foldl addProgramme pd progs.

(** [buildEPGCache(tv)]: runs on the shared cache; both maps are replaced
    by fresh ones before the loops, and the error returned is always nil. *)
Definition buildEPGCache (tv : TV) (cache : EPGCache) : EPGCache * option error :=
  let cache := {| ChannelMap := ∅; ProgramData := ∅ |} in
  let cache := {| ChannelMap := buildChannelMap (tv_Channels tv) (ChannelMap cache);
                  ProgramData := ProgramData cache |} in
  let cache := {| ChannelMap := ChannelMap cache;
                  ProgramData := buildProgramData (tv_Programmes tv) (ProgramData cache) |} in
  (cache, None).

End Build.

(** ** UTF-8 as [encoding/json] sees it *)

Module utf8.

Definition inRange (lo hi : nat) (c : ascii) : bool :=
  let n := Ascii.nat_of_ascii c in ((lo <=? n) && (n <=? hi))%nat.

Definition cont (c : ascii) : bool := inRange 128 191 c.

(** The [first] and [acceptRanges] tables: for a leading byte, the length
    of the encoding and the range accepted for the second byte. *)
Definition first (b0 : ascii) : option (nat * (nat * nat)) :=
  let n := Ascii.nat_of_ascii b0 in
  (if n <? 128 then Some (1, (0, 0))
   else if n <? 194 then None
   else if n <? 224 then Some (2, (128, 191))
   else if n =? 224 then Some (3, (160, 191))
   else if n =? 237 then Some (3, (128, 159))
   else if n <? 240 then Some (3, (128, 191))
   else if n =? 240 then Some (4, (144, 191))
   else if n <? 244 then Some (4, (128, 191))
   else if n =? 244 then Some (4, (128, 143))
   else None)%nat.

(** Size in bytes of the rune at the head of [s] as [DecodeRuneInString]
    reports it; [0] stands for the pair (RuneError, 1) of an invalid or
    truncated encoding. *)
Definition runeSize (s : string) : nat :=
  match s with
  | EmptyString => 0
  | String b0 r =>
      match first b0 with
      | None => 0
      | Some (1%nat, _) => 1
      | Some (2%nat, (lo, hi)) =>
          match r with
          | String b1 _ => if inRange lo hi b1 then 2 else 0
          | _ => 0
          end
      | Some (3%nat, (lo, hi)) =>
          match r with
          | String b1 (String b2 _) =>
              if inRange lo hi b1 && cont b2 then 3 else 0
          | _ => 0
          end
      | Some (_, (lo, hi)) =>
          match r with
          | String b1 (String b2 (String b3 _)) =>
              if inRange lo hi b1 && cont b2 && cont b3 then 4 else 0
          | _ => 0
          end
      end
  end%nat.

(** U+FFFD, the replacement character. *)
Definition RuneError : string :=
  String (Ascii.ascii_of_nat 239)
    (String (Ascii.ascii_of_nat 191) (String (Ascii.ascii_of_nat 189) EmptyString)).

(** [utf8.ValidString]. *)
Fixpoint ValidString (s : string) : bool :=
  match s with
  | EmptyString => true
  | String b0 r0 =>
      match runeSize s, r0 with
      | 1%nat, _ => ValidString r0
      | 2%nat, String _ r1 => ValidString r1
      | 3%nat, String _ (String _ r2) => ValidString r2
      | 4%nat, String _ (String _ (String _ r3)) => ValidString r3
      | _, _ => false
      end
  end.

(** What the JSON encoder writes for a string and what the decoder hands
    back for a string literal: every byte that does not start a valid
    encoding becomes U+FFFD, valid runes are kept. *)
Fixpoint coerce (s : string) : string :=
  match s with
  | EmptyString => EmptyString
  | String b0 r0 =>
      match runeSize s, r0 with
      | 1%nat, _ => String b0 (coerce r0)
      | 2%nat, String b1 r1 => String b0 (String b1 (coerce r1))
      | 3%nat, String b1 (String b2 r2) =>
          String b0 (String b1 (String b2 (coerce r2)))
      | 4%nat, String b1 (String b2 (String b3 r3)) =>
          String b0 (String b1 (String b2 (String b3 (coerce r3))))
      | _, _ => String.append RuneError (coerce r0)
      end
  end.

End utf8.

(** ** [encoding/json] on the cache *)

Module json.

(** A JSON document, as the text of the cache file denotes it.  Strings
    hold the bytes of the literal after unescaping. *)
#[local] Unset Elimination Schemes.
Inductive value :=
| Null
| Bool (b : bool)
| Number (digits : string)
| Str (s : string)
| Array (elems : list value)
| Object (members : list (string * value)).
#[local] Set Elimination Schemes.

(** [foldName] restricted to what can match an ASCII field name: ASCII
    letters go to upper case; U+017F (long s) and U+212A (Kelvin sign),
    the two other runes whose fold class holds an ASCII letter, go to
    [S] and [K]. *)
Definition upper (c : ascii) : ascii :=
  let n := Ascii.nat_of_ascii c in
  if ((97 <=? n) && (n <=? 122))%nat then Ascii.ascii_of_nat (n - 32) else c.

Fixpoint foldName (s : string) : string :=
  match s with
  | EmptyString => EmptyString
  | String b0 r0 =>
      match Ascii.nat_of_ascii b0, r0 with
      | 197%nat, String b1 r1 =>
          if (Ascii.nat_of_ascii b1 =? 191)%nat then String "S"%char (foldName r1)
          else String b0 (foldName r0)
      | 226%nat, String b1 (String b2 r2) =>
          if ((Ascii.nat_of_ascii b1 =? 132) && (Ascii.nat_of_ascii b2 =? 170))%nat
          then String "K"%char (foldName r2)
          else String b0 (foldName r0)
      | _, _ => String (upper b0) (foldName r0)
      end
  end.

(** Does the object key [key] select the struct field named [name]? *)
Definition isField (name key : string) : bool :=
  bool_decide (foldName key = foldName name).

(** Decoders return the new value of the destination and whether a type
    error was recorded ([Unmarshal] goes on after one and reports it at
    the end). *)

Definition decString (v : value) (old : string) : string * bool :=
  match v with
  | Str s => (utf8.coerce s, false)
  | Null => (old, false)
  | _ => (old, true)
  end.

Definition decItemMember (acc : ProgramItem * bool) (kv : string * value)
    : ProgramItem * bool :=
  let '(it, e) := acc in
  let key := utf8.coerce (fst kv) in
  if isField "start" key then
    let '(s, e') := decString (snd kv) (item_Start it) in
    ({| item_Start := s; item_End := item_End it; item_Title := item_Title it |}, e || e')
  else if isField "end" key then
    let '(s, e') := decString (snd kv) (item_End it) in
    ({| item_Start := item_Start it; item_End := s; item_Title := item_Title it |}, e || e')
  else if isField "title" key then
    let '(s, e') := decString (snd kv) (item_Title it) in
    ({| item_Start := item_Start it; item_End := item_End it; item_Title := s |}, e || e')
  else (it, e).

Definition decItem (v : value) (old : ProgramItem) : ProgramItem * bool :=
  match v with
  | Object members => foldl decItemMember (old, false) members
  | Null => (old, false)
  | _ => (old, true)
  end.

Definition zeroItem : ProgramItem :=
  {| item_Start := ""; item_End := ""; item_Title := "" |}.

(** The destination is always the fresh slice of a map element, so every
    element is decoded from the zero value. *)
Definition decItems (v : value) (old : list ProgramItem) : list ProgramItem * bool :=
  match v with
  | Array elems =>
      let r := map (fun e => decItem e zeroItem) elems in
      (map fst r, existsb snd r)
  | Null => ([], false)
  | _ => (old, true)
  end.

(** A JSON object decoded into a Go map: the existing map is kept and each
    member is stored in turn, the element decoded from the zero value. *)
Definition decMap {A} (zero : A) (decElem : value -> A -> A * bool)
    (v : value) (old : gmap string A) : gmap string A * bool :=
  match v with
  | Object members =>
      foldl (fun acc kv =>
               let '(a, e') := decElem (snd kv) zero in
               (<[utf8.coerce (fst kv) := a]> (fst acc), snd acc || e'))
            (old, false) members
  | Null => (∅, false)
  | _ => (old, true)
  end.

Definition decChannelMap := decMap "" decString.
Definition decDates := decMap [] decItems.
Definition decProgramData := decMap ∅ decDates.

Definition decCacheMember (acc : EPGCache * bool) (kv : string * value)
    : EPGCache * bool :=
  let '(c, e) := acc in
  let key := utf8.coerce (fst kv) in
  if isField "ChannelMap" key then
    let '(m, e') := decChannelMap (snd kv) (ChannelMap c) in
    ({| ChannelMap := m; ProgramData := ProgramData c |}, e || e')
  else if isField "ProgramData" key then
    let '(m, e') := decProgramData (snd kv) (ProgramData c) in
    ({| ChannelMap := ChannelMap c; ProgramData := m |}, e || e')
  else (c, e).

(** [json.Unmarshal(data, epgCache)] on a well-formed document. *)
Definition Unmarshal (v : value) (c : EPGCache) : EPGCache * bool :=
  match v with
  | Object members => foldl decCacheMember (c, false) members
  | Null => (c, false)
  | _ => (c, true)
  end.

(** Encoders.  Map keys are written in increasing byte order. *)

Definition encString (s : string) : value := Str (utf8.coerce s).

Definition encItem (it : ProgramItem) : value :=
  Object [ ("start", encString (item_Start it));
           ("end", encString (item_End it));
           ("title", encString (item_Title it)) ].

Definition encItems (l : list ProgramItem) : value := Array (map encItem l).

Definition keyLe {A} (a b : string * A) : Prop := String.le (fst a) (fst b).

Definition sortedMembers {A} (m : gmap string A) : list (string * A) :=
  merge_sort keyLe (map_to_list m).

Definition encMap {A} (encElem : A -> value) (m : gmap string A) : value :=
  Object (map (fun kv => (utf8.coerce (fst kv), encElem (snd kv))) (sortedMembers m)).

(** [json.Marshal(epgCache)]: the two exported fields; [mu] is skipped. *)
Definition Marshal (c : EPGCache) : value :=
  Object [ ("ChannelMap", encMap encString (ChannelMap c));
           ("ProgramData", encMap (encMap encItems) (ProgramData c)) ].

End json.

(** ** Persistence: [saveCache] and [loadCache] *)

(** The cache file as [os.ReadFile] finds it: it cannot be read, it holds
    bytes that are not a JSON document, or it holds the text of a
    document. *)
Inductive fileData :=
| Unreadable (e : error)
| Garbage
| Document (v : json.value).

(** The process state the pipeline and the loader work on: the shared
    [epgCache] and the cache file ([None] when it does not exist). *)
Record State := { cache : EPGCache; cacheFile : option fileData }.

(** What the outside world answers during one run. *)
Record World := {
  (** [downloadFile]: the path of the temporary file, or why there is none *)
  httpGet : result string;
  (** [extractTarGz] on that path: the path of the XML file *)
  gunzip : string -> result string;
  (** [parseEPGXML] on that path: the decoded document *)
  decodeXML : string -> result TV;
  (** [os.WriteFile]: [None] when the write succeeds, else the error and
      what is left of the file *)
  writeFile : option (error * option fileData)
}.

Definition errNoCacheFile : error := New "缓存文件不存在".
Definition errJSONSyntax : error := External "json: syntax error".
Definition errJSONType : error := External "json: cannot unmarshal".

(** [saveCache]: marshal the cache (which cannot fail for these types) and
    write the file. *)
Definition saveCache (w : World) (st : State) : State * option error :=
  let data := json.Marshal (cache st) in
  match writeFile w with
  | None => ({| cache := cache st; cacheFile := Some (Document data) |}, None)
  | Some (e, remains) => ({| cache := cache st; cacheFile := remains |}, Some e)
  end.

(** [loadCache]: unmarshal the file into the shared cache. *)
Definition loadCache (st : State) : State * option error :=
  match cacheFile st with
  | None => (st, Some errNoCacheFile)
  | Some (Unreadable e) => (st, Some e)
  | Some Garbage => (st, Some errJSONSyntax)
  | Some (Document v) =>
      let '(c, e) := json.Unmarshal v (cache st) in
      ({| cache := c; cacheFile := cacheFile st |},
       if e then Some errJSONType else None)
  end.

(** ** The pipeline: [downloadAndParseEPG] *)

Section Pipeline.
Variable Local : time.Location.
Variable w : World.

Definition downloadAndParseEPG (st : State) : State * option error :=
  match httpGet w with
  | Err e => (st, Some (Wrap "下载失败" e))
  | Ok tmpFile =>
      match gunzip w tmpFile with
      | Err e => (st, Some (Wrap "解压失败" e))
      | Ok xmlFilePath =>
          match decodeXML w xmlFilePath with
          | Err e => (st, Some (Wrap "解析XML失败" e))
          | Ok tvData =>
              match buildEPGCache Local tvData (cache st) with
              | (c, Some e) =>
                  ({| cache := c; cacheFile := cacheFile st |},
                   Some (Wrap "构建缓存失败" e))
              | (c, None) =>
                  match saveCache w {| cache := c; cacheFile := cacheFile st |} with
                  | (st', Some e) => (st', Some (Wrap "保存缓存失败" e))
                  | (st', None) => (st', None)
                  end
              end
          end
      end
  end.

End Pipeline.

(** ** The query handler *)

Inductive response :=
| ErrorResponse (msg : string)
| DataResponse (r : EPGResponse).

Definition msgMissingParameter : string := "参数缺失，必须提供ch和date参数".
Definition msgInvalidDateFormat : string := "日期格式错误，正确格式为YYYY-MM-DD".
Definition msgChannelNotFound (chName : string) : string :=
  String.append "未找到频道: " chName.
Definition msgNoProgramData (chName : string) : string :=
  String.append "频道" (String.append chName "暂无节目数据").
Definition msgNoProgramDataForDate (chName dateStr : string) : string :=
  String.append "频道"
    (String.append chName (String.append "在" (String.append dateStr "暂无节目数据"))).

(** [epgQueryHandler] on the two query parameters ([Get] gives the empty
    string for an absent one), reading the cache under the read lock. *)
Definition epgQueryHandler (c : EPGCache) (chName dateStr : string) : response :=
  if bool_decide (chName = "") || bool_decide (dateStr = "")
  then ErrorResponse msgMissingParameter
  else
    match time.ParseDate dateStr with
    | inr _ => ErrorResponse msgInvalidDateFormat
    | inl _ =>
        match ChannelMap c !! chName with
        | None => ErrorResponse (msgChannelNotFound chName)
        | Some chID =>
            match ProgramData c !! chID with
            | None => ErrorResponse (msgNoProgramData chName)
            | Some datePrograms =>
                match datePrograms !! dateStr with
                | None => ErrorResponse (msgNoProgramDataForDate chName dateStr)
                | Some programs =>
                    DataResponse {| resp_ChannelName := chName;
                                    resp_Date := dateStr;
                                    resp_EPGData := programs |}
                end
            end
        end
    end.

(** ** Handlers and builds running together under the read-write lock *)

Module Concurrent.

(** Where a handler is: before the validation, waiting for [RLock],
    holding the read lock with what it has read so far, having written
    its response (lock still held), returned.  [datePrograms] is a reference
    to an inner map of the shared cache; the invariant below shows that it
    is that map for as long as the handler holds it. *)
Inductive reader :=
| RStart
| RWait
| RLocked
| RGotID (chID : string)
| RGotDates (chID : string) (datePrograms : gmap string (list ProgramItem))
| RRespond (r : response)
| RDone (r : response).

(** Where a build is: waiting for [Lock], holding the lock before and
    after each of the two maps is replaced, in the loop over the channels,
    in the loop over the programmes, returned. *)
Inductive writer :=
| WStart
| WLocked
| WCleared
| WChannels (rest : list Channel)
| WProgs (rest : list Programme)
| WDone.

Inductive thread :=
| Reader (chName dateStr : string) (pc : reader)
| Writer (tv : TV) (pc : writer).

Definition holdsRead (t : thread) : bool :=
  match t with
  | Reader _ _ (RLocked | RGotID _ | RGotDates _ _ | RRespond _) => true
  | _ => false
  end.

Definition holdsWrite (t : thread) : bool :=
  match t with
  | Writer _ (WLocked | WCleared | WChannels _ | WProgs _) => true
  | _ => false
  end.

Definition holds (t : thread) : bool := holdsRead t || holdsWrite t.

(** The shared cache and the goroutines. *)
Record config := { shared : EPGCache; threads : list thread }.

Definition paramsOK (chName dateStr : string) : bool :=
  negb (bool_decide (chName = "") || bool_decide (dateStr = ""))
  && match time.ParseDate dateStr with inl _ => true | inr _ => false end.

Section Steps.
Variable Local : time.Location.

(** One step of a goroutine.  [writeHeld]: some goroutine holds the
    write lock; [anyHeld]: some goroutine holds the lock in either mode.
    [RLock] waits while the first is true, [Lock] while the second is;
    [None] is a goroutine that cannot move. *)
Definition tstep (writeHeld anyHeld : bool) (s : EPGCache) (t : thread)
    : option (EPGCache * thread) :=
  match t with
  | Reader chName dateStr pc =>
      match pc with
      | RStart =>
          if bool_decide (chName = "") || bool_decide (dateStr = "") then
            Some (s, Reader chName dateStr (RDone (ErrorResponse msgMissingParameter)))
          else
            match time.ParseDate dateStr with
            | inr _ =>
                Some (s, Reader chName dateStr
                           (RDone (ErrorResponse msgInvalidDateFormat)))
            | inl _ => Some (s, Reader chName dateStr RWait)
            end
      | RWait =>
          if writeHeld then None else Some (s, Reader chName dateStr RLocked)
      | RLocked =>
          match ChannelMap s !! chName with
          | None =>
              Some (s, Reader chName dateStr
                         (RRespond (ErrorResponse (msgChannelNotFound chName))))
          | Some chID => Some (s, Reader chName dateStr (RGotID chID))
          end
      | RGotID chID =>
          match ProgramData s !! chID with
          | None =>
              Some (s, Reader chName dateStr
                         (RRespond (ErrorResponse (msgNoProgramData chName))))
          | Some datePrograms =>
              Some (s, Reader chName dateStr (RGotDates chID datePrograms))
          end
      | RGotDates chID datePrograms =>
          match datePrograms !! dateStr with
          | None =>
              Some (s, Reader chName dateStr
                         (RRespond (ErrorResponse
                                      (msgNoProgramDataForDate chName dateStr))))
          | Some programs =>
              Some (s, Reader chName dateStr
                         (RRespond (DataResponse
                                      {| resp_ChannelName := chName;
                                         resp_Date := dateStr;
                                         resp_EPGData := programs |})))
          end
      | RRespond r => Some (s, Reader chName dateStr (RDone r))
      | RDone _ => None
      end
  | Writer tv pc =>
      match pc with
      | WStart => if anyHeld then None else Some (s, Writer tv WLocked)
      | WLocked =>
          Some ({| ChannelMap := ∅; ProgramData := ProgramData s |}, Writer tv WCleared)
      | WCleared =>
          Some ({| ChannelMap := ChannelMap s; ProgramData := ∅ |},
                Writer tv (WChannels (tv_Channels tv)))
      | WChannels (ch :: rest) =>
          Some ({| ChannelMap :=
                     scanDisplayNames (ch_ID ch) (ch_DisplayName ch) (ChannelMap s);
                   ProgramData := ProgramData s |},
                Writer tv (WChannels rest))
      | WChannels [] => Some (s, Writer tv (WProgs (tv_Programmes tv)))
      | WProgs (prog :: rest) =>
          Some ({| ChannelMap := ChannelMap s;
                   ProgramData := addProgramme Local (ProgramData s) prog |},
                Writer tv (WProgs rest))
      | WProgs [] => Some (s, Writer tv WDone)
      | WDone => None
      end
  end.

(** The goroutine at index [i] takes a step. *)
Definition step (i : nat) (cfg : config) : option config :=
  match threads cfg !! i with
  | None => None
  | Some t =>
      match tstep (existsb holdsWrite (threads cfg)) (existsb holds (threads cfg))
              (shared cfg) t with
      | None => None
      | Some (s, t') => Some {| shared := s; threads := <[i := t']> (threads cfg) |}
      end
  end.

(** An interleaving: the goroutines step in the order of [schedule]. *)
Fixpoint run (schedule : list nat) (cfg : config) : option config :=
  match schedule with
  | [] => Some cfg
  | i :: rest =>
      match step i cfg with
      | None => None
      | Some cfg' => run rest cfg'
      end
  end.

End Steps.

Definition atStart (t : thread) : bool :=
  match t with
  | Reader _ _ RStart | Writer _ WStart => true
  | _ => false
  end.

Section Invariant.
Variable Local : time.Location.

(** The index the run starts with. *)
Variable c0 : EPGCache.

(** An index generation: the initial index, or the index built, whole,
    from the document of one of the builds. *)
Definition installed (ts : list thread) (g : EPGCache) : Prop :=
  g = c0 ∨ ∃ j tv pc, ts !! j = Some (Writer tv pc)
                      ∧ g = fst (buildEPGCache Local tv c0).

(** What a goroutine knows at each point, in terms of the shared cache. *)
Definition threadOK (inst : EPGCache → Prop) (s : EPGCache) (t : thread) : Prop :=
  match t with
  | Reader chName dateStr pc =>
      match pc with
      | RStart => True
      | RWait | RLocked => paramsOK chName dateStr = true
      | RGotID chID =>
          paramsOK chName dateStr = true ∧ ChannelMap s !! chName = Some chID
      | RGotDates chID datePrograms =>
          paramsOK chName dateStr = true ∧ ChannelMap s !! chName = Some chID
          ∧ ProgramData s !! chID = Some datePrograms
      | RRespond r => r = epgQueryHandler s chName dateStr
      | RDone r => ∃ g, inst g ∧ r = epgQueryHandler g chName dateStr
      end
  | Writer tv pc =>
      match pc with
      | WStart | WLocked | WDone => True
      | WCleared => ChannelMap s = ∅
      | WChannels rest =>
          ProgramData s = ∅
          ∧ buildChannelMap rest (ChannelMap s) = buildChannelMap (tv_Channels tv) ∅
      | WProgs rest =>
          ChannelMap s = buildChannelMap (tv_Channels tv) ∅
          ∧ buildProgramData Local rest (ProgramData s)
            = buildProgramData Local (tv_Programmes tv) ∅
      end
  end.

Definition sameThread (t t' : thread) : Prop :=
  match t, t' with
  | Reader ch d _, Reader ch' d' _ => ch = ch' ∧ d = d'
  | Writer tv _, Writer tv' _ => tv = tv'
  | _, _ => False
  end.

(** The invariant of every interleaving: a holder of the write lock is the
    only holder; when nobody holds the write lock the shared cache is an
    index generation; every goroutine's knowledge is right. *)
Definition Inv (cfg : config) : Prop :=
  (∀ i j ti tj, threads cfg !! i = Some ti → threads cfg !! j = Some tj →
                holdsWrite ti = true → holds tj = true → i = j)
  ∧ (existsb holdsWrite (threads cfg) = false → installed (threads cfg) (shared cfg))
  ∧ (∀ i t, threads cfg !! i = Some t →
            threadOK (installed (threads cfg)) (shared cfg) t).

End Invariant.

End Concurrent.

(** ** Configuration and logging *)

Record ServerConfig := {
  srv_ListenPort : Z;
  srv_CronSchedule : string;
  srv_TimeZone : string
}.

Record CacheConfig := {
  cc_DownloadURL : string;
  cc_DownloadDir : string;
  cc_CacheFile : string
}.

Record LogConfig := { log_Level : string }.

Record Config := {
  cfg_Server : ServerConfig;
  cfg_Cache : CacheConfig;
  cfg_Log : LogConfig
}.

Definition LogLevelDebug : string := "debug".
Definition LogLevelInfo : string := "info".
Definition LogLevelWarn : string := "warn".
Definition LogLevelError : string := "error".

(** The package-level [config] before the file is read: every field has
    its zero value. *)
Definition config0 : Config :=
  {| cfg_Server := {| srv_ListenPort := 0; srv_CronSchedule := ""; srv_TimeZone := "" |};
     cfg_Cache := {| cc_DownloadURL := ""; cc_DownloadDir := ""; cc_CacheFile := "" |};
     cfg_Log := {| log_Level := "" |} |}.

(** [setDefaultConfig], one assignment after the other. *)
Definition setDefaultConfig (config : Config) : Config :=
  let server := cfg_Server config in
  let server :=
    if srv_ListenPort server =? 0
    then {| srv_ListenPort := 8090; srv_CronSchedule := srv_CronSchedule server;
            srv_TimeZone := srv_TimeZone server |}
    else server in
  let server :=
    if bool_decide (srv_CronSchedule server = "")
    then {| srv_ListenPort := srv_ListenPort server; srv_CronSchedule := "0 0 * * *";
            srv_TimeZone := srv_TimeZone server |}
    else server in
  let server :=
    if bool_decide (srv_TimeZone server = "")
    then {| srv_ListenPort := srv_ListenPort server;
            srv_CronSchedule := srv_CronSchedule server;
            srv_TimeZone := "Asia/Shanghai" |}
    else server in
  let cache := cfg_Cache config in
  let cache :=
    if bool_decide (cc_DownloadURL cache = "")
    then {| cc_DownloadURL := "http://epg.51zmt.top:8000/e.xml.gz";
            cc_DownloadDir := cc_DownloadDir cache; cc_CacheFile := cc_CacheFile cache |}
    else cache in
  let cache :=
    if bool_decide (cc_DownloadDir cache = "")
    then {| cc_DownloadURL := cc_DownloadURL cache; cc_DownloadDir := "./epg_download";
            cc_CacheFile := cc_CacheFile cache |}
    else cache in
  let cache :=
    if bool_decide (cc_CacheFile cache = "")
    then {| cc_DownloadURL := cc_DownloadURL cache; cc_DownloadDir := cc_DownloadDir cache;
            cc_CacheFile := "./epg_cache.json" |}
    else cache in
  let log := cfg_Log config in
  let log :=
    if bool_decide (log_Level log = "") then {| log_Level := LogLevelInfo |} else log in
  {| cfg_Server := server; cfg_Cache := cache; cfg_Log := log |}.

Section LoadConfig.

(** [os.ReadFile]: the bytes of the file, or an error. *)
Variable readFile : string → result string.

(** [yaml.Unmarshal(data, &config)]: what the decoder leaves in [config]
    (it fills the fields it finds, also when it ends with an error) and the
    error, if any. *)
Variable yamlUnmarshal : string → Config → Config * option error.

Definition loadConfig (filePath : string) (config : Config) : Config * option error :=
  match readFile filePath with
  | Err err => (config, Some (Wrap "读取配置文件失败" err))
  | Ok data =>
      match yamlUnmarshal data config with
      | (config, Some err) => (config, Some (Wrap "解析YAML配置失败" err))
      | (config, None) => (setDefaultConfig config, None)
      end
  end.

End LoadConfig.

(** The logging functions: the line handed to the logger, if any.  [now]
    is the current time as formatted for the line and [msg] the formatted
    message. *)
Definition logLine (tag now msg : string) : string :=
  String.append tag (String.append " [" (String.append now (String.append "] " msg))).

Definition logDebug (config : Config) (now msg : string) : option string :=
  if bool_decide (log_Level (cfg_Log config) = LogLevelDebug)
  then Some (logLine "[DEBUG]" now msg) else None.

Definition logInfo (config : Config) (now msg : string) : option string :=
  if bool_decide (log_Level (cfg_Log config) = LogLevelDebug)
     || bool_decide (log_Level (cfg_Log config) = LogLevelInfo)
  then Some (logLine "[INFO] " now msg) else None.

Definition logWarn (config : Config) (now msg : string) : option string :=
  if bool_decide (log_Level (cfg_Log config) = LogLevelDebug)
     || bool_decide (log_Level (cfg_Log config) = LogLevelInfo)
     || bool_decide (log_Level (cfg_Log config) = LogLevelWarn)
  then Some (logLine "[WARN] " now msg) else None.

Definition logError (config : Config) (now msg : string) : option string :=
  Some (logLine "[ERROR]" now msg).

(** ** [main]: loading the cache at start, and the scheduled runs *)

Section Main.
Variable Local : time.Location.

(** The start of [main] once the configuration is read: the cache file is
    loaded, and when that fails the pipeline runs once, its error being
    logged and nothing more. *)
Definition startup (w : World) (st : State) : State :=
  match loadCache st with
  | (st, Some _) => fst (downloadAndParseEPG Local w st)
  | (st, None) => st
  end.

(** The scheduled job, one firing after the other, a run being over
    before the next one starts ([ws] is what the outside world answers at
    each): the error of a run is logged and nothing more. *)
Definition scheduledRuns (ws : list World) (st : State) : State :=
  foldl (fun st w => fst (downloadAndParseEPG Local w st)) st ws.

End Main.

(** ** The name of the extracted file ([extractTarGz]) *)

Module filepath.

(** [os.IsPathSeparator] on Unix. *)
Definition isSep (c : ascii) : bool := Ascii.eqb c "/".

(** The loop of [Base] that strips the trailing separators. *)
Fixpoint stripTrailing (path : string) : string :=
  match path with
  | EmptyString => EmptyString
  | String c rest =>
      match stripTrailing rest with
      | EmptyString => if isSep c then EmptyString else String c EmptyString
      | rest' => String c rest'
      end
  end.

(** [path[i+1:]] for the last index [i] of a separator; all of [path]
    when it has none. *)
Fixpoint lastElement (path : string) : string :=
  match path with
  | EmptyString => EmptyString
  | String c rest =>
      if GoString.contains "/" rest then lastElement rest
      else if isSep c then rest else path
  end.

(** [filepath.Base] on Unix (no volume name). *)
Definition Base (path : string) : string :=
  if bool_decide (path = "") then "."
  else
    let path := stripTrailing path in
    let path := lastElement path in
    if bool_decide (path = "") then "/" else path.

End filepath.

(** [strings.HasSuffix] and [strings.TrimSuffix]. *)
Definition HasSuffix (s suffix : string) : bool :=
  (String.length suffix <=? String.length s)%nat
  && bool_decide (String.substring (String.length s - String.length suffix)
                    (String.length suffix) s = suffix).

Definition TrimSuffix (s suffix : string) : string :=
  if HasSuffix s suffix
  then String.substring 0 (String.length s - String.length suffix) s
  else s.

Fixpoint mapBytes (f : ascii → ascii) (s : string) : string :=
  match s with
  | EmptyString => EmptyString
  | String c rest => String (f c) (mapBytes f rest)
  end.

Fixpoint allBytes (p : ascii → bool) (s : string) : bool :=
  match s with
  | EmptyString => true
  | String c rest => p c && allBytes p rest
  end.

Definition isUpper (c : ascii) : bool :=
  let n := Ascii.nat_of_ascii c in ((65 <=? n) && (n <=? 90))%nat.

Definition toLowerByte (c : ascii) : ascii :=
  if isUpper c then Ascii.ascii_of_nat (Ascii.nat_of_ascii c + 32) else c.

Section Extract.

(** [strings.Map(unicode.ToLower, s)], which [strings.ToLower] falls back
    on for a string with a byte outside ASCII. *)
Variable mapUnicodeToLower : string → string.

(** [strings.ToLower]: a string of ASCII bytes is returned as it is when
    it has no upper-case letter, and with its upper-case letters lowered
    otherwise. *)
Definition ToLower (s : string) : string :=
  if allBytes (fun c => (Ascii.nat_of_ascii c <? 128)%nat) s then
    if negb (allBytes (fun c => negb (isUpper c)) s) then mapBytes toLowerByte s else s
  else mapUnicodeToLower s.

(** The file name that [extractTarGz] gives the decompressed document:
    the base name of the archive without a final [.gz], with [.xml] added
    unless it ends in [.xml] already, in any case of the letters. *)
Definition xmlFileName (gzPath : string) : string :=
  let baseName := filepath.Base gzPath in
  let xmlFileName := TrimSuffix baseName ".gz" in
  if negb (HasSuffix (ToLower xmlFileName) ".xml")
  then String.append xmlFileName ".xml"
  else xmlFileName.

End Extract.

(** ** Files: [downloadFile], [extractTarGz], [parseEPGXML] *)

(** What the outside world answers to the calls of one run. *)
Record Outside := {
  (** [http.Get]: the status code of the response *)
  out_Get : result Z;
  (** [os.CreateTemp]: the directory for temporary files (used when the
      directory asked for is empty), the decimal digits put for the star of
      the pattern, and whether the file is created *)
  out_TempDir : string;
  out_Random : string;
  out_CreateTemp : option error;
  (** [io.Copy] of the response body into that file *)
  out_CopyBody : option error;
  (** [os.Open] of the archive *)
  out_OpenGz : option error;
  (** [gzip.NewReader] on it *)
  out_GzipReader : option error;
  (** [os.Create] of the document *)
  out_CreateXml : option error;
  (** [io.Copy] of the decompressed bytes into it *)
  out_CopyXml : option error;
  (** [os.Open] of the document *)
  out_OpenXml : option error;
  (** [decoder.Decode] *)
  out_Decode : result TV;
  (** [os.WriteFile] of the cache file, as in [World] *)
  out_WriteFile : option (error * option fileData);
  (** [os.Remove] of the archive; the program drops its error *)
  out_Remove : option error
}.

(** [%d] of a status code. *)
Definition itoa (n : Z) : string :=
  if n <? 0 then String "-" (time.decimal (- n)) else time.decimal n.

Fixpoint lastByte (s : string) : option ascii :=
  match s with
  | EmptyString => None
  | String c EmptyString => Some c
  | String _ rest => lastByte rest
  end.

(** [joinPath] of package [os]: the name in the directory. *)
Definition joinPath (dir name : string) : string :=
  match lastByte dir with
  | Some c => if filepath.isSep c then String.append dir name
              else String.append dir (String "/" name)
  | None => String.append dir (String "/" name)
  end.

(** The path of the file that [os.CreateTemp(dir, "epg_*.gz")] creates. *)
Definition tempPath (out : Outside) (dir : string) : string :=
  let dir := if bool_decide (dir = "") then out_TempDir out else dir in
  String.append (joinPath dir "epg_") (String.append (out_Random out) ".gz").

Section Files.
Variable config : Config.
Variable out : Outside.

(** [filepath.Join] of a directory and a file name. *)
Variable Join : string → string → string.
Variable mapUnicodeToLower : string → string.

(** The two functions that write work on the files they create: [disk] is
    the set of the paths that exist.  (The cache file, which [saveCache]
    writes, is part of [State].) *)

Definition downloadFile (url : string) (disk : gset string)
    : result string * gset string :=
  match out_Get out with
  | Err err => (Err err, disk)
  | Ok StatusCode =>
      if negb (StatusCode =? 200)
      then (Err (New (String.append "HTTP请求失败，状态码: " (itoa StatusCode))), disk)
      else
        match out_CreateTemp out with
        | Some err => (Err err, disk)
        | None =>
            let tmpFile := tempPath out (cc_DownloadDir (cfg_Cache config)) in
            let disk := {[ tmpFile ]} ∪ disk in
            match out_CopyBody out with
            | Some err => (Err err, disk)
            | None => (Ok tmpFile, disk)
            end
        end
  end.

Definition extractTarGz (gzPath destDir : string) (disk : gset string)
    : result string * gset string :=
  match out_OpenGz out with
  | Some err => (Err err, disk)
  | None =>
      match out_GzipReader out with
      | Some err => (Err err, disk)
      | None =>
          let targetPath := Join destDir (xmlFileName mapUnicodeToLower gzPath) in
          match out_CreateXml out with
          | Some err => (Err err, disk)
          | None =>
              let disk := {[ targetPath ]} ∪ disk in
              match out_CopyXml out with
              | Some err => (Err err, disk)
              | None => (Ok targetPath, disk)
              end
          end
      end
  end.

Definition parseEPGXML (xmlPath : string) : result TV :=
  match out_OpenXml out with
  | Some err => Err err
  | None => out_Decode out
  end.

(** The files after a run of [downloadAndParseEPG]: the removal of the
    archive is deferred to the end of the run, once [downloadFile] has
    returned its path; the steps after [extractTarGz] create and remove
    nothing here. *)
Definition diskAfterRun (disk : gset string) : gset string :=
  let '(r, disk) := downloadFile (cc_DownloadURL (cfg_Cache config)) disk in
  match r with
  | Err _ => disk
  | Ok tmpFile =>
      let '(_, disk) := extractTarGz tmpFile (cc_DownloadDir (cfg_Cache config)) disk in
      match out_Remove out with
      | Some _ => disk
      | None => disk ∖ {[ tmpFile ]}
      end
  end.

(** The [World] of that run: what the three functions return. *)
Definition worldOf (disk : gset string) : World :=
  {| httpGet := fst (downloadFile (cc_DownloadURL (cfg_Cache config)) disk);
     gunzip := fun tmpFile =>
       fst (extractTarGz tmpFile (cc_DownloadDir (cfg_Cache config))
              (snd (downloadFile (cc_DownloadURL (cfg_Cache config)) disk)));
     decodeXML := parseEPGXML;
     writeFile := out_WriteFile out |}.

End Files.

(** * Vocabulary of the properties *)

(** The document of the end-to-end example: one channel, one programme. *)
Definition sampleTV : TV :=
  {| tv_Channels :=
       [ {| ch_ID := "c1";
            ch_DisplayName := [ {| dn_Lang := "en"; dn_Value := "One" |};
                                {| dn_Lang := "zh"; dn_Value := "CCTV1" |} ] |} ];
     tv_Programmes :=
       [ {| prog_Start := "20240101120000 +0800"; prog_Stop := "20240101130000 +0800";
            prog_Channel := "c1"; prog_Title := "News" |} ] |}.

(** The index built from it in the zone UTC+8. *)
Definition sampleIndex : EPGCache :=
  fst (buildEPGCache (time.FixedZone 28800) sampleTV epgCache0).

(** The six fields of a 14-byte numeric portion, as [parseEPGTime] slices
    them. *)
Definition fieldsOf (b : string) : list string :=
  [ GoString.slice b 0 4; GoString.slice b 4 6; GoString.slice b 6 8;
    GoString.slice b 8 10; GoString.slice b 10 12; GoString.slice b 12 14 ].

Definition atoiFails (f : string) : bool :=
  match snd (strconv.Atoi f) with Some _ => true | None => false end.

Definition isErr {A} (r : result A) : bool :=
  match r with Err _ => true | Ok _ => false end.

(** The instant built from the six fixed-width fields of [b]; a field that
    [Atoi] refuses counts as what [Atoi] returns with the error. *)
Definition dateOfFields (Local : time.Location) (b : string) : time.Time :=
  time.Date (fst (strconv.Atoi (GoString.slice b 0 4)))
    (fst (strconv.Atoi (GoString.slice b 4 6)))
    (fst (strconv.Atoi (GoString.slice b 6 8)))
    (fst (strconv.Atoi (GoString.slice b 8 10)))
    (fst (strconv.Atoi (GoString.slice b 10 12)))
    (fst (strconv.Atoi (GoString.slice b 12 14))) Local.

(** C1 as stated: a numeric portion that is not 14 bytes long, or a field
    that fails integer parsing, makes [parseEPGTime] fail. *)
Definition failsOnAnyMalformedField : Prop :=
  ∀ (Local : time.Location) (s : string),
    let b := GoString.before GoString.space s in
    GoString.len b ≠ 14 ∨ existsb atoiFails (fieldsOf b) = true →
    isErr (parseEPGTime Local s) = true.

(** The lookup name of a channel: the value of its first display name
    tagged ["zh"] whose value is not empty. *)
Definition isZhName (dn : DisplayName) : bool :=
  bool_decide (dn_Lang dn = "zh") && negb (bool_decide (dn_Value dn = "")).

Definition zhName (ch : Channel) : option string :=
  dn_Value <$> List.find isZhName (ch_DisplayName ch).

(** The ids of the channels named [name], in document order. *)
Definition idsNamed (name : string) (chs : list Channel) : list string :=
  ch_ID <$> List.filter (fun ch => bool_decide (zhName ch = Some name)) chs.

(** The date bucket and the item a programme contributes, if both of its
    timestamps parse. *)
Definition itemOf (Local : time.Location) (prog : Programme)
    : option (string * ProgramItem) :=
  match parseEPGTime Local (prog_Start prog), parseEPGTime Local (prog_Stop prog) with
  | Ok startTime, Ok stopTime =>
      Some (time.FormatDate startTime,
            {| item_Start := time.FormatHHMM startTime;
               item_End := time.FormatHHMM stopTime;
               item_Title := prog_Title prog |})
  | _, _ => None
  end.

(** The items of the programmes of channel [ch] that fall on [date], in feed
    order. *)
Definition itemsFor (Local : time.Location) (ch date : string)
    (progs : list Programme) : list ProgramItem :=
  omap (fun prog =>
          match itemOf Local prog with
          | Some (d, it) =>
              if bool_decide (prog_Channel prog = ch ∧ d = date) then Some it else None
          | None => None
          end) progs.

(** The bucket stored at [[ch][date]], if any. *)
Definition entry (pd : gmap string (gmap string (list ProgramItem)))
    (ch date : string) : option (list ProgramItem) :=
  pd !! ch ≫= (fun byDate => byDate !! date).

(** Zero-padded [HH:MM]: two digits, a colon, two digits, with the hour
    below 24 and the minute below 60. *)
Definition isHHMM (s : string) : bool :=
  match s with
  | String h1 (String h2 (String c (String m1 (String m2 EmptyString)))) =>
      GoString.isDigit h1 && GoString.isDigit h2 && Ascii.eqb c ":"
      && GoString.isDigit m1 && GoString.isDigit m2
      && (GoString.digitVal h1 * 10 + GoString.digitVal h2 <? 24)
      && (GoString.digitVal m1 * 10 + GoString.digitVal m2 <? 60)
  | _ => false
  end.

Definition hhmm (h m : Z) : string :=
  String.append (time.appendInt h 2) (String ":"%char (time.appendInt m 2)).

(** The textual pattern YYYY-MM-DD: ten bytes, digits except for the two
    dashes. *)
Definition matchesLayout (s : string) : bool :=
  match s with
  | String y1 (String y2 (String y3 (String y4 (String d1
      (String m1 (String m2 (String d2 (String a1 (String a2 EmptyString))))))))) =>
      GoString.isDigit y1 && GoString.isDigit y2 && GoString.isDigit y3
      && GoString.isDigit y4 && Ascii.eqb d1 "-"
      && GoString.isDigit m1 && GoString.isDigit m2 && Ascii.eqb d2 "-"
      && GoString.isDigit a1 && GoString.isDigit a2
  | _ => false
  end.

(** Month and day as [monthDay] must give them for the day [yday] of a year. *)
Definition monthDayOK (leap : bool) (yday : Z) : bool :=
  let '(month, day) := time.monthDay leap yday in
  (1 <=? month) && (month <=? 12) && (1 <=? day)
  && (day <=? (if (month =? 2) && leap then 29
               else time.daysBefore month - time.daysBefore (month - 1))).

Definition isTwoDigits (s : string) : bool :=
  match s with
  | String a (String b EmptyString) => GoString.isDigit a && GoString.isDigit b
  | _ => false
  end.

Definition isFourDigits (s : string) : bool :=
  match s with
  | String a (String b (String c (String d EmptyString))) =>
      GoString.isDigit a && GoString.isDigit b && GoString.isDigit c && GoString.isDigit d
  | _ => false
  end.

(** What [Date] adds to the first day of the year for month [m], day [d]. *)
Definition dayOfYear (leap : bool) (m d : Z) : Z :=
  time.daysBefore (m - 1) + (if leap && (3 <=? m) then 1 else 0) + (d - 1).

(** Days in month [m]. *)
Definition monthLength (leap : bool) (m : Z) : Z :=
  if (m =? 2) && leap then 29 else time.daysBefore m - time.daysBefore (m - 1).

(** [monthDay] inverts [dayOfYear] at a day [d] that month [m] has. *)
Definition dayOfYearOK (leap : bool) (m d : Z) : bool :=
  (monthLength leap m <? d)
  || ((0 <=? dayOfYear leap m d)
      && (dayOfYear leap m d <=? (if leap then 365 else 364))
      && bool_decide (time.monthDay leap (dayOfYear leap m d) = (m, d))).

(** The four decimal digits of [x]. *)
Definition fourDigits (x : Z) : string :=
  String (time.digitChar (x / 1000))
    (String (time.digitChar (x / 100 mod 10))
       (String (time.digitChar (x / 10 mod 10))
          (String (time.digitChar (x mod 10)) EmptyString))).

(** The error with which a run stops before the build, if Fetch, Decompress
    or Parse fails. *)
Definition earlyFailure (w : World) : option error :=
  match httpGet w with
  | Err e => Some (Wrap "下载失败" e)
  | Ok tmpFile =>
      match gunzip w tmpFile with
      | Err e => Some (Wrap "解压失败" e)
      | Ok xmlFilePath =>
          match decodeXML w xmlFilePath with
          | Err e => Some (Wrap "解析XML失败" e)
          | Ok _ => None
          end
      end
  end.

(** The document a run gets to build from. *)
Definition fetched (w : World) : option TV :=
  match httpGet w with
  | Ok tmpFile =>
      match gunzip w tmpFile with
      | Ok xmlFilePath =>
          match decodeXML w xmlFilePath with
          | Ok tv => Some tv
          | Err _ => None
          end
      | Err _ => None
      end
  | Err _ => None
  end.

(** C2 as stated: whenever a run ends with an error, the cache is what it
    was before the run. *)
Definition failedRunKeepsIndex : Prop :=
  ∀ (Local : time.Location) (w : World) (st : State),
    is_Some (snd (downloadAndParseEPG Local w st)) →
    cache (fst (downloadAndParseEPG Local w st)) = cache st.

Definition oldIndex : EPGCache :=
  {| ChannelMap := {[ "Old" := "o1" ]}; ProgramData := ∅ |}.

Definition diskFull : World :=
  {| httpGet := Ok "epg_1.gz";
     gunzip := fun _ => Ok "epg_1.xml";
     decodeXML := fun _ => Ok sampleTV;
     writeFile := Some (External "no space left on device", None) |}.

Definition feedWorld : World :=
  {| httpGet := Ok "epg_1.gz";
     gunzip := fun _ => Ok "epg_1.xml";
     decodeXML := fun _ => Ok sampleTV;
     writeFile := None |}.

(** Every byte is below 128. *)
Definition isASCII (s : string) : bool :=
  forallb (fun c => (Ascii.nat_of_ascii c <? 128)%nat) (list_ascii_of_string s).

Definition validItem (it : ProgramItem) : Prop :=
  utf8.ValidString (item_Start it) = true
  ∧ utf8.ValidString (item_End it) = true
  ∧ utf8.ValidString (item_Title it) = true.

Definition validDates (byDate : gmap string (list ProgramItem)) : Prop :=
  map_Forall (fun d l => utf8.ValidString d = true ∧ Forall validItem l) byDate.

(** Every string of the cache is valid UTF-8. *)
Definition validCache (c : EPGCache) : Prop :=
  map_Forall (fun k v => utf8.ValidString k = true ∧ utf8.ValidString v = true)
    (ChannelMap c)
  ∧ map_Forall (fun ch byDate => utf8.ValidString ch = true ∧ validDates byDate)
      (ProgramData c).

(** Every string of a decoded document is valid UTF-8: the XML decoder
    refuses a document with an invalid byte sequence in character data or in
    an attribute value. *)
Definition validTV (tv : TV) : Prop :=
  Forall (fun ch =>
            utf8.ValidString (ch_ID ch) = true
            ∧ Forall (fun dn => utf8.ValidString (dn_Lang dn) = true
                                ∧ utf8.ValidString (dn_Value dn) = true)
                (ch_DisplayName ch))
    (tv_Channels tv)
  ∧ Forall (fun prog =>
              utf8.ValidString (prog_Start prog) = true
              ∧ utf8.ValidString (prog_Stop prog) = true
              ∧ utf8.ValidString (prog_Channel prog) = true
              ∧ utf8.ValidString (prog_Title prog) = true)
      (tv_Programmes tv).

(** The values the shared cache takes while the program runs: it starts
    empty and is changed by [loadCache] and by runs of the pipeline, on
    documents that come out of the XML decoder. *)
Inductive reachable (Local : time.Location) : EPGCache → Prop :=
| reach_start : reachable Local epgCache0
| reach_load (c : EPGCache) (file : option fileData) :
    reachable Local c →
    reachable Local (cache (fst (loadCache {| cache := c; cacheFile := file |})))
| reach_run (c : EPGCache) (file : option fileData) (w : World) :
    reachable Local c →
    (∀ path tv, decodeXML w path = Ok tv → validTV tv) →
    reachable Local
      (cache (fst (downloadAndParseEPG Local w {| cache := c; cacheFile := file |}))).

Definition twoReadersOneBuild : list Concurrent.thread :=
  [ Concurrent.Reader "CCTV1" "2024-01-01" Concurrent.RStart;
    Concurrent.Writer sampleTV Concurrent.WStart;
    Concurrent.Reader "CCTV1" "2024-01-01" Concurrent.RStart ].

(** The first handler answers before the build takes the lock, the second
    one is kept waiting until the build has returned. *)
Definition aSchedule : list nat :=
  [0; 0; 2; 0; 0; 1; 1; 1; 1; 1; 1; 1; 2; 2; 2; 2; 2]%nat.

Definition afterSchedule : Concurrent.config :=
  default {| Concurrent.shared := epgCache0; Concurrent.threads := [] |}
    (Concurrent.run (time.FixedZone 28800) aSchedule
       {| Concurrent.shared := epgCache0; Concurrent.threads := twoReadersOneBuild |}).

(** Does the feed hold a programme of channel [ch] whose two timestamps
    parse? *)
Definition hasProgrammes (Local : time.Location) (ch : string)
    (progs : list Programme) : bool :=
  existsb (fun prog => bool_decide (prog_Channel prog = ch)
                       && match itemOf Local prog with Some _ => true | None => false end)
    progs.

(** No level of the programme index is empty: every channel id has a date,
    every date a programme. *)
Definition noEmptyLevel (pd : gmap string (gmap string (list ProgramItem))) : Prop :=
  map_Forall (fun _ byDate => byDate ≠ ∅ ∧ map_Forall (fun _ l => l ≠ []) byDate) pd.

(** The answer to a query, read off the feed document. *)
Definition answerFromFeed (Local : time.Location) (tv : TV)
    (chName dateStr : string) : response :=
  if bool_decide (chName = "") || bool_decide (dateStr = "")
  then ErrorResponse msgMissingParameter
  else
    match time.ParseDate dateStr with
    | inr _ => ErrorResponse msgInvalidDateFormat
    | inl _ =>
        match last (idsNamed chName (tv_Channels tv)) with
        | None => ErrorResponse (msgChannelNotFound chName)
        | Some chID =>
            if negb (hasProgrammes Local chID (tv_Programmes tv))
            then ErrorResponse (msgNoProgramData chName)
            else
              match itemsFor Local chID dateStr (tv_Programmes tv) with
              | [] => ErrorResponse (msgNoProgramDataForDate chName dateStr)
              | programs =>
                  DataResponse {| resp_ChannelName := chName;
                                  resp_Date := dateStr;
                                  resp_EPGData := programs |}
              end
        end
    end.

(** A date of the calendar written YYYY-MM-DD: the textual pattern, a month
    from 01 to 12 and a day that the month has in that year. *)
Definition isCalendarDate (s : string) : bool :=
  matchesLayout s
  && (let y := GoString.digitsVal 0 (GoString.slice s 0 4) in
      let m := GoString.digitsVal 0 (GoString.slice s 5 7) in
      let d := GoString.digitsVal 0 (GoString.slice s 8 10) in
      (1 <=? m) && (m <=? 12) && (1 <=? d) && (d <=? time.daysIn m y)).

(** No setting is left at its zero value. *)
Definition configured (config : Config) : Prop :=
  srv_ListenPort (cfg_Server config) ≠ 0
  ∧ srv_CronSchedule (cfg_Server config) ≠ ""
  ∧ srv_TimeZone (cfg_Server config) ≠ ""
  ∧ cc_DownloadURL (cfg_Cache config) ≠ ""
  ∧ cc_DownloadDir (cfg_Cache config) ≠ ""
  ∧ cc_CacheFile (cfg_Cache config) ≠ ""
  ∧ log_Level (cfg_Log config) ≠ "".

(** The bytes of the name that [os.CreateTemp] makes from the pattern
    [epg_*.gz], before the [.gz]: the prefix and decimal digits. *)
Definition tempByte (c : ascii) : bool :=
  GoString.isDigit c || bool_decide (c ∈ ["e"; "p"; "g"; "_"]%char).

(** A goroutine that has returned. *)
Definition finished (t : Concurrent.thread) : bool :=
  match t with
  | Concurrent.Reader _ _ (Concurrent.RDone _) | Concurrent.Writer _ Concurrent.WDone => true
  | _ => false
  end.

(** The steps a goroutine has before it at most. *)
Definition stepsLeft (t : Concurrent.thread) : nat :=
  match t with
  | Concurrent.Reader _ _ pc =>
      match pc with
      | Concurrent.RStart => 6
      | Concurrent.RWait => 5
      | Concurrent.RLocked => 4
      | Concurrent.RGotID _ => 3
      | Concurrent.RGotDates _ _ => 2
      | Concurrent.RRespond _ => 1
      | Concurrent.RDone _ => 0
      end
  | Concurrent.Writer tv pc =>
      match pc with
      | Concurrent.WStart =>
          5 + List.length (tv_Channels tv) + List.length (tv_Programmes tv)
      | Concurrent.WLocked =>
          4 + List.length (tv_Channels tv) + List.length (tv_Programmes tv)
      | Concurrent.WCleared =>
          3 + List.length (tv_Channels tv) + List.length (tv_Programmes tv)
      | Concurrent.WChannels rest => 2 + List.length rest + List.length (tv_Programmes tv)
      | Concurrent.WProgs rest => 1 + List.length rest
      | Concurrent.WDone => 0
      end
  end%nat.

(** The steps all the goroutines together have before them at most. *)
Definition workLeft (ts : list Concurrent.thread) : nat :=
  foldr (fun t n => (stepsLeft t + n)%nat) 0%nat ts.

(** The path of the archive of a run and the path of its document. *)
Definition archiveOf (config : Config) (out : Outside) : string :=
  tempPath out (cc_DownloadDir (cfg_Cache config)).

Definition documentOf (config : Config) (out : Outside)
    (Join : string → string → string) (mapUnicodeToLower : string → string) : string :=
  Join (cc_DownloadDir (cfg_Cache config))
    (xmlFileName mapUnicodeToLower (archiveOf config out)).

(** The default configuration with the download directory written without
    [./], an outside world in which the copy of the response body fails and
    one in which every call succeeds. *)
Definition sampleConfig : Config :=
  {| cfg_Server := cfg_Server (setDefaultConfig config0);
     cfg_Cache := {| cc_DownloadURL := cc_DownloadURL (cfg_Cache (setDefaultConfig config0));
                     cc_DownloadDir := "epg_download";
                     cc_CacheFile := cc_CacheFile (cfg_Cache (setDefaultConfig config0)) |};
     cfg_Log := cfg_Log (setDefaultConfig config0) |}.

Definition brokenCopy : Outside :=
  {| out_Get := Ok 200; out_TempDir := "/tmp"; out_Random := "123456789";
     out_CreateTemp := None; out_CopyBody := Some (External "unexpected EOF");
     out_OpenGz := None; out_GzipReader := None; out_CreateXml := None;
     out_CopyXml := None; out_OpenXml := None; out_Decode := Ok sampleTV;
     out_WriteFile := None; out_Remove := None |}.

Definition allWell : Outside :=
  {| out_Get := Ok 200; out_TempDir := "/tmp"; out_Random := "123456789";
     out_CreateTemp := None; out_CopyBody := None;
     out_OpenGz := None; out_GzipReader := None; out_CreateXml := None;
     out_CopyXml := None; out_OpenXml := None; out_Decode := Ok sampleTV;
     out_WriteFile := None; out_Remove := None |}.

(** [filepath.Join] of a directory and a file name that [Clean] leaves as
    they are (no [.] or [..] element, no doubled or trailing slash). *)
Definition joinPlain (dir name : string) : string :=
  String.append dir (String "/" name).

(** Seconds since 1970-01-01 00:00:00 on the clock of the location of
    [t]: the instant shifted by the offset in force at it. *)
Definition wallClock (t : time.Time) : Z :=
  time.unix t + time.offset (time.lookup (time.loc t) (time.unix t)).

(** [y]-[m]-[d] is a date of the calendar, and the day numbered [days]
    from 1970-01-01. *)
Definition isDateOfDay (y m d days : Z) : Prop :=
  1 ≤ m ≤ 12 ∧ 1 ≤ d ≤ time.daysIn m y
  ∧ time.daysSinceEpoch y + dayOfYear (time.isLeap y) m d = days.

(** The two decimal digits of [x]. *)
Definition twoDigits (x : Z) : string :=
  String (time.digitChar (x / 10)) (String (time.digitChar (x mod 10)) EmptyString).

(** YYYY-MM-DD and HH:MM, digit by digit. *)
Definition dateText (y m d : Z) : string :=
  String.append (fourDigits y)
    (String "-"%char (String.append (twoDigits m) (String "-"%char (twoDigits d)))).

Definition timeText (h m : Z) : string :=
  String.append (twoDigits h) (String ":"%char (twoDigits m)).

(** C4 as stated: the date check asks for the pattern YYYY-MM-DD and no
    more, so a date that matches it is not refused. *)
Definition patternPassesDateCheck : Prop :=
  ∀ (c : EPGCache) (chName dateStr : string),
    chName ≠ "" → matchesLayout dateStr = true →
    epgQueryHandler c chName dateStr ≠ ErrorResponse msgInvalidDateFormat.

(** C5 as stated: the date of every bucket reads YYYY-MM-DD. *)
Definition bucketDatesMatchLayout : Prop :=
  ∀ (Local : time.Location) (tv : TV) (c : EPGCache) (ch date : string)
    (l : list ProgramItem),
    entry (ProgramData (fst (buildEPGCache Local tv c))) ch date = Some l →
    matchesLayout date = true.

(** A feed whose only programme starts in month 13 of the year 9999. *)
Definition farFeed : TV :=
  {| tv_Channels := [];
     tv_Programmes := [ {| prog_Start := "99991301000000"; prog_Stop := "99991301010000";
                           prog_Channel := "c1"; prog_Title := "Far" |} ] |}.

(** A programme that parses and one whose start is four bytes short. *)
Definition morning : Programme :=
  {| prog_Start := "20240101100000 +0800"; prog_Stop := "20240101110000 +0800";
     prog_Channel := "c1"; prog_Title := "Morning" |}.

Definition shortStart : Programme :=
  {| prog_Start := "2024010112 +0800"; prog_Stop := "20240101130000 +0800";
     prog_Channel := "c1"; prog_Title := "Short" |}.

(** * Properties *)

(** ** Splitting and the timestamp parser *)

Section SplitFacts.
Import GoString.

Lemma Split_head (s : string) (sep : ascii) :
  ∃ pieces, Split s sep = before sep s :: pieces.
Proof.
  induction s as [|c s [pieces IH]]; simpl.
  - by exists [].
  - destruct (Ascii.eqb c sep).
    + by exists (Split s sep).
    + rewrite IH. by exists pieces.
Qed.

Lemma Split_nonempty (s : string) (sep : ascii) :
  (1 ≤ List.length (Split s sep))%nat.
Proof. destruct (Split_head s sep) as [pieces ->]. simpl. lia. Qed.

Lemma before_no_sep (sep : ascii) (s : string) :
  contains sep s = false → before sep s = s.
Proof.
  induction s as [|c s IH]; simpl; [done|].
  destruct (Ascii.eqb c sep); simpl; [done|].
  intros H. by rewrite IH.
Qed.

Lemma before_app_sep (sep : ascii) (s rest : string) :
  contains sep s = false →
  before sep (String.append s (String sep rest)) = s.
Proof.
  induction s as [|c s IH]; simpl.
  - by rewrite Ascii.eqb_refl.
  - destruct (Ascii.eqb c sep); simpl; [done|].
    intros H. by rewrite IH.
Qed.

End SplitFacts.

Section ParseTimeFacts.
Import GoString.
Variable Local : time.Location.

Lemma parseEPGTime_unfold (s : string) :
  parseEPGTime Local s =
    if len (before space s) =? 14 then Ok (dateOfFields Local (before space s))
    else Err errTimeLength.
Proof.
  unfold parseEPGTime.
  destruct (Split_head s space) as [pieces ->]. simpl.
  by destruct (len (before space s) =? 14).
Qed.

Lemma Atoi_syntax_zero (f : string) :
  snd (strconv.Atoi f) = Some strconv.ErrSyntax → fst (strconv.Atoi f) = 0.
Proof.
  unfold strconv.Atoi.
  destruct f as [|c r]; simpl; [done|].
  destruct (Ascii.eqb c "-"); [|destruct (Ascii.eqb c "+")].
  all: repeat match goal with
         | |- context [match ?x with _ => _ end] => destruct x eqn:?; simpl
         end; congruence.
Qed.

Lemma isDigit_val (c : ascii) : isDigit c = true → 0 ≤ digitVal c ≤ 9.
Proof.
  unfold isDigit, digitVal. intros H.
  apply andb_true_iff in H as [H1%Nat.leb_le H2%Nat.leb_le]. lia.
Qed.

Lemma digitsVal_bound (s : string) (acc : Z) :
  0 ≤ acc → allDigits s = true →
  0 ≤ digitsVal acc s < (acc + 1) * 10 ^ Z.of_nat (String.length s).
Proof.
  revert acc. induction s as [|c r IH]; intros acc Hacc; simpl.
  - intros _. lia.
  - intros [Hc Hr]%andb_true_iff. apply isDigit_val in Hc.
    destruct (IH (acc * 10 + digitVal c)) as [Hlo Hhi]; [lia|done|].
    split; [done|].
    rewrite Nat2Z.inj_succ, Z.pow_succ_r by lia.
    assert (0 < 10 ^ Z.of_nat (String.length r)) by (apply Z.pow_pos_nonneg; lia).
    nia.
Qed.

(** Up to 18 bytes the value fits an [int]: no range error. *)
Lemma Atoi_short_no_range (f : string) :
  (String.length f ≤ 18)%nat → snd (strconv.Atoi f) ≠ Some strconv.ErrRange.
Proof.
  intros Hlen. unfold strconv.Atoi.
  set (sb := match f with
             | String c rest =>
                 if Ascii.eqb c "-" then (true, rest)
                 else if Ascii.eqb c "+" then (false, rest) else (false, f)
             | EmptyString => (false, f)
             end).
  assert (Hb : (String.length (snd sb) ≤ 18)%nat).
  { subst sb. destruct f as [|c r]; simpl in *; [lia|].
    destruct (Ascii.eqb c "-"); [simpl; lia|].
    destruct (Ascii.eqb c "+"); simpl; lia. }
  destruct sb as [neg body]. simpl in Hb.
  destruct body as [|c r] eqn:Eb; [done|]. rewrite <- Eb in *.
  destruct (allDigits body) eqn:Hd; [|done].
  pose proof (digitsVal_bound body 0 ltac:(lia) Hd) as [Hlo Hhi].
  assert (10 ^ Z.of_nat (String.length body) ≤ 10 ^ 18)
    by (apply Z.pow_le_mono_r; lia).
  assert (10 ^ 18 < strconv.maxInt) by (by vm_compute).
  assert (strconv.minInt < - 10 ^ 18) by (by vm_compute).
  destruct (Z.ltb_spec strconv.maxInt (if neg then - digitsVal 0 body else digitsVal 0 body));
    [destruct neg; lia|].
  destruct (Z.ltb_spec (if neg then - digitsVal 0 body else digitsVal 0 body) strconv.minInt);
    [destruct neg; lia|done].
Qed.

Lemma substring_length_le (n m : nat) (s : string) :
  (String.length (String.substring n m s) ≤ m)%nat.
Proof.
  revert n m. induction s as [|c r IH]; intros [|n] [|m]; simpl; try lia.
  - specialize (IH 0%nat m). lia.
  - apply (IH n 0%nat).
  - apply (IH n (S m)).
Qed.

End ParseTimeFacts.

Lemma fieldsOf_short (b f : string) : In f (fieldsOf b) → (String.length f ≤ 4)%nat.
Proof.
  unfold fieldsOf, GoString.slice. simpl.
  intros H. repeat destruct H as [<-|H]; try done.
  all: etrans; [apply substring_length_le|lia].
Qed.

Lemma field_failure_is_zero (b f : string) :
  In f (fieldsOf b) → atoiFails f = true → fst (strconv.Atoi f) = 0.
Proof.
  intros Hin Hf. apply Atoi_syntax_zero.
  pose proof (Atoi_short_no_range f) as Hr.
  apply fieldsOf_short in Hin.
  unfold atoiFails in Hf.
  destruct (snd (strconv.Atoi f)) as [[]|]; [done| |done].
  exfalso. apply Hr; [lia|done].
Qed.

(** C10: [parseEPGTime] fails exactly when the part before the first space
    is not 14 bytes long, and then with the length error; a 14-byte part is
    accepted whatever its bytes are, a field refused by [Atoi] counting as 0;
    [Split] never returns an empty list, so the first error branch is dead. *)
Theorem parseEPGTime_fails_iff_length (Local : time.Location) (s : string) :
  (isErr (parseEPGTime Local s) = true ↔ GoString.len (GoString.before GoString.space s) ≠ 14)
  ∧ parseEPGTime Local s =
      (if GoString.len (GoString.before GoString.space s) =? 14
       then Ok (dateOfFields Local (GoString.before GoString.space s))
       else Err errTimeLength)
  ∧ (∀ f, In f (fieldsOf (GoString.before GoString.space s)) →
          atoiFails f = true → fst (strconv.Atoi f) = 0)
  ∧ (List.length (GoString.Split s GoString.space) <? 1)%nat = false
  ∧ parseEPGTime Local s ≠ Err errInvalidTimeFormat.
Proof.
  rewrite parseEPGTime_unfold.
  split; [|split; [done|split; [|split]]].
  - destruct (Z.eqb_spec (GoString.len (GoString.before GoString.space s)) 14);
      simpl; split; intros; congruence.
  - intros f. apply field_failure_is_zero.
  - apply Nat.ltb_ge, Split_nonempty.
  - destruct (_ =? 14); [done|]. unfold errTimeLength, errInvalidTimeFormat.
    intros [=].
Qed.

(** C1, counterexample: in ["2024010112000x +0800"] the seconds field
    ["0x"] is refused by [Atoi], yet an instant is returned (that of
    12:00:00). *)
Lemma parseEPGTime_accepts_bad_field : ¬ failsOnAnyMalformedField.
Proof.
  intros H.
  specialize (H (time.FixedZone 28800) "2024010112000x +0800").
  assert (Hok : parseEPGTime (time.FixedZone 28800) "2024010112000x +0800"
                = Ok {| time.unix := 1704081600; time.loc := time.FixedZone 28800 |})
    by (by vm_compute).
  rewrite Hok in H. simpl in H.
  assert (true = true → false = true) as Habs by (intros _; apply H; right; by vm_compute).
  discriminate (Habs eq_refl).
Qed.

(** C1, amended: a numeric portion that is not exactly 14 bytes long makes
    [parseEPGTime] fail, with the length error. *)
Theorem parseEPGTime_rejects_wrong_length (Local : time.Location) (s : string) :
  GoString.len (GoString.before GoString.space s) ≠ 14 →
  parseEPGTime Local s = Err errTimeLength.
Proof.
  intros H. rewrite parseEPGTime_unfold.
  by destruct (Z.eqb_spec (GoString.len (GoString.before GoString.space s)) 14).
Qed.

Lemma parseEPGTime_rejects_wrong_length_witness :
  GoString.len (GoString.before GoString.space "2024010112000 +0800") ≠ 14
  ∧ parseEPGTime (time.FixedZone 28800) "2024010112000 +0800" = Err errTimeLength.
Proof.
  split; [by vm_compute|].
  apply (parseEPGTime_rejects_wrong_length (time.FixedZone 28800) "2024010112000 +0800").
  by vm_compute.
Defined.

(** ** The index builder *)

Section BuildFacts.
Variable Local : time.Location.

Lemma scanDisplayNames_find (id : string) (dns : list DisplayName)
    (m : gmap string string) :
  scanDisplayNames id dns m =
    match List.find isZhName dns with
    | Some dn => <[dn_Value dn := id]> m
    | None => m
    end.
Proof.
  induction dns as [|dn dns IH]; simpl; [done|].
  unfold isZhName at 1. by destruct (_ && _).
Qed.

Lemma buildChannelMap_snoc (chs : list Channel) (ch : Channel)
    (m : gmap string string) :
  buildChannelMap (chs ++ [ch]) m
  = scanDisplayNames (ch_ID ch) (ch_DisplayName ch) (buildChannelMap chs m).
Proof. unfold buildChannelMap. by rewrite foldl_app. Qed.

Lemma idsNamed_snoc (name : string) (chs : list Channel) (ch : Channel) :
  idsNamed name (chs ++ [ch])
  = idsNamed name chs ++ (if bool_decide (zhName ch = Some name) then [ch_ID ch] else []).
Proof.
  unfold idsNamed. rewrite List.filter_app, fmap_app. simpl.
  by destruct (bool_decide _).
Qed.

Lemma buildChannelMap_lookup (chs : list Channel) (name : string) :
  buildChannelMap chs ∅ !! name = last (idsNamed name chs).
Proof.
  induction chs as [|ch chs IH] using rev_ind; [done|].
  rewrite buildChannelMap_snoc, idsNamed_snoc, scanDisplayNames_find.
  unfold zhName. destruct (List.find isZhName (ch_DisplayName ch)) as [dn|]; simpl.
  - destruct (decide (dn_Value dn = name)) as [->|Hne].
    + rewrite lookup_insert_eq, bool_decide_eq_true_2 by done.
      by rewrite last_snoc.
    + rewrite lookup_insert_ne, bool_decide_eq_false_2 by congruence.
      by rewrite app_nil_r.
  - by rewrite app_nil_r.
Qed.

Lemma addProgramme_itemOf (pd : gmap string (gmap string (list ProgramItem)))
    (prog : Programme) :
  addProgramme Local pd prog =
    match itemOf Local prog with
    | Some (d, it) =>
        <[prog_Channel prog :=
            <[d := default [] (entry pd (prog_Channel prog) d) ++ [it]]>
              (default ∅ (pd !! prog_Channel prog))]> pd
    | None => pd
    end.
Proof.
  unfold addProgramme, itemOf, entry.
  destruct (parseEPGTime Local (prog_Start prog)) as [startTime|]; [|done].
  destruct (parseEPGTime Local (prog_Stop prog)) as [stopTime|]; [|done].
  destruct (pd !! prog_Channel prog) as [byDate|] eqn:Hch; simpl.
  - rewrite Hch. simpl.
    destruct (byDate !! time.FormatDate startTime) as [l|] eqn:Hd; simpl.
    + by rewrite Hd.
    + by rewrite lookup_insert_eq, insert_insert_eq.
  - rewrite lookup_insert_eq. simpl.
    rewrite lookup_empty, lookup_insert_eq, !insert_insert_eq. done.
Qed.

Lemma entry_addProgramme (pd : gmap string (gmap string (list ProgramItem)))
    (prog : Programme) (ch date : string) :
  entry (addProgramme Local pd prog) ch date =
    match itemsFor Local ch date [prog] with
    | [] => entry pd ch date
    | l => Some (default [] (entry pd ch date) ++ l)
    end.
Proof.
  rewrite addProgramme_itemOf. unfold itemsFor. simpl.
  destruct (itemOf Local prog) as [[d it]|]; [|done].
  case_bool_decide as Hk; simpl.
  - destruct Hk as [-> ->]. unfold entry at 1.
    rewrite lookup_insert_eq. simpl. by rewrite lookup_insert_eq.
  - unfold entry at 1 3.
    destruct (decide (prog_Channel prog = ch)) as [Hc|Hc].
    + rewrite Hc, lookup_insert_eq. simpl.
      rewrite lookup_insert_ne by naive_solver.
      by destruct (pd !! ch).
    + by rewrite lookup_insert_ne.
Qed.

Lemma itemsFor_cons (ch date : string) (prog : Programme) (progs : list Programme) :
  itemsFor Local ch date (prog :: progs)
  = itemsFor Local ch date [prog] ++ itemsFor Local ch date progs.
Proof.
  unfold itemsFor. simpl.
  destruct (itemOf Local prog) as [[d it]|]; [|done].
  by destruct (bool_decide _).
Qed.

Lemma entry_buildProgramData (progs : list Programme)
    (pd : gmap string (gmap string (list ProgramItem))) (ch date : string) :
  entry (buildProgramData Local progs pd) ch date =
    match itemsFor Local ch date progs with
    | [] => entry pd ch date
    | l => Some (default [] (entry pd ch date) ++ l)
    end.
Proof.
  revert pd. induction progs as [|prog progs IH]; intros pd; [done|].
  rewrite (itemsFor_cons ch date prog progs).
  change (buildProgramData Local (prog :: progs) pd)
    with (buildProgramData Local progs (addProgramme Local pd prog)).
  rewrite IH, entry_addProgramme.
  destruct (itemsFor Local ch date [prog]) as [|i1 l1] eqn:E1;
    destruct (itemsFor Local ch date progs) as [|i2 l2] eqn:E2; simpl; try done.
  - by rewrite app_nil_r.
  - by rewrite <- app_assoc.
Qed.

End BuildFacts.

(** ** Shape of the formatted times *)

Lemma hhmm_shape (h m : Z) : 0 ≤ h < 24 → 0 ≤ m < 60 → isHHMM (hhmm h m) = true.
Proof.
  intros Hh Hm.
  assert (Hall : forallb (fun h => forallb (fun m => isHHMM (hhmm h m)) (seqZ 0 60))
                   (seqZ 0 24) = true) by (by vm_compute).
  rewrite forallb_forall in Hall.
  specialize (Hall h). rewrite forallb_forall in Hall.
  apply Hall; apply list_elem_of_In, elem_of_seqZ; lia.
Qed.

Lemma fields_time_range (t : time.Time) :
  0 ≤ time.chour (time.fields t) < 24 ∧ 0 ≤ time.cmin (time.fields t) < 60.
Proof.
  unfold time.fields.
  destruct (time.yearDay _) as [year yday].
  destruct (time.monthDay _ _) as [month day]. simpl.
  set (wall := time.unix t + _).
  pose proof (Z.mod_pos_bound wall 86400 ltac:(lia)) as Hs.
  pose proof (Z.mod_pos_bound (wall mod 86400) 3600 ltac:(lia)).
  split; split.
  - apply Z.div_pos; lia.
  - apply Z.div_lt_upper_bound; lia.
  - apply Z.div_pos; lia.
  - apply Z.div_lt_upper_bound; lia.
Qed.

Lemma FormatHHMM_shape (t : time.Time) : isHHMM (time.FormatHHMM t) = true.
Proof.
  destruct (fields_time_range t).
  by apply (hhmm_shape (time.chour (time.fields t)) (time.cmin (time.fields t))).
Qed.

(** The day of the year is below 365, or is 365 in a leap year. *)
Lemma yearDay_range (days : Z) :
  let '(year, yday) := time.yearDay days in
  0 ≤ yday ≤ 365 ∧ (time.isLeap year = false → yday ≤ 364).
Proof.
  unfold time.yearDay, time.isLeap.
  set (d0 := days + 719162).
  set (d1 := d0 mod 146097).
  set (n100 := Z.min 3 (d1 / 36524)).
  set (d2 := d1 - 36524 * n100).
  set (d3 := d2 mod 1461).
  set (n1 := Z.min 3 (d3 / 365)).
  set (year := 400 * (d0 / 146097) + 100 * n100 + 4 * (d2 / 1461) + n1 + 1).
  assert (H1 : 0 ≤ d1 < 146097) by (apply Z.mod_pos_bound; lia).
  assert (H2 : 0 ≤ d2 ≤ 36524) by (subst d2 n100; Z.div_mod_to_equations; lia).
  assert (H3 : 0 ≤ d3 < 1461) by (apply Z.mod_pos_bound; lia).
  split; [subst n1; Z.div_mod_to_equations; lia|].
  intros Hleap.
  destruct (Z.le_gt_cases (d3 - 365 * n1) 364) as [|Hlast]; [done|exfalso].
  assert (Hn1 : n1 = 3 ∧ d3 = 1460) by (subst n1; Z.div_mod_to_equations; lia).
  destruct Hn1 as [Hn1 Hd3].
  assert (Hy4 : year mod 4 = 0).
  { subst year. rewrite Hn1.
    replace (400 * (d0 / 146097) + 100 * n100 + 4 * (d2 / 1461) + 3 + 1)
      with ((100 * (d0 / 146097) + 25 * n100 + d2 / 1461 + 1) * 4) by lia.
    apply Z.mod_mul. lia. }
  rewrite Hy4 in Hleap. simpl in Hleap.
  apply orb_false_iff in Hleap as [H100%negb_false_iff%Z.eqb_eq H400%Z.eqb_neq].
  assert (Hn4 : d2 / 1461 = 24).
  { subst year. rewrite Hn1 in H100. subst d3 n100.
    revert H100. Z.div_mod_to_equations. lia. }
  assert (Hd2 : d2 = 36524) by (subst d3; revert Hd3 Hn4; Z.div_mod_to_equations; lia).
  assert (Hn100 : n100 = 3) by (subst d2 n100; revert Hd2; Z.div_mod_to_equations; lia).
  apply H400. subst year. rewrite Hn1, Hn4, Hn100.
  replace (400 * (d0 / 146097) + 100 * 3 + 4 * 24 + 3 + 1)
    with ((d0 / 146097 + 1) * 400) by lia.
  apply Z.mod_mul. lia.
Qed.

Lemma monthDay_range (leap : bool) (yday : Z) :
  0 ≤ yday ≤ (if leap then 365 else 364) → monthDayOK leap yday = true.
Proof.
  intros H.
  assert (Hall : forallb (fun yd => monthDayOK true yd) (seqZ 0 366)
                 && forallb (fun yd => monthDayOK false yd) (seqZ 0 365) = true)
    by (by vm_compute).
  apply andb_true_iff in Hall as [Ht Hf]. rewrite forallb_forall in Ht, Hf.
  destruct leap; [apply Ht|apply Hf]; apply list_elem_of_In, elem_of_seqZ; lia.
Qed.

Lemma fields_date_range (t : time.Time) :
  1 ≤ time.cmonth (time.fields t) ≤ 12
  ∧ 1 ≤ time.cday (time.fields t)
        ≤ time.daysIn (time.cmonth (time.fields t)) (time.cyear (time.fields t)).
Proof.
  unfold time.fields.
  set (wall := time.unix t + _).
  pose proof (yearDay_range (wall / 86400)) as Hyd.
  destruct (time.yearDay (wall / 86400)) as [year yday].
  destruct Hyd as [Hyd Hleap].
  pose proof (monthDay_range (time.isLeap year) yday) as Hmd.
  unfold monthDayOK in Hmd.
  destruct (time.monthDay (time.isLeap year) yday) as [month day].
  cbn [time.cmonth time.cday time.cyear]. unfold time.daysIn.
  assert (Hok : 0 ≤ yday ≤ (if time.isLeap year then 365 else 364)).
  { destruct (time.isLeap year); [lia|]. specialize (Hleap eq_refl). lia. }
  apply Hmd in Hok.
  repeat (apply andb_true_iff in Hok as [Hok ?]).
  lia.
Qed.

Lemma appendInt_two_digits (x : Z) : 0 ≤ x < 100 → isTwoDigits (time.appendInt x 2) = true.
Proof.
  intros Hx.
  assert (Hall : forallb (fun x => isTwoDigits (time.appendInt x 2)) (seqZ 0 100) = true)
    by (by vm_compute).
  rewrite forallb_forall in Hall. apply Hall, list_elem_of_In, elem_of_seqZ. lia.
Qed.

Lemma appendInt_four_digits (x : Z) :
  0 ≤ x ≤ 9999 → isFourDigits (time.appendInt x 4) = true.
Proof.
  intros Hx.
  assert (Hall : forallb (fun h => forallb (fun l => isFourDigits (time.appendInt (100 * h + l) 4))
                                     (seqZ 0 100)) (seqZ 0 100) = true)
    by (by vm_compute).
  pose proof (Z.mod_pos_bound x 100 ltac:(lia)).
  assert (0 ≤ x / 100 < 100)
    by (split; [apply Z.div_pos; lia|apply Z.div_lt_upper_bound; lia]).
  rewrite forallb_forall in Hall.
  assert (Hh : In (x / 100) (seqZ 0 100)) by (apply list_elem_of_In, elem_of_seqZ; lia).
  apply Hall in Hh. rewrite forallb_forall in Hh.
  assert (Hl : In (x mod 100) (seqZ 0 100)) by (apply list_elem_of_In, elem_of_seqZ; lia).
  apply Hh in Hl. by rewrite <- Z.div_mod in Hl by lia.
Qed.

Lemma matchesLayout_parts (y m d : string) :
  isFourDigits y = true → isTwoDigits m = true → isTwoDigits d = true →
  matchesLayout (String.append y (String "-"%char (String.append m (String "-"%char d))))
  = true.
Proof.
  destruct y as [|y1 [|y2 [|y3 [|y4 [|]]]]]; try done.
  destruct m as [|m1 [|m2 [|]]]; try done.
  destruct d as [|d1 [|d2 [|]]]; try done.
  unfold isFourDigits, isTwoDigits. cbv [String.append matchesLayout].
  replace (Ascii.eqb "-" "-") with true by done.
  repeat match goal with
         | |- context [GoString.isDigit ?c] => destruct (GoString.isDigit c)
         end; done.
Qed.

(** With a year of four digits the date reads YYYY-MM-DD. *)
Lemma FormatDate_shape (t : time.Time) :
  0 ≤ time.cyear (time.fields t) ≤ 9999 → matchesLayout (time.FormatDate t) = true.
Proof.
  intros Hy. destruct (fields_date_range t) as [Hm Hd].
  assert (time.daysIn (time.cmonth (time.fields t)) (time.cyear (time.fields t)) ≤ 31).
  { unfold time.daysIn. destruct (_ && _); [lia|].
    assert (Hall : forallb (fun m => time.daysBefore m - time.daysBefore (m - 1) <=? 31)
                     (seqZ 1 12) = true) by (by vm_compute).
    rewrite forallb_forall in Hall. apply Z.leb_le, Hall, list_elem_of_In, elem_of_seqZ. lia. }
  apply matchesLayout_parts.
  - by apply appendInt_four_digits.
  - apply appendInt_two_digits. lia.
  - apply appendInt_two_digits. lia.
Qed.

(** ** The calendar *)

(** [yearDay] inverts [daysSinceEpoch]. *)
Lemma yearDay_daysSinceEpoch (y yday : Z) :
  0 ≤ yday ≤ (if time.isLeap y then 365 else 364) →
  time.yearDay (time.daysSinceEpoch y + yday) = (y, yday).
Proof.
  intros Hyd. unfold time.yearDay, time.daysSinceEpoch.
  pose (Y := y - 1).
  pose (a := Y / 400). pose (r := Y mod 400).
  pose (b := r / 100). pose (r2 := r mod 100).
  pose (c := r2 / 4). pose (e := r2 mod 4).
  assert (HY : Y = 400 * a + 100 * b + 4 * c + e)
    by (subst a b c e r r2; Z.div_mod_to_equations; lia).
  assert (Hb : 0 ≤ b ≤ 3) by (subst b r; Z.div_mod_to_equations; lia).
  assert (Hc : 0 ≤ c ≤ 24) by (subst c r2; Z.div_mod_to_equations; lia).
  assert (He : 0 ≤ e ≤ 3) by (subst e; Z.div_mod_to_equations; lia).
  assert (H4 : Y / 4 = 100 * a + 25 * b + c) by (Z.div_mod_to_equations; lia).
  assert (H100 : Y / 100 = 4 * a + b) by (Z.div_mod_to_equations; lia).
  assert (H400 : Y / 400 = a) by done.
  (* leap years in terms of the digits of [y - 1] *)
  assert (Hleap : time.isLeap y = true ↔ e = 3 ∧ (c < 24 ∨ b = 3)).
  { unfold time.isLeap. replace y with (Y + 1) by (subst Y; lia). rewrite HY.
    rewrite andb_true_iff, orb_true_iff, negb_true_iff, !Z.eqb_eq, Z.eqb_neq.
    clear Hyd H4 H100 H400 HY. Z.div_mod_to_equations. lia. }
  assert (Hlast : yday = 365 → e = 3 ∧ (c < 24 ∨ b = 3)).
  { intros ->. destruct (time.isLeap y); [by apply Hleap|lia]. }
  assert (Hyd' : 0 ≤ yday ≤ 365) by (destruct (time.isLeap y); lia).
  fold Y. rewrite H4, H100, H400.
  set (d0 := 365 * (y - 1970) + (100 * a + 25 * b + c - (4 * a + b) + a) - 477 + yday + 719162).
  assert (Hd0 : d0 = 146097 * a + (36524 * b + 1461 * c + 365 * e + yday))
    by (subst d0 Y; lia).
  assert (Hq400 : d0 / 146097 = a ∧ d0 mod 146097 = 36524 * b + 1461 * c + 365 * e + yday).
  { rewrite Hd0. clear Hd0 Hleap. Z.div_mod_to_equations. lia. }
  destruct Hq400 as [-> ->].
  set (d1 := 36524 * b + 1461 * c + 365 * e + yday).
  assert (Hn100 : Z.min 3 (d1 / 36524) = b).
  { subst d1. clear Hd0 Hleap. Z.div_mod_to_equations. lia. }
  rewrite Hn100.
  replace (d1 - 36524 * b) with (1461 * c + (365 * e + yday)) by (subst d1; lia).
  assert (Hq4 : (1461 * c + (365 * e + yday)) / 1461 = c
                ∧ (1461 * c + (365 * e + yday)) mod 1461 = 365 * e + yday).
  { clear Hd0 Hleap Hn100. Z.div_mod_to_equations. lia. }
  destruct Hq4 as [-> ->].
  assert (Hn1 : Z.min 3 ((365 * e + yday) / 365) = e).
  { clear Hd0 Hleap Hn100. Z.div_mod_to_equations. lia. }
  rewrite Hn1. f_equal; subst Y; lia.
Qed.

Lemma monthDay_dayOfYear (leap : bool) (m d : Z) :
  1 ≤ m ≤ 12 → 1 ≤ d ≤ monthLength leap m →
  0 ≤ dayOfYear leap m d ≤ (if leap then 365 else 364)
  ∧ time.monthDay leap (dayOfYear leap m d) = (m, d).
Proof.
  intros Hm Hd.
  assert (Hall : forallb (fun l => forallb (fun m => forallb (dayOfYearOK l m) (seqZ 1 31))
                                     (seqZ 1 12)) [true; false] = true)
    by (by vm_compute).
  assert (d ≤ 31).
  { assert (Hlen : forallb (fun l => forallb (fun m => monthLength l m <=? 31) (seqZ 1 12))
                     [true; false] = true) by (by vm_compute).
    rewrite forallb_forall in Hlen.
    assert (Hl : In leap [true; false]) by (destruct leap; simpl; auto).
    apply Hlen in Hl. rewrite forallb_forall in Hl.
    assert (Hin : In m (seqZ 1 12)) by (apply list_elem_of_In, elem_of_seqZ; lia).
    apply Hl, Z.leb_le in Hin. lia. }
  rewrite forallb_forall in Hall.
  assert (Hl : In leap [true; false]) by (destruct leap; simpl; auto).
  apply Hall in Hl. rewrite forallb_forall in Hl.
  assert (Hin : In m (seqZ 1 12)) by (apply list_elem_of_In, elem_of_seqZ; lia).
  apply Hl in Hin. rewrite forallb_forall in Hin.
  assert (Hind : In d (seqZ 1 31)) by (apply list_elem_of_In, elem_of_seqZ; lia).
  apply Hin in Hind. unfold dayOfYearOK in Hind.
  apply orb_true_iff in Hind as [Hbad%Z.ltb_lt|Hok]; [lia|].
  apply andb_true_iff in Hok as [[H1%Z.leb_le H2%Z.leb_le]%andb_true_iff H3].
  apply bool_decide_eq_true_1 in H3. done.
Qed.

(** In a zone of constant offset, the calendar fields of the instant that
    [Date] builds from a valid date and time of day are that date and time. *)
Lemma Date_fields_fixed (off y m d h mi s : Z) :
  1 ≤ m ≤ 12 → 1 ≤ d ≤ time.daysIn m y →
  0 ≤ h < 24 → 0 ≤ mi < 60 → 0 ≤ s < 60 →
  time.fields (time.Date y m d h mi s (time.FixedZone off))
  = {| time.cyear := y; time.cmonth := m; time.cday := d;
       time.chour := h; time.cmin := mi; time.csec := s |}.
Proof.
  intros Hm Hd Hh Hmi Hs.
  destruct (monthDay_dayOfYear (time.isLeap y) m d Hm Hd) as [Hyd Hmd].
  unfold time.Date, time.norm.
  rewrite (Z.div_small (m - 1) 12), (Z.mod_small (m - 1) 12) by lia.
  rewrite (Z.div_small s 60), (Z.mod_small s 60) by lia.
  rewrite !Z.add_0_r.
  rewrite (Z.div_small mi 60), (Z.mod_small mi 60) by lia.
  rewrite !Z.add_0_r.
  rewrite (Z.div_small h 24), (Z.mod_small h 24) by lia.
  rewrite !Z.add_0_r.
  replace (m - 1 + 1) with m by lia.
  set (days := (if time.isLeap y && (3 <=? m)
                then time.daysSinceEpoch y + time.daysBefore (m - 1) + 1
                else time.daysSinceEpoch y + time.daysBefore (m - 1)) + (d - 1)).
  assert (Hdays : days = time.daysSinceEpoch y + dayOfYear (time.isLeap y) m d).
  { subst days. unfold dayOfYear. destruct (time.isLeap y && (3 <=? m)); lia. }
  set (tod := h * 3600 + mi * 60 + s).
  assert (Htod : 0 ≤ tod < 86400) by (subst tod; lia).
  assert (Hunix : ∀ u, (if time.offset (time.lookup (time.FixedZone off) u) =? 0 then u
                        else u - (if (u - time.offset (time.lookup (time.FixedZone off) u)
                                        <? time.zstart (time.lookup (time.FixedZone off) u))
                                     || (time.zend (time.lookup (time.FixedZone off) u)
                                           <=? u - time.offset (time.lookup (time.FixedZone off) u))
                                  then time.offset (time.lookup (time.FixedZone off)
                                         (u - time.offset (time.lookup (time.FixedZone off) u)))
                                  else time.offset (time.lookup (time.FixedZone off) u)))
                       = u - off).
  { intros u. cbn [time.FixedZone time.lookup time.offset time.zstart time.zend].
    destruct (Z.eqb_spec off 0); [lia|]. by destruct (_ || _). }
  cbv zeta. rewrite Hunix.
  unfold time.fields. cbn [time.unix time.loc time.FixedZone time.lookup time.offset].
  replace (days * 86400 + tod - off + off) with (tod + days * 86400) by lia.
  rewrite Z.div_add, Z.mod_add, (Z.div_small tod), (Z.mod_small tod) by lia.
  rewrite Z.add_0_l, Hdays, yearDay_daysSinceEpoch, Hmd by done.
  f_equal; subst tod.
  - clear -Hh Hmi Hs. Z.div_mod_to_equations. lia.
  - clear -Hh Hmi Hs. Z.div_mod_to_equations. lia.
  - clear -Hh Hmi Hs. Z.div_mod_to_equations. lia.
Qed.

(** ** Well-formed timestamps in a zone of constant offset *)

Lemma digitChar_digitVal (c : ascii) :
  GoString.isDigit c = true → time.digitChar (GoString.digitVal c) = c.
Proof.
  unfold GoString.isDigit, GoString.digitVal, time.digitChar.
  intros [H1%Nat.leb_le H2%Nat.leb_le]%andb_true_iff.
  replace (48 + Z.to_nat (Z.of_nat (Ascii.nat_of_ascii c) - 48))%nat
    with (Ascii.nat_of_ascii c) by lia.
  apply Ascii.ascii_nat_embedding.
Qed.

Lemma appendInt_two (a b : ascii) :
  GoString.isDigit a = true → GoString.isDigit b = true →
  time.appendInt (GoString.digitsVal 0 (String a (String b EmptyString))) 2
  = String a (String b EmptyString).
Proof.
  intros Ha Hb.
  pose proof (isDigit_val a Ha). pose proof (isDigit_val b Hb).
  cbn [GoString.digitsVal].
  set (x := (0 * 10 + GoString.digitVal a) * 10 + GoString.digitVal b).
  assert (Hx : 0 ≤ x < 100) by (subst x; lia).
  unfold time.appendInt.
  replace (x <? 0) with false by (symmetry; apply Z.ltb_ge; lia).
  rewrite Z.abs_eq by lia.
  replace (Nat.eqb 2 2 && (x <? 100)) with true
    by (symmetry; apply andb_true_iff; split; [done|apply Z.ltb_lt; lia]).
  replace (x / 10) with (GoString.digitVal a) by (subst x; Z.div_mod_to_equations; lia).
  replace (x mod 10) with (GoString.digitVal b) by (subst x; Z.div_mod_to_equations; lia).
  by rewrite !digitChar_digitVal.
Qed.

Lemma fourDigits_digits (va vb vc vd : Z) :
  0 ≤ va ≤ 9 → 0 ≤ vb ≤ 9 → 0 ≤ vc ≤ 9 → 0 ≤ vd ≤ 9 →
  fourDigits ((((0 * 10 + va) * 10 + vb) * 10 + vc) * 10 + vd)
  = String (time.digitChar va) (String (time.digitChar vb)
      (String (time.digitChar vc) (String (time.digitChar vd) EmptyString))).
Proof.
  intros Hva Hvb Hvc Hvd. unfold fourDigits.
  set (x := (((0 * 10 + va) * 10 + vb) * 10 + vc) * 10 + vd).
  assert (E1 : x / 1000 = va)
    by (subst x; symmetry; apply Z.div_unique with (r := 100 * vb + 10 * vc + vd); lia).
  assert (E2 : x / 100 = 10 * va + vb)
    by (subst x; symmetry; apply Z.div_unique with (r := 10 * vc + vd); lia).
  assert (E3 : x / 10 = 100 * va + 10 * vb + vc)
    by (subst x; symmetry; apply Z.div_unique with (r := vd); lia).
  assert (E4 : x mod 10 = vd)
    by (subst x; symmetry; apply Z.mod_unique with (q := 100 * va + 10 * vb + vc); lia).
  assert (E5 : (10 * va + vb) mod 10 = vb)
    by (symmetry; apply Z.mod_unique with (q := va); lia).
  assert (E6 : (100 * va + 10 * vb + vc) mod 10 = vc)
    by (symmetry; apply Z.mod_unique with (q := 10 * va + vb); lia).
  by rewrite E1, E2, E3, E4, E5, E6.
Qed.

Lemma appendInt_four (a b c d : ascii) :
  GoString.isDigit a = true → GoString.isDigit b = true →
  GoString.isDigit c = true → GoString.isDigit d = true →
  time.appendInt (GoString.digitsVal 0 (String a (String b (String c (String d EmptyString))))) 4
  = String a (String b (String c (String d EmptyString))).
Proof.
  intros Ha Hb Hc Hd.
  pose proof (isDigit_val a Ha). pose proof (isDigit_val b Hb).
  pose proof (isDigit_val c Hc). pose proof (isDigit_val d Hd).
  cbn [GoString.digitsVal].
  set (x := (((0 * 10 + GoString.digitVal a) * 10 + GoString.digitVal b) * 10
             + GoString.digitVal c) * 10 + GoString.digitVal d).
  assert (Hx : 0 ≤ x ≤ 9999) by (subst x; lia).
  assert (Hall : forallb (fun h => forallb (fun l =>
                    bool_decide (time.appendInt (100 * h + l) 4 = fourDigits (100 * h + l)))
                    (seqZ 0 100)) (seqZ 0 100) = true) by (by vm_compute).
  assert (Happ : time.appendInt x 4 = fourDigits x).
  { pose proof (Z.mod_pos_bound x 100 ltac:(lia)).
    assert (0 ≤ x / 100 < 100)
      by (split; [apply Z.div_pos; lia|apply Z.div_lt_upper_bound; lia]).
    rewrite forallb_forall in Hall.
    assert (Hh : In (x / 100) (seqZ 0 100)) by (apply list_elem_of_In, elem_of_seqZ; lia).
    apply Hall in Hh. rewrite forallb_forall in Hh.
    assert (Hl : In (x mod 100) (seqZ 0 100)) by (apply list_elem_of_In, elem_of_seqZ; lia).
    apply Hh, bool_decide_eq_true_1 in Hl. by rewrite <- Z.div_mod in Hl by lia. }
  rewrite Happ. subst x. clear Hall Happ Hx.
  rewrite fourDigits_digits by assumption.
  rewrite (digitChar_digitVal a Ha), (digitChar_digitVal b Hb),
    (digitChar_digitVal c Hc), (digitChar_digitVal d Hd).
  reflexivity.
Qed.

Lemma Atoi_digits (s : string) :
  GoString.allDigits s = true → (1 ≤ String.length s ≤ 18)%nat →
  strconv.Atoi s = (GoString.digitsVal 0 s, None).
Proof.
  intros Hd Hlen.
  pose proof (Atoi_short_no_range s ltac:(lia)) as Hr.
  pose proof (digitsVal_bound s 0 ltac:(lia) Hd) as Hb.
  revert Hr. unfold strconv.Atoi.
  destruct s as [|c r]; [simpl in Hlen; lia|].
  assert (Hc : GoString.isDigit c = true) by (simpl in Hd; by apply andb_true_iff in Hd as [? _]).
  assert (Ascii.eqb c "-" = false ∧ Ascii.eqb c "+" = false) as [-> ->].
  { split; apply Ascii.eqb_neq; intros ->; by vm_compute in Hc. }
  rewrite Hd. cbv zeta.
  destruct (strconv.maxInt <? _) eqn:E1; [done|].
  destruct (_ <? strconv.minInt) eqn:E2; done.
Qed.

Lemma digit_not_space (c : ascii) :
  GoString.isDigit c = true → Ascii.eqb c GoString.space = false.
Proof. intros Hc. apply Ascii.eqb_neq. intros ->. by vm_compute in Hc. Qed.

(** X1: a timestamp YYYYMMDDhhmmss that names a date and a time of day,
    read in a zone of constant offset, with or without a token after it: the
    start is filed under YYYY-MM-DD and shown as hh:mm, digit for digit. *)
Theorem wellFormed_timestamp (off : Z) (yyyy mm dd hh mi ss rest : string) :
  isFourDigits yyyy = true → isTwoDigits mm = true → isTwoDigits dd = true →
  isTwoDigits hh = true → isTwoDigits mi = true → isTwoDigits ss = true →
  1 ≤ GoString.digitsVal 0 mm ≤ 12 →
  1 ≤ GoString.digitsVal 0 dd
    ≤ time.daysIn (GoString.digitsVal 0 mm) (GoString.digitsVal 0 yyyy) →
  GoString.digitsVal 0 hh < 24 → GoString.digitsVal 0 mi < 60 →
  GoString.digitsVal 0 ss < 60 →
  rest = EmptyString ∨ (∃ tz, rest = String GoString.space tz) →
  ∃ t,
    parseEPGTime (time.FixedZone off)
      (String.append yyyy (String.append mm (String.append dd
         (String.append hh (String.append mi (String.append ss rest))))))
    = Ok t
    ∧ time.FormatDate t
      = String.append yyyy (String "-"%char (String.append mm (String "-"%char dd)))
    ∧ time.FormatHHMM t = String.append hh (String ":"%char mi).
Proof.
  intros Hy Hm Hd Hh Hmi Hs Vm Vd Vh Vmi Vs Hrest.
  destruct yyyy as [|y1 [|y2 [|y3 [|y4 [|]]]]]; try done.
  destruct mm as [|m1 [|m2 [|]]]; try done.
  destruct dd as [|d1 [|d2 [|]]]; try done.
  destruct hh as [|h1 [|h2 [|]]]; try done.
  destruct mi as [|i1 [|i2 [|]]]; try done.
  destruct ss as [|s1 [|s2 [|]]]; try done.
  unfold isFourDigits, isTwoDigits in *.
  repeat match goal with
         | H : _ && _ = true |- _ => apply andb_true_iff in H as [? ?]
         end.
  set (base := String y1 (String y2 (String y3 (String y4 (String m1 (String m2
                 (String d1 (String d2 (String h1 (String h2 (String i1 (String i2
                 (String s1 (String s2 EmptyString)))))))))))))).
  assert (Hsp : GoString.contains GoString.space base = false).
  { subst base. cbn [GoString.contains]. by rewrite !digit_not_space. }
  assert (Hbefore : GoString.before GoString.space (String.append base rest) = base).
  { destruct Hrest as [->|[tz ->]].
    - replace (String.append base "") with base by (by subst base).
      by apply before_no_sep.
    - by apply before_app_sep. }
  exists (dateOfFields (time.FixedZone off) base).
  change (String.append (String y1 (String y2 (String y3 (String y4 ""))))
            (String.append (String m1 (String m2 "")) (String.append (String d1 (String d2 ""))
               (String.append (String h1 (String h2 "")) (String.append (String i1 (String i2 ""))
                  (String.append (String s1 (String s2 "")) rest))))))
    with (String.append base rest).
  rewrite parseEPGTime_unfold, Hbefore.
  split; [done|].
  assert (Hfields : time.fields (dateOfFields (time.FixedZone off) base)
            = {| time.cyear := GoString.digitsVal 0 (String y1 (String y2 (String y3 (String y4 ""))));
                 time.cmonth := GoString.digitsVal 0 (String m1 (String m2 ""));
                 time.cday := GoString.digitsVal 0 (String d1 (String d2 ""));
                 time.chour := GoString.digitsVal 0 (String h1 (String h2 ""));
                 time.cmin := GoString.digitsVal 0 (String i1 (String i2 ""));
                 time.csec := GoString.digitsVal 0 (String s1 (String s2 "")) |}).
  { unfold dateOfFields. subst base. unfold GoString.slice.
    cbn [String.substring Nat.sub].
    assert (Hall : ∀ a b, GoString.isDigit a = true → GoString.isDigit b = true →
              GoString.allDigits (String a (String b "")) = true)
      by (intros a b Ha Hb; cbn [GoString.allDigits]; by rewrite Ha, Hb).
    assert (Hy4 : GoString.allDigits (String y1 (String y2 (String y3 (String y4 "")))) = true).
    { cbn [GoString.allDigits]. rewrite !andb_true_iff. by repeat split. }
    rewrite (Atoi_digits _ Hy4) by (simpl; lia).
    rewrite !Atoi_digits by (first [by apply Hall | simpl; lia]).
    cbn [fst].
    pose proof (digitsVal_bound (String h1 (String h2 "")) 0 ltac:(lia) ltac:(by apply Hall)).
    pose proof (digitsVal_bound (String i1 (String i2 "")) 0 ltac:(lia) ltac:(by apply Hall)).
    pose proof (digitsVal_bound (String s1 (String s2 "")) 0 ltac:(lia) ltac:(by apply Hall)).
    apply Date_fields_fixed; lia. }
  unfold time.FormatDate, time.FormatHHMM. rewrite Hfields.
  cbn [time.cyear time.cmonth time.cday time.chour time.cmin].
  by rewrite appendInt_four, !appendInt_two.
Qed.

Lemma wellFormed_timestamp_witness :
  ∃ t,
    parseEPGTime (time.FixedZone 28800) "20240229235959 +0800" = Ok t
    ∧ time.FormatDate t = "2024-02-29"%string
    ∧ time.FormatHHMM t = "23:59"%string.
Proof.
  apply (wellFormed_timestamp 28800 "2024" "02" "29" "23" "59" "59" " +0800");
    try reflexivity; try (vm_compute; split; discriminate).
  right. by exists "+0800"%string.
Defined.

Lemma itemOf_inv (Local : time.Location) (prog : Programme) (d : string)
    (it : ProgramItem) :
  itemOf Local prog = Some (d, it) →
  ∃ startTime stopTime,
    parseEPGTime Local (prog_Start prog) = Ok startTime
    ∧ parseEPGTime Local (prog_Stop prog) = Ok stopTime
    ∧ d = time.FormatDate startTime
    ∧ it = {| item_Start := time.FormatHHMM startTime;
              item_End := time.FormatHHMM stopTime;
              item_Title := prog_Title prog |}.
Proof.
  unfold itemOf.
  destruct (parseEPGTime Local (prog_Start prog)) as [startTime|]; [|done].
  destruct (parseEPGTime Local (prog_Stop prog)) as [stopTime|]; [|done].
  intros [= <- <-]. by exists startTime, stopTime.
Qed.

Lemma itemsFor_inv (Local : time.Location) (ch date : string)
    (progs : list Programme) (it : ProgramItem) :
  it ∈ itemsFor Local ch date progs →
  ∃ prog, prog ∈ progs ∧ prog_Channel prog = ch ∧ itemOf Local prog = Some (date, it).
Proof.
  unfold itemsFor. rewrite list_elem_of_omap.
  intros (prog & Hin & Hit). exists prog. split; [done|].
  destruct (itemOf Local prog) as [[d it']|]; [|done].
  case_bool_decide as Hk; [|done].
  destruct Hk as [<- <-]. by injection Hit as ->.
Qed.

Lemma buildEPGCache_entry (Local : time.Location) (tv : TV) (c : EPGCache)
    (ch date : string) :
  entry (ProgramData (fst (buildEPGCache Local tv c))) ch date
  = match itemsFor Local ch date (tv_Programmes tv) with
    | [] => None
    | l => Some l
    end.
Proof.
  unfold buildEPGCache. simpl. rewrite entry_buildProgramData.
  unfold entry at 1 2. rewrite lookup_empty. simpl.
  by destruct (itemsFor _ _ _ _).
Qed.

(** C6: the name index maps [name] to the id of the last channel, in
    document order, whose first non-empty ["zh"] display name is [name], and
    holds nothing else; the programme index does not depend on the channel
    list at all, so programmes of a channel without such a name are indexed
    under their channel id all the same. *)
Theorem buildEPGCache_name_index (Local : time.Location) (tv : TV) (c : EPGCache)
    (name : string) :
  ChannelMap (fst (buildEPGCache Local tv c)) !! name
    = last (idsNamed name (tv_Channels tv))
  ∧ (is_Some (ChannelMap (fst (buildEPGCache Local tv c)) !! name)
     ↔ ∃ ch, ch ∈ tv_Channels tv ∧ zhName ch = Some name)
  ∧ (∀ chs,
       ProgramData (fst (buildEPGCache Local
                           {| tv_Channels := chs; tv_Programmes := tv_Programmes tv |} c))
       = ProgramData (fst (buildEPGCache Local tv c)))
  ∧ (∀ ch date,
       entry (ProgramData (fst (buildEPGCache Local tv c))) ch date
       = match itemsFor Local ch date (tv_Programmes tv) with
         | [] => None
         | l => Some l
         end).
Proof.
  assert (Hlk : ChannelMap (fst (buildEPGCache Local tv c)) !! name
                = last (idsNamed name (tv_Channels tv)))
    by apply buildChannelMap_lookup.
  split; [done|split; [|split; [done|intros; apply buildEPGCache_entry]]].
  rewrite Hlk. unfold idsNamed. split.
  - intros [id Hid]. apply last_Some_elem_of in Hid.
    apply list_elem_of_fmap in Hid as (ch & _ & Hch).
    rewrite list_elem_of_In in Hch. apply List.filter_In in Hch as [Hch Hz].
    exists ch. split; [by apply list_elem_of_In|by apply bool_decide_eq_true_1 in Hz].
  - intros (ch & Hch & Hz).
    apply last_is_Some. intros Hnil.
    apply fmap_nil_inv in Hnil.
    assert (Hin : In ch (List.filter (fun ch => bool_decide (zhName ch = Some name))
                           (tv_Channels tv))).
    { apply List.filter_In. split; [by apply list_elem_of_In|by apply bool_decide_eq_true_2]. }
    rewrite Hnil in Hin. destruct Hin.
Qed.

(** ** The query handler *)

Lemma substring_all (s : string) : String.substring 0 (String.length s) s = s.
Proof. induction s; simpl; congruence. Qed.

Lemma substring_none (s : string) : String.substring 0 0 s = EmptyString.
Proof. by destruct s. Qed.

Lemma getnum_fixed_inv (s rest : string) (n : Z) :
  time.getnum s true = Some (n, rest) →
  ∃ a b, s = String a (String b rest)
         ∧ GoString.isDigit a = true ∧ GoString.isDigit b = true
         ∧ n = GoString.digitVal a * 10 + GoString.digitVal b.
Proof.
  unfold time.getnum, time.isDigitAt, time.byteAt, time.drop.
  destruct s as [|a [|b r]]; simpl; [done| |].
  - by destruct (GoString.isDigit a).
  - destruct (GoString.isDigit a) eqn:Ha; [|done].
    destruct (GoString.isDigit b) eqn:Hb; [|done]. simpl.
    rewrite Nat.sub_0_r, substring_all. intros [= <- <-]. by exists a, b.
Qed.

Lemma skipDash_inv (s rest : string) :
  time.skipDash s = Some rest → s = String "-"%char rest.
Proof.
  destruct s as [|c r]; simpl; [done|].
  destruct (Ascii.eqb_spec c "-"%char); [|done]. by intros [= <-]; subst.
Qed.

Lemma year_prefix_inv (s : string) :
  (String.length s <? 4)%nat || negb (time.isDigitAt s 0) = false →
  negb (GoString.allDigits (GoString.slice s 0 4)) = false →
  ∃ y1 y2 y3 y4, s = String y1 (String y2 (String y3 (String y4 (time.drop 4 s))))
    ∧ GoString.isDigit y1 && GoString.isDigit y2 && GoString.isDigit y3
      && GoString.isDigit y4 = true.
Proof.
  unfold GoString.slice, time.drop.
  destruct s as [|y1 [|y2 [|y3 [|y4 r]]]]; try done.
  intros _. simpl. rewrite substring_none, Nat.sub_0_r, substring_all. simpl.
  intros H%negb_false_iff. exists y1, y2, y3, y4. split; [done|].
  destruct (GoString.isDigit y1), (GoString.isDigit y2), (GoString.isDigit y3),
    (GoString.isDigit y4); done.
Qed.

Lemma ParseDate_matchesLayout (s : string) (t : time.Time) :
  time.ParseDate s = inl t → matchesLayout s = true.
Proof.
  unfold time.ParseDate.
  destruct (_ || negb (time.isDigitAt s 0)) eqn:H0; [done|].
  destruct (negb (GoString.allDigits _)) eqn:H1; [done|].
  destruct (time.skipDash _) as [v1|] eqn:H2; [|done].
  destruct (time.getnum v1 true) as [[month v2]|] eqn:H3; [|done].
  destruct ((month <=? 0) || (12 <? month)); [done|].
  destruct (time.skipDash v2) as [v3|] eqn:H4; [|done].
  destruct (time.getnum v3 true) as [[day v4]|] eqn:H5; [|done].
  destruct v4 as [|x v4]; [|done].
  intros _.
  destruct (year_prefix_inv s H0 H1) as (y1 & y2 & y3 & y4 & -> & Hy).
  apply skipDash_inv in H2. rewrite H2.
  apply getnum_fixed_inv in H3 as (m1 & m2 & -> & Hm1 & Hm2 & _).
  apply skipDash_inv in H4 as ->.
  apply getnum_fixed_inv in H5 as (a1 & a2 & -> & Ha1 & Ha2 & _).
  simpl. rewrite Hy, Hm1, Hm2, Ha1, Ha2. done.
Qed.

Lemma messages_distinct (chName dateStr : string) :
  NoDup [ msgMissingParameter; msgInvalidDateFormat; msgChannelNotFound chName;
          msgNoProgramData chName; msgNoProgramDataForDate chName dateStr ].
Proof.
  assert (Hlast : msgNoProgramData chName ≠ msgNoProgramDataForDate chName dateStr).
  { unfold msgNoProgramData, msgNoProgramDataForDate. intros H.
    apply (inj (String.append "频道")) in H.
    apply (inj (String.append chName)) in H.
    cbv [String.append] in H. discriminate H. }
  repeat (apply NoDup_cons; split); try apply NoDup_nil_2;
    rewrite ?not_elem_of_cons; repeat split; try apply not_elem_of_nil; try done;
    unfold msgMissingParameter, msgInvalidDateFormat, msgChannelNotFound,
      msgNoProgramData, msgNoProgramDataForDate;
    cbv [String.append]; discriminate.
Qed.

(** ** The pipeline *)

(** C2, counterexample: Fetch, Decompress and Parse succeed and the write
    of the cache file fails.  The run ends with an error, and the cache
    already holds the index of the new document: the build works on the
    shared cache, before the file is written. *)
Lemma failed_save_leaves_new_index : ¬ failedRunKeepsIndex.
Proof.
  intros H.
  pose proof (H (time.FixedZone 28800) diskFull
                {| cache := oldIndex; cacheFile := None |}) as H0.
  assert (Hs : snd (downloadAndParseEPG (time.FixedZone 28800) diskFull
                      {| cache := oldIndex; cacheFile := None |})
               = Some (Wrap "保存缓存失败" (External "no space left on device")))
    by (vm_compute; reflexivity).
  assert (Hc : ChannelMap (cache (fst (downloadAndParseEPG (time.FixedZone 28800) diskFull
                                         {| cache := oldIndex; cacheFile := None |})))
               !! "Old" = None)
    by (vm_compute; reflexivity).
  rewrite H0 in Hc; [|rewrite Hs; by eexists].
  vm_compute in Hc. discriminate Hc.
Qed.

(** C2, amended: a run that fails in Fetch, Decompress or Parse returns the
    error and leaves the state, the cache included, as it was.  A run that
    gets a document always builds: afterwards the cache is the index of
    that document, and the run reports an error exactly when the write of
    the cache file fails. *)
Theorem downloadAndParseEPG_outcomes (Local : time.Location) (w : World) (st : State) :
  (∀ e, earlyFailure w = Some e → downloadAndParseEPG Local w st = (st, Some e))
  ∧ (∀ tv, fetched w = Some tv →
       cache (fst (downloadAndParseEPG Local w st))
       = fst (buildEPGCache Local tv (cache st))
       ∧ (writeFile w = None →
            downloadAndParseEPG Local w st
            = ({| cache := fst (buildEPGCache Local tv (cache st));
                  cacheFile := Some (Document
                    (json.Marshal (fst (buildEPGCache Local tv (cache st))))) |},
               None))
       ∧ (∀ e remains, writeFile w = Some (e, remains) →
            downloadAndParseEPG Local w st
            = ({| cache := fst (buildEPGCache Local tv (cache st));
                  cacheFile := remains |},
               Some (Wrap "保存缓存失败" e))))
  ∧ (is_Some (earlyFailure w) ↔ fetched w = None).
Proof.
  unfold downloadAndParseEPG, earlyFailure, fetched, saveCache.
  destruct (httpGet w) as [tmpFile|e1].
  2: { split; [by intros e [= <-]|split; [done|]]. split; [done|by eexists]. }
  destruct (gunzip w tmpFile) as [xmlFilePath|e2].
  2: { split; [by intros e [= <-]|split; [done|]]. split; [done|by eexists]. }
  destruct (decodeXML w xmlFilePath) as [tv|e3].
  2: { split; [by intros e [= <-]|split; [done|]]. split; [done|by eexists]. }
  split; [done|split].
  - intros tv' [= <-]. simpl.
    destruct (writeFile w) as [[e remains]|]; simpl.
    + split; [done|]. split; [done|]. by intros e' remains' [= <- <-].
    + done.
  - split; [by intros [? ?]|done].
Qed.

(** ** UTF-8 facts *)

Section Utf8Facts.
Import utf8.

(** The size reported for the head of a string depends on as many bytes
    as it reports. *)
Lemma runeSize_cases (b0 : ascii) (r0 : string) :
  (runeSize (String b0 r0) = 0%nat)
  ∨ (runeSize (String b0 r0) = 1%nat ∧ ∀ r, runeSize (String b0 r) = 1%nat)
  ∨ (∃ b1 r1, r0 = String b1 r1 ∧ runeSize (String b0 r0) = 2%nat
       ∧ ∀ r, runeSize (String b0 (String b1 r)) = 2%nat)
  ∨ (∃ b1 b2 r2, r0 = String b1 (String b2 r2) ∧ runeSize (String b0 r0) = 3%nat
       ∧ ∀ r, runeSize (String b0 (String b1 (String b2 r))) = 3%nat)
  ∨ (∃ b1 b2 b3 r3, r0 = String b1 (String b2 (String b3 r3))
       ∧ runeSize (String b0 r0) = 4%nat
       ∧ ∀ r, runeSize (String b0 (String b1 (String b2 (String b3 r)))) = 4%nat).
Proof.
  unfold runeSize.
  destruct (first b0) as [[[|[|[|[|n]]]] [lo hi]]|]; [|by right; left| | | |by left].
  - destruct r0 as [|b1 [|b2 [|b3 r3]]]; [by left..|].
    destruct (inRange lo hi b1 && cont b2 && cont b3) eqn:E; [|by left].
    do 4 right. exists b1, b2, b3, r3. by rewrite E.
  - destruct r0 as [|b1 r1]; [by left|].
    destruct (inRange lo hi b1) eqn:E; [|by left].
    right; right; left. exists b1, r1. by rewrite E.
  - destruct r0 as [|b1 [|b2 r2]]; [by left|by left|].
    destruct (inRange lo hi b1 && cont b2) eqn:E; [|by left].
    right; right; right; left. exists b1, b2, r2. by rewrite E.
  - destruct r0 as [|b1 [|b2 [|b3 r3]]]; [by left..|].
    destruct (inRange lo hi b1 && cont b2 && cont b3) eqn:E; [|by left].
    do 4 right. exists b1, b2, b3, r3. by rewrite E.
Qed.

Local Arguments runeSize : simpl never.

Lemma coerce_valid_aux (n : nat) (s : string) :
  (String.length s ≤ n)%nat → ValidString s = true → coerce s = s.
Proof.
  revert s. induction n as [|n IH]; intros [|b0 r0] Hlen; simpl in *; try done; [lia|].
  destruct (runeSize_cases b0 r0)
    as [E|[[E _]|[(b1 & r1 & -> & E & _)|[(b1 & b2 & r2 & -> & E & _)
        |(b1 & b2 & b3 & r3 & -> & E & _)]]]];
    rewrite E; simpl in *; try done; intros Hv; rewrite IH; try done; lia.
Qed.

(** The encoder and the decoder leave a valid string as it is. *)
Lemma coerce_valid (s : string) : ValidString s = true → coerce s = s.
Proof. by apply (coerce_valid_aux (String.length s)). Qed.

Lemma coerce_is_valid_aux (n : nat) (s : string) :
  (String.length s ≤ n)%nat → ValidString (coerce s) = true.
Proof.
  revert s. induction n as [|n IH]; intros [|b0 r0] Hlen; simpl in *; try done; [lia|].
  destruct (runeSize_cases b0 r0)
    as [E|[[E E']|[(b1 & r1 & -> & E & E')|[(b1 & b2 & r2 & -> & E & E')
        |(b1 & b2 & b3 & r3 & -> & E & E')]]]];
    rewrite E; simpl in *; rewrite ?E'; try (apply IH; lia).
  all: destruct r0; simpl; apply IH; simpl in *; lia.
Qed.

(** Whatever the bytes, what the decoder hands back is valid UTF-8. *)
Lemma coerce_is_valid (s : string) : ValidString (coerce s) = true.
Proof. by apply (coerce_is_valid_aux (String.length s)). Qed.

Lemma ascii_valid (s : string) : isASCII s = true → ValidString s = true.
Proof.
  unfold isASCII. induction s as [|c r IH]; simpl; [done|].
  intros [Hc Hr]%andb_true_iff.
  assert (E : runeSize (String c r) = 1%nat).
  { unfold runeSize, first. by rewrite Hc. }
  rewrite E. auto.
Qed.

Lemma isASCII_app (a b : string) :
  isASCII (String.append a b) = isASCII a && isASCII b.
Proof.
  unfold isASCII. induction a as [|c a IH]; simpl; [done|].
  by rewrite IH, andb_assoc.
Qed.

End Utf8Facts.

(** ** The snapshot round trip *)

Section JsonFacts.
Import json.

Lemma decString_encString (s old : string) :
  utf8.ValidString s = true → decString (encString s) old = (s, false).
Proof.
  intros Hs. unfold decString, encString.
  by rewrite (coerce_valid (utf8.coerce s)), (coerce_valid s)
    by (done || apply coerce_is_valid).
Qed.

Lemma decItem_encItem (it old : ProgramItem) :
  validItem it → decItem (encItem it) old = (it, false).
Proof.
  intros (Hs & He & Ht). unfold decItem, encItem, foldl, decItemMember.
  cbn [fst snd].
  replace (isField "start" (utf8.coerce "start")) with true by (by vm_compute).
  replace (isField "start" (utf8.coerce "end")) with false by (by vm_compute).
  replace (isField "end" (utf8.coerce "end")) with true by (by vm_compute).
  replace (isField "start" (utf8.coerce "title")) with false by (by vm_compute).
  replace (isField "end" (utf8.coerce "title")) with false by (by vm_compute).
  replace (isField "title" (utf8.coerce "title")) with true by (by vm_compute).
  rewrite !decString_encString by done. cbn. by destruct it.
Qed.

Lemma decItems_encItems (l old : list ProgramItem) :
  Forall validItem l → decItems (encItems l) old = (l, false).
Proof.
  intros Hl. unfold decItems, encItems.
  induction Hl as [|it l Hit Hl IH]; [done|].
  injection IH as IH1 IH2. cbn [map fst snd existsb].
  rewrite (decItem_encItem it zeroItem Hit). cbn [fst snd orb].
  by rewrite IH1, IH2.
Qed.

Section Maps.
Context {A : Type} (zero : A) (decElem : value → A → A * bool)
  (encElem : A → value) (P : A → Prop).
Hypothesis dec_enc : ∀ a, P a → decElem (encElem a) zero = (a, false).

Lemma foldl_members (members : list (string * A)) (acc : gmap string A) :
  Forall (fun kv => utf8.ValidString (fst kv) = true ∧ P (snd kv)) members →
  foldl (fun acc kv =>
           let '(a, e') := decElem (snd kv) zero in
           (<[utf8.coerce (fst kv) := a]> (fst acc), snd acc || e'))
    (acc, false)
    (map (fun kv => (utf8.coerce (fst kv), encElem (snd kv))) members)
  = (foldl (fun m kv => <[fst kv := snd kv]> m) acc members, false).
Proof.
  intros Hm. revert acc.
  induction Hm as [|[k a] members [Hk Ha] Hm IH]; intros acc; [done|].
  cbn [map foldl fst snd] in *.
  rewrite (dec_enc a Ha).
  rewrite (coerce_valid (utf8.coerce k)), (coerce_valid k)
    by (done || apply coerce_is_valid).
  cbn [fst snd orb]. apply IH.
Qed.

Lemma foldl_insert_list_to_map (members : list (string * A)) :
  foldl (fun m kv => <[fst kv := snd kv]> m) (∅ : gmap string A) members
  = list_to_map (reverse members).
Proof.
  induction members as [|[k a] members IH] using rev_ind; [done|].
  by rewrite foldl_app, reverse_snoc, list_to_map_cons, <- IH.
Qed.

Lemma decMap_encMap (m : gmap string A) :
  map_Forall (fun k a => utf8.ValidString k = true ∧ P a) m →
  decMap zero decElem (encMap encElem m) ∅ = (m, false).
Proof.
  intros Hm. unfold decMap, encMap.
  assert (Hperm : sortedMembers m ≡ₚ map_to_list m)
    by apply merge_sort_Permutation.
  rewrite foldl_members.
  - rewrite foldl_insert_list_to_map. f_equal.
    rewrite <- (list_to_map_to_list m) at 2.
    apply list_to_map_proper.
    + rewrite reverse_Permutation, Hperm. apply NoDup_fst_map_to_list.
    + by rewrite reverse_Permutation.
  - rewrite Hperm. apply map_Forall_to_list in Hm.
    eapply Forall_impl; [exact Hm|]. by intros [k a].
Qed.

End Maps.

Lemma Unmarshal_Marshal (c : EPGCache) :
  validCache c → Unmarshal (Marshal c) epgCache0 = (c, false).
Proof.
  intros [Hcm Hpd]. unfold Unmarshal, Marshal, foldl, decCacheMember.
  cbn [fst snd].
  replace (isField "ChannelMap" (utf8.coerce "ChannelMap")) with true by (by vm_compute).
  replace (isField "ChannelMap" (utf8.coerce "ProgramData")) with false by (by vm_compute).
  replace (isField "ProgramData" (utf8.coerce "ProgramData")) with true by (by vm_compute).
  unfold decChannelMap, decProgramData, decDates. cbn [ChannelMap ProgramData epgCache0].
  rewrite (decMap_encMap "" decString encString (fun v => utf8.ValidString v = true));
    [|intros; by apply decString_encString|done].
  rewrite (decMap_encMap ∅ (decMap [] decItems) (encMap encItems) validDates);
    [|intros byDate Hd|done].
  - cbn. by destruct c.
  - by apply (decMap_encMap [] decItems encItems (Forall validItem));
      [intros; apply decItems_encItems|].
Qed.

End JsonFacts.

(** ** What the cache can hold *)

Lemma foldl_invariant {A B} (I : A → Prop) (f : A → B → A) (l : list B) (a : A) :
  I a → (∀ a b, I a → I (f a b)) → I (foldl f a l).
Proof. intros Ha Hf. revert a Ha. induction l; simpl; auto. Qed.

Section LoadValid.
Import json.

Lemma decString_valid (v : value) (old : string) :
  utf8.ValidString old = true → utf8.ValidString (fst (decString v old)) = true.
Proof. destruct v; simpl; auto using coerce_is_valid. Qed.

Lemma decItem_valid (v : value) (old : ProgramItem) :
  validItem old → validItem (fst (decItem v old)).
Proof.
  intros Hold. destruct v as [| | | | |members]; simpl; try done.
  apply (foldl_invariant (fun acc => validItem (fst acc))); [done|].
  intros [it e] kv (Hs & He & Ht). unfold decItemMember.
  destruct (isField "start" _);
    [|destruct (isField "end" _); [|destruct (isField "title" _); [|done]]].
  - pose proof (decString_valid (snd kv) (item_Start it) Hs).
    by destruct (decString (snd kv) (item_Start it)).
  - pose proof (decString_valid (snd kv) (item_End it) He).
    by destruct (decString (snd kv) (item_End it)).
  - pose proof (decString_valid (snd kv) (item_Title it) Ht).
    by destruct (decString (snd kv) (item_Title it)).
Qed.

Lemma decItems_valid (v : value) (old : list ProgramItem) :
  Forall validItem old → Forall validItem (fst (decItems v old)).
Proof.
  intros Hold. destruct v as [| | | |elems|]; simpl; try done.
  apply Forall_forall. intros it Hin.
  apply list_elem_of_In, in_map_iff in Hin as ([it' e] & <- & Hin).
  apply in_map_iff in Hin as (v & Hv & _).
  replace it' with (fst (decItem v zeroItem)) by by rewrite Hv.
  by apply decItem_valid.
Qed.

Lemma decMap_valid {A} (zero : A) (decElem : value → A → A * bool) (P : A → Prop)
    (v : value) (old : gmap string A) :
  P zero → (∀ v a, P a → P (fst (decElem v a))) →
  map_Forall (fun k a => utf8.ValidString k = true ∧ P a) old →
  map_Forall (fun k a => utf8.ValidString k = true ∧ P a)
    (fst (decMap zero decElem v old)).
Proof.
  intros Hzero Hdec Hold.
  destruct v as [| | | | |members]; simpl; try done.
  apply (foldl_invariant
           (fun acc => map_Forall (fun k a => utf8.ValidString k = true ∧ P a) (fst acc)));
    [done|].
  intros [m e] kv Hm. specialize (Hdec (snd kv) zero Hzero).
  destruct (decElem (snd kv) zero) as [a e']. cbn [fst] in *.
  apply map_Forall_insert_2; [|done]. split; [apply coerce_is_valid|done].
Qed.

Lemma decDates_valid (v : value) (old : gmap string (list ProgramItem)) :
  validDates old → validDates (fst (decDates v old)).
Proof.
  apply (decMap_valid [] decItems (Forall validItem)); [done|].
  intros. by apply decItems_valid.
Qed.

Lemma Unmarshal_valid (v : value) (c : EPGCache) :
  validCache c → validCache (fst (Unmarshal v c)).
Proof.
  intros Hc. destruct v as [| | | | |members]; simpl; try done.
  apply (foldl_invariant (fun acc => validCache (fst acc))); [done|].
  intros [c' e] kv [Hcm Hpd]. unfold decCacheMember.
  destruct (isField "ChannelMap" _); [|destruct (isField "ProgramData" _); [|done]].
  - pose proof (decMap_valid "" decString (fun s => utf8.ValidString s = true)
                  (snd kv) (ChannelMap c') eq_refl decString_valid Hcm) as H.
    unfold decChannelMap. by destruct (decMap "" decString (snd kv) (ChannelMap c')).
  - pose proof (decMap_valid ∅ decDates validDates (snd kv) (ProgramData c')
                  (map_Forall_empty _) decDates_valid Hpd) as H.
    unfold decProgramData. by destruct (decMap ∅ decDates (snd kv) (ProgramData c')).
Qed.

Lemma loadCache_valid (st : State) :
  validCache (cache st) → validCache (cache (fst (loadCache st))).
Proof.
  intros Hc. unfold loadCache.
  destruct (cacheFile st) as [[e| |v]|]; try done.
  pose proof (Unmarshal_valid v (cache st) Hc).
  by destruct (Unmarshal v (cache st)).
Qed.

End LoadValid.

(** What the formatter writes is ASCII, hence valid UTF-8. *)

Lemma digitChar_ascii (d : Z) :
  0 ≤ d ≤ 9 → (Ascii.nat_of_ascii (time.digitChar d) <? 128)%nat = true.
Proof.
  intros Hd. unfold time.digitChar.
  rewrite Ascii.nat_ascii_embedding by lia. apply Nat.ltb_lt. lia.
Qed.

Lemma uint_ascii (d : Decimal.uint) : isASCII (NilEmpty.string_of_uint d) = true.
Proof. induction d; try done; unfold isASCII in *; simpl; by rewrite IHd. Qed.

Lemma decimal_ascii (u : Z) : isASCII (time.decimal u) = true.
Proof.
  unfold time.decimal, NilZero.string_of_uint.
  destruct (N.to_uint (Z.to_N u)); try done; apply uint_ascii.
Qed.

Lemma zeros_ascii (n : nat) : isASCII (time.zeros n) = true.
Proof. induction n; [done|]. unfold isASCII in *. simpl. by rewrite IHn. Qed.

Lemma appendInt_ascii (x : Z) (width : nat) : isASCII (time.appendInt x width) = true.
Proof.
  unfold time.appendInt. rewrite isASCII_app. apply andb_true_iff. split.
  - by destruct (x <? 0).
  - destruct (Nat.eqb width 2 && (Z.abs x <? 100)) eqn:E.
    + apply andb_true_iff in E as [_ Hu%Z.ltb_lt].
      unfold isASCII. cbn [forallb list_ascii_of_string].
      rewrite !digitChar_ascii; [done|..].
      * pose proof (Z.mod_pos_bound (Z.abs x) 10). lia.
      * split; [apply Z.div_pos; lia|].
        assert (Z.abs x / 10 < 10) by (apply Z.div_lt_upper_bound; lia). lia.
    + by rewrite isASCII_app, zeros_ascii, decimal_ascii.
Qed.

Lemma isASCII_cons (c : ascii) (s : string) :
  isASCII (String c s) = (Ascii.nat_of_ascii c <? 128)%nat && isASCII s.
Proof. done. Qed.

Lemma FormatDate_valid (t : time.Time) : utf8.ValidString (time.FormatDate t) = true.
Proof.
  apply ascii_valid. unfold time.FormatDate.
  by rewrite !isASCII_app, !isASCII_cons, !isASCII_app, !isASCII_cons, !appendInt_ascii.
Qed.

Lemma FormatHHMM_valid (t : time.Time) : utf8.ValidString (time.FormatHHMM t) = true.
Proof.
  apply ascii_valid. unfold time.FormatHHMM.
  by rewrite !isASCII_app, !isASCII_cons, !appendInt_ascii.
Qed.

Section BuildValid.
Variable Local : time.Location.

Lemma buildEPGCache_valid (tv : TV) (c : EPGCache) :
  validTV tv → validCache (fst (buildEPGCache Local tv c)).
Proof.
  intros [Hch Hpr]. unfold buildEPGCache. split; cbn [fst ChannelMap ProgramData].
  - unfold buildChannelMap.
    revert Hch. generalize (tv_Channels tv). intros chs Hchs.
    assert (Hgen : ∀ m,
      map_Forall (fun k v => utf8.ValidString k = true ∧ utf8.ValidString v = true) m →
      map_Forall (fun k v => utf8.ValidString k = true ∧ utf8.ValidString v = true)
        (foldl (fun m ch => scanDisplayNames (ch_ID ch) (ch_DisplayName ch) m) m chs)).
    { induction Hchs as [|ch chs [Hid Hdns] Hchs IH]; intros m Hm; [done|].
      simpl. apply IH. rewrite scanDisplayNames_find.
      destruct (List.find isZhName (ch_DisplayName ch)) as [dn|] eqn:Hf; [|done].
      apply List.find_some in Hf as [Hin _].
      rewrite Forall_forall in Hdns.
      apply list_elem_of_In, Hdns in Hin as [_ Hv].
      by apply map_Forall_insert_2. }
    apply Hgen, map_Forall_empty.
  - unfold buildProgramData.
    revert Hpr. generalize (tv_Programmes tv). intros progs Hprogs.
    assert (Hgen : ∀ pd,
      map_Forall (fun ch byDate => utf8.ValidString ch = true ∧ validDates byDate) pd →
      map_Forall (fun ch byDate => utf8.ValidString ch = true ∧ validDates byDate)
        (foldl (addProgramme Local) pd progs)).
    { induction Hprogs as [|prog progs (_ & _ & Hc & Ht) Hprogs IH]; intros pd Hpd; [done|].
      simpl. apply IH. rewrite addProgramme_itemOf.
      destruct (itemOf Local prog) as [[d it]|] eqn:Hit; [|done].
      apply itemOf_inv in Hit as (startTime & stopTime & _ & _ & -> & ->).
      assert (Hold : validDates (default ∅ (pd !! prog_Channel prog))).
      { destruct (pd !! prog_Channel prog) as [byDate|] eqn:E; simpl.
        - by apply (Hpd _ _ E).
        - apply map_Forall_empty. }
      apply map_Forall_insert_2; [|done]. split; [done|].
      apply map_Forall_insert_2; [|done]. split; [apply FormatDate_valid|].
      apply Forall_app. split.
      - unfold entry. destruct (pd !! prog_Channel prog) as [byDate|] eqn:E; simpl; [|done].
        destruct (byDate !! time.FormatDate startTime) as [l|] eqn:E'; simpl; [|done].
        by apply (Hold _ _ E').
      - apply Forall_singleton.
        split; [apply FormatHHMM_valid|split; [apply FormatHHMM_valid|done]]. }
    apply Hgen, map_Forall_empty.
Qed.

End BuildValid.

Lemma reachable_valid (Local : time.Location) (c : EPGCache) :
  reachable Local c → validCache c.
Proof.
  induction 1 as [|c file Hc IH|c file w Hc IH Hw].
  - split; apply map_Forall_empty.
  - by apply loadCache_valid.
  - unfold downloadAndParseEPG, saveCache.
    destruct (httpGet w) as [tmpFile|]; [|done].
    destruct (gunzip w tmpFile) as [xmlFilePath|]; [|done].
    destruct (decodeXML w xmlFilePath) as [tv|] eqn:Htv; [|done].
    apply Hw in Htv.
    pose proof (buildEPGCache_valid Local tv c Htv) as Hb. cbn [cache].
    destruct (buildEPGCache Local tv c) as [c' [e|]]; cbn [fst] in *; [done|].
    by destruct (writeFile w) as [[e remains]|].
Qed.

(** C3: a reachable index written by [saveCache] and read back by
    [loadCache] into the empty cache of a starting process is the same
    index, and neither step reports an error. *)
Theorem snapshot_round_trip (Local : time.Location) (x : EPGCache) (w : World)
    (file : option fileData) :
  reachable Local x →
  writeFile w = None →
  let saved := saveCache w {| cache := x; cacheFile := file |} in
  snd saved = None
  ∧ loadCache {| cache := epgCache0; cacheFile := cacheFile (fst saved) |}
    = ({| cache := x; cacheFile := cacheFile (fst saved) |}, None).
Proof.
  intros Hx%reachable_valid Hw. unfold saveCache. rewrite Hw. cbn [fst snd cache cacheFile].
  split; [done|]. unfold loadCache. cbn [cache cacheFile].
  by rewrite (Unmarshal_Marshal x Hx).
Qed.

Lemma sampleTV_valid : validTV sampleTV.
Proof. split; repeat constructor. Defined.

Lemma snapshot_round_trip_witness :
  let x := cache (fst (downloadAndParseEPG (time.FixedZone 28800) feedWorld
                         {| cache := epgCache0; cacheFile := None |})) in
  let saved := saveCache feedWorld {| cache := x; cacheFile := None |} in
  snd saved = None
  ∧ loadCache {| cache := epgCache0; cacheFile := cacheFile (fst saved) |}
    = ({| cache := x; cacheFile := cacheFile (fst saved) |}, None).
Proof.
  apply (snapshot_round_trip (time.FixedZone 28800) _ feedWorld None).
  - apply (reach_run (time.FixedZone 28800) epgCache0 None feedWorld (reach_start _)).
    intros path tv H. injection H as <-. exact sampleTV_valid.
  - reflexivity.
Defined.

(** ** Lookups under the read-write lock *)

Section Exclusion.
Import Concurrent.
Variable Local : time.Location.

Variable c0 : EPGCache.

Local Abbreviation installed := (Concurrent.installed Local c0).
Local Abbreviation threadOK := (Concurrent.threadOK Local).
Local Abbreviation Inv := (Concurrent.Inv Local c0).

Lemma existsb_false_lookup {A} (f : A → bool) (l : list A) :
  existsb f l = false ↔ ∀ i x, l !! i = Some x → f x = false.
Proof.
  split.
  - intros H i x Hx. destruct (f x) eqn:E; [|done].
    assert (existsb f l = true); [|congruence].
    apply existsb_exists. exists x. split; [|done].
    apply list_elem_of_In, list_elem_of_lookup. eauto.
  - intros H. destruct (existsb f l) eqn:E; [|done].
    apply existsb_exists in E as (x & Hin & Hx).
    apply list_elem_of_In, list_elem_of_lookup in Hin as [i Hi].
    rewrite (H i x Hi) in Hx. done.
Qed.

Lemma handler_rejects (g : EPGCache) (chName dateStr : string) :
  paramsOK chName dateStr = false →
  epgQueryHandler g chName dateStr = epgQueryHandler c0 chName dateStr.
Proof.
  unfold paramsOK, epgQueryHandler.
  destruct (bool_decide (chName = "") || bool_decide (dateStr = "")); [done|].
  by destruct (time.ParseDate dateStr).
Qed.

Section OneStep.
Variables (writeHeld anyHeld : bool) (s s' : EPGCache) (t t' : thread).
Hypothesis Hstep : tstep Local writeHeld anyHeld s t = Some (s', t').

Ltac cases :=
  revert Hstep; unfold tstep;
  destruct t as [chName dateStr [| | |chID|chID dps|r|r]|tv [| | |[|ch rest]|[|prog rest]|]];
  repeat match goal with
    | |- context [if ?b then _ else _] => destruct b eqn:?
    | |- context [match ?x with _ => _ end] => destruct x eqn:?
    end;
  intros [= <- <-] || (intros [=]).

Lemma tstep_same : sameThread t t'.
Proof. cases; done. Qed.

Lemma tstep_acquire_write :
  holdsWrite t' = true → holdsWrite t = true ∨ anyHeld = false.
Proof. cases; simpl; auto; try congruence. Qed.

Lemma tstep_acquire :
  holds t' = true → holds t = true ∨ writeHeld = false ∨ anyHeld = false.
Proof. cases; simpl; auto; try congruence. Qed.

Lemma tstep_keeps_shared : holdsWrite t = false → s' = s.
Proof. cases; simpl; auto; try congruence. Qed.

Lemma tstep_release_write :
  holdsWrite t = true → holdsWrite t' = false →
  threadOK (fun _ => True) s t →
  ∃ tv pc, t' = Writer tv pc ∧ s' = fst (buildEPGCache Local tv c0).
Proof.
  cases; simpl; try congruence.
  intros _ _ [Hcm Hpd]. exists tv, WDone. split; [done|].
  unfold buildEPGCache. simpl. destruct s as [cm pd]. simpl in *.
  unfold buildProgramData in Hpd at 1. simpl in Hpd. by subst.
Qed.

Lemma tstep_threadOK (inst : EPGCache → Prop) :
  inst c0 → (holdsRead t = true → inst s) →
  threadOK inst s t → threadOK inst s' t'.
Proof.
  intros Hc0 Hread. cases; simpl; try done.
  all: try (intros; unfold paramsOK, epgQueryHandler in *;
            repeat match goal with
              | H : _ ∧ _ |- _ => destruct H
              | H : ?x = _ |- context [?x] => rewrite H
              | H : andb _ _ = true |- _ => apply andb_true_iff in H as [? ?]
              | H : negb _ = true |- _ => apply negb_true_iff in H
              end; simpl; try done).
  all: try (by exists c0).
  all: try (by destruct (time.ParseDate dateStr)).
  exists s. split; [by apply Hread|done].
Qed.

End OneStep.

Lemma threadOK_mono (inst inst' : EPGCache → Prop) (s : EPGCache) (t : thread) :
  (∀ g, inst g → inst' g) → threadOK inst s t → threadOK inst' s t.
Proof.
  intros Hi. destruct t as [chName dateStr []|tv []]; simpl; try done.
  intros (g & Hg & ->). exists g. auto.
Qed.

Lemma threadOK_idle (inst : EPGCache → Prop) (s s' : EPGCache) (t : thread) :
  holds t = false → threadOK inst s t → threadOK inst s' t.
Proof. by destruct t as [chName dateStr []|tv []]. Qed.

Lemma installed_insert (ts : list thread) (i : nat) (t t' : thread) (g : EPGCache) :
  ts !! i = Some t → sameThread t t' → installed ts g → installed (<[i := t']> ts) g.
Proof.
  intros Hi Hsame [->|(j & tv & pc & Hj & ->)]; [by left|]. right.
  destruct (decide (i = j)) as [->|Hne].
  - rewrite Hi in Hj. injection Hj as ->.
    destruct t' as [|tv' pc']; [done|]. simpl in Hsame. subst tv'.
    exists j, tv, pc'. split; [|done].
    apply list_lookup_insert_eq. by eapply lookup_lt_Some.
  - exists j, tv, pc. by rewrite list_lookup_insert_ne.
Qed.

Lemma step_Inv (i : nat) (cfg cfg' : config) :
  Inv cfg → step Local i cfg = Some cfg' → Inv cfg'.
Proof.
  intros (Hexcl & Hinst & Hok). unfold step.
  destruct (threads cfg !! i) as [t|] eqn:Hi; [|done].
  destruct (tstep Local _ _ (shared cfg) t) as [[s' t']|] eqn:Hstep; [|done].
  intros [= <-]. cbn [shared threads].
  pose proof (tstep_same _ _ _ _ _ _ Hstep) as Hsame.
  assert (Hlen : (i < length (threads cfg))%nat) by by eapply lookup_lt_Some.
  assert (Hmono : ∀ g, installed (threads cfg) g → installed (<[i := t']> (threads cfg)) g)
    by (intros g; by apply (installed_insert _ i t t')).
  (* nobody else holds the lock in a conflicting mode *)
  assert (Hothers : holdsWrite t = true →
            ∀ j tj, i ≠ j → threads cfg !! j = Some tj → holds tj = false).
  { intros Hw j tj Hne Hj. destruct (holds tj) eqn:E; [|done].
    by destruct Hne; apply (Hexcl i j t tj). }
  assert (Hnowriter : holdsRead t = true → existsb holdsWrite (threads cfg) = false).
  { intros Hr. apply existsb_false_lookup. intros j tj Hj.
    destruct (holdsWrite tj) eqn:E; [|done].
    assert (j = i) as -> by (apply (Hexcl j i tj t); unfold holds; by rewrite ?Hr).
    rewrite Hi in Hj. injection Hj as <-.
    destruct t as [? ? []|? []]; done. }
  unfold Concurrent.Inv. cbn [shared threads].
  split; [|split].
  - intros a b ta tb Ha Hb Hwa Hhb.
    apply list_lookup_insert_Some in Ha as [(-> & -> & _)|[Hia Ha]];
      apply list_lookup_insert_Some in Hb as [(Hab & -> & _)|[Hib Hb]]; try done.
    + (* the stepping goroutine holds the write lock, another one holds *)
      destruct (tstep_acquire_write _ _ _ _ _ _ Hstep Hwa) as [Hw|Hnone].
      * by rewrite (Hothers Hw b tb Hib Hb) in Hhb.
      * apply existsb_false_lookup with (i := b) (x := tb) in Hnone; [congruence|done].
    + (* another goroutine holds the write lock, the stepping one holds *)
      subst b.
      destruct (tstep_acquire _ _ _ _ _ _ Hstep Hhb) as [Hh|[Hnw|Hnone]].
      * by destruct Hia; symmetry; apply (Hexcl a i ta t).
      * apply existsb_false_lookup with (i := a) (x := ta) in Hnw; [congruence|done].
      * apply existsb_false_lookup with (i := a) (x := ta) in Hnone; [|done].
        unfold holds in Hnone. rewrite Hwa, orb_true_r in Hnone. done.
    + by apply (Hexcl a b ta tb).
  - intros Hnw.
    assert (Hw' : holdsWrite t' = false).
    { apply existsb_false_lookup with (i := i) (x := t') in Hnw; [done|].
      by apply list_lookup_insert_eq. }
    destruct (holdsWrite t) eqn:Hw.
    + (* the write lock is released: the build is complete *)
      destruct (tstep_release_write _ _ _ _ _ _ Hstep Hw Hw') as (tv & pc & -> & ->).
      { eapply threadOK_mono; [|by apply (Hok i t)]. done. }
      right. exists i, tv, pc. split; [|done]. by apply list_lookup_insert_eq.
    + rewrite (tstep_keeps_shared _ _ _ _ _ _ Hstep Hw). apply Hmono, Hinst.
      apply existsb_false_lookup. intros j tj Hj.
      destruct (decide (i = j)) as [<-|Hne]; [congruence|].
      apply existsb_false_lookup with (i := j) (x := tj) in Hnw; [done|].
      by rewrite list_lookup_insert_ne.
  - intros j tj Hj.
    apply list_lookup_insert_Some in Hj as [(<- & <- & _)|[Hne Hj]].
    + apply (tstep_threadOK _ _ _ _ _ _ Hstep); [by left| |].
      * intros Hr. apply Hmono, Hinst, Hnowriter, Hr.
      * eapply threadOK_mono; [exact Hmono|by apply (Hok i t)].
    + eapply threadOK_mono; [exact Hmono|].
      destruct (holdsWrite t) eqn:Hw.
      * apply threadOK_idle with (s := shared cfg); [by apply (Hothers eq_refl j)|].
        by apply (Hok j).
      * rewrite (tstep_keeps_shared _ _ _ _ _ _ Hstep Hw). by apply (Hok j).
Qed.

Lemma run_Inv (schedule : list nat) (cfg cfg' : config) :
  Inv cfg → run Local schedule cfg = Some cfg' → Inv cfg'.
Proof.
  revert cfg. induction schedule as [|i rest IH]; intros cfg HI; simpl.
  - by intros [= <-].
  - destruct (step Local i cfg) as [cfg1|] eqn:Hs; [|done].
    apply IH. by apply (step_Inv i cfg).
Qed.

Lemma start_Inv (ts : list thread) :
  forallb atStart ts = true → Inv {| shared := c0; threads := ts |}.
Proof.
  intros Hstart.
  assert (Hall : ∀ i t, ts !! i = Some t → atStart t = true).
  { intros i t Hi. rewrite forallb_forall in Hstart.
    apply Hstart, list_elem_of_In, list_elem_of_lookup. eauto. }
  split; [|split]; cbn [shared threads].
  - intros i j ti tj Hi _ Hw _. apply Hall in Hi.
    destruct ti as [? ? []|? []]; done.
  - intros _. by left.
  - intros i t Hi. apply Hall in Hi.
    destruct t as [? ? []|? []]; done.
Qed.

End Exclusion.

Section Generations.
Import Concurrent.
Variable Local : time.Location.
Variable c0 : EPGCache.

Lemma step_same_thread (i j : nat) (cfg cfg' : config) (t' : thread) :
  step Local i cfg = Some cfg' → threads cfg' !! j = Some t' →
  ∃ t, threads cfg !! j = Some t ∧ sameThread t t'.
Proof.
  unfold step.
  destruct (threads cfg !! i) as [t|] eqn:Hi; [|done].
  destruct (tstep Local _ _ (shared cfg) t) as [[s1 t1]|] eqn:Hstep; [|done].
  intros [= <-]. cbn [threads].
  intros [(<- & <- & _)|[Hne Hj]]%list_lookup_insert_Some.
  - exists t. split; [done|]. by apply (tstep_same Local _ _ _ _ _ _ Hstep).
  - exists t'. split; [done|]. by destruct t' as [? ? ?|? ?].
Qed.

Lemma run_writers (schedule : list nat) (cfg cfg' : config) (j : nat) (tv : TV)
    (pc : writer) :
  run Local schedule cfg = Some cfg' → threads cfg' !! j = Some (Writer tv pc) →
  ∃ pc0, threads cfg !! j = Some (Writer tv pc0).
Proof.
  revert cfg. induction schedule as [|i rest IH]; intros cfg; simpl.
  - intros [= <-] Hj. by exists pc.
  - destruct (step Local i cfg) as [cfg1|] eqn:Hs; [|done].
    intros Hrun Hj. destruct (IH cfg1 Hrun Hj) as [pc1 H1].
    destruct (step_same_thread i j cfg cfg1 _ Hs H1) as (t & Ht & Hsame).
    destruct t as [|tv0 pc0]; [done|]. simpl in Hsame. subst tv0. by exists pc0.
Qed.

End Generations.

(** C9: in every interleaving of handlers and builds that starts from an
    index [c0], a handler that has answered has answered what
    [epgQueryHandler] computes on one whole index generation: the initial
    index, or the index built from the document of one of the builds.  While
    a handler holds both its readings, they are the two mappings of the
    shared cache, which is then such a generation; and a goroutine that
    holds the write lock is the only one that holds the lock. *)
Theorem lookups_see_one_generation (Local : time.Location) (c0 : EPGCache)
    (ts0 : list Concurrent.thread) (schedule : list nat) (cfg : Concurrent.config) :
  forallb Concurrent.atStart ts0 = true →
  Concurrent.run Local schedule {| Concurrent.shared := c0; Concurrent.threads := ts0 |}
    = Some cfg →
  (∀ i chName dateStr r,
     Concurrent.threads cfg !! i
       = Some (Concurrent.Reader chName dateStr (Concurrent.RDone r)) →
     ∃ g, Concurrent.installed Local c0 ts0 g ∧ r = epgQueryHandler g chName dateStr)
  ∧ (∀ i chName dateStr chID datePrograms,
       Concurrent.threads cfg !! i
         = Some (Concurrent.Reader chName dateStr
                   (Concurrent.RGotDates chID datePrograms)) →
       ChannelMap (Concurrent.shared cfg) !! chName = Some chID
       ∧ ProgramData (Concurrent.shared cfg) !! chID = Some datePrograms
       ∧ Concurrent.installed Local c0 ts0 (Concurrent.shared cfg))
  ∧ (∀ i j ti tj,
       Concurrent.threads cfg !! i = Some ti → Concurrent.threads cfg !! j = Some tj →
       Concurrent.holdsWrite ti = true → Concurrent.holds tj = true → i = j).
Proof.
  intros Hstart Hrun.
  pose proof (run_Inv Local c0 schedule _ cfg (start_Inv Local c0 ts0 Hstart) Hrun)
    as (Hexcl & Hinst & Hok).
  assert (Hback : ∀ g, Concurrent.installed Local c0 (Concurrent.threads cfg) g
                       → Concurrent.installed Local c0 ts0 g).
  { intros g [->|(j & tv & pc & Hj & ->)]; [by left|]. right.
    destruct (run_writers Local schedule _ cfg j tv pc Hrun Hj) as [pc0 H0].
    by exists j, tv, pc0. }
  split; [|split; [|done]].
  - intros i chName dateStr r Hi.
    destruct (Hok i _ Hi) as (g & Hg & ->). exists g. auto.
  - intros i chName dateStr chID datePrograms Hi.
    destruct (Hok i _ Hi) as (_ & Hcm & Hpd). split; [done|split; [done|]].
    apply Hback, Hinst, existsb_false_lookup. intros j tj Hj.
    destruct (Concurrent.holdsWrite tj) eqn:E; [|done].
    assert (j = i) as -> by by apply (Hexcl j i tj _ Hj Hi).
    rewrite Hi in Hj. by injection Hj as <-.
Qed.

Lemma lookups_see_one_generation_witness :
  (∀ i chName dateStr r,
     Concurrent.threads afterSchedule !! i
       = Some (Concurrent.Reader chName dateStr (Concurrent.RDone r)) →
     ∃ g, Concurrent.installed (time.FixedZone 28800) epgCache0 twoReadersOneBuild g
          ∧ r = epgQueryHandler g chName dateStr)
  ∧ (∀ i chName dateStr chID datePrograms,
       Concurrent.threads afterSchedule !! i
         = Some (Concurrent.Reader chName dateStr
                   (Concurrent.RGotDates chID datePrograms)) →
       ChannelMap (Concurrent.shared afterSchedule) !! chName = Some chID
       ∧ ProgramData (Concurrent.shared afterSchedule) !! chID = Some datePrograms
       ∧ Concurrent.installed (time.FixedZone 28800) epgCache0 twoReadersOneBuild
           (Concurrent.shared afterSchedule))
  ∧ (∀ i j ti tj,
       Concurrent.threads afterSchedule !! i = Some ti →
       Concurrent.threads afterSchedule !! j = Some tj →
       Concurrent.holdsWrite ti = true → Concurrent.holds tj = true → i = j).
Proof.
  apply (lookups_see_one_generation (time.FixedZone 28800) epgCache0
           twoReadersOneBuild aSchedule afterSchedule).
  - reflexivity.
  - vm_compute. reflexivity.
Defined.

Example aSchedule_answers :
  Concurrent.threads afterSchedule
  = [ Concurrent.Reader "CCTV1" "2024-01-01"
        (Concurrent.RDone (ErrorResponse (msgChannelNotFound "CCTV1")));
      Concurrent.Writer sampleTV Concurrent.WDone;
      Concurrent.Reader "CCTV1" "2024-01-01"
        (Concurrent.RDone (DataResponse
           {| resp_ChannelName := "CCTV1"; resp_Date := "2024-01-01";
              resp_EPGData := [ {| item_Start := "12:00"; item_End := "13:00";
                                   item_Title := "News" |} ] |})) ].
Proof. vm_compute. reflexivity. Qed.

(** A handler cannot take the read lock while a build holds the lock. *)
Example reader_waits_for_build :
  Concurrent.run (time.FixedZone 28800) [1; 1; 0; 0]%nat
    {| Concurrent.shared := oldIndex; Concurrent.threads := twoReadersOneBuild |}
  = None.
Proof. vm_compute. reflexivity. Qed.

(** ** Out-of-range fields of a timestamp *)

(** In a zone of constant offset [Date] is linear in the day and in the
    time of day: fields out of their ranges carry over. *)
Lemma Date_fixed_linear (off y m d h mi s : Z) :
  time.unix (time.Date y m d h mi s (time.FixedZone off))
  = time.unix (time.Date y m 1 0 0 0 (time.FixedZone off))
    + 86400 * (d - 1) + 3600 * h + 60 * mi + s.
Proof.
  assert (Hunix : ∀ u, (if time.offset (time.lookup (time.FixedZone off) u) =? 0 then u
                        else u - (if (u - time.offset (time.lookup (time.FixedZone off) u)
                                        <? time.zstart (time.lookup (time.FixedZone off) u))
                                     || (time.zend (time.lookup (time.FixedZone off) u)
                                           <=? u - time.offset (time.lookup (time.FixedZone off) u))
                                  then time.offset (time.lookup (time.FixedZone off)
                                         (u - time.offset (time.lookup (time.FixedZone off) u)))
                                  else time.offset (time.lookup (time.FixedZone off) u)))
                       = u - off).
  { intros u. cbn [time.FixedZone time.lookup time.offset time.zstart time.zend].
    destruct (Z.eqb_spec off 0); [lia|]. by destruct (_ || _). }
  unfold time.Date, time.norm. cbv zeta. rewrite !Hunix. cbn [time.unix].
  set (y' := y + (m - 1) / 12). set (m' := (m - 1) mod 12 + 1).
  set (base := if time.isLeap y' && (3 <=? m')
               then time.daysSinceEpoch y' + time.daysBefore (m' - 1) + 1
               else time.daysSinceEpoch y' + time.daysBefore (m' - 1)).
  clearbody base. clear.
  Z.div_mod_to_equations. lia.
Qed.

Lemma parseEPGTime_digits (Local : time.Location) (yyyy mm dd hh mi ss rest : string) :
  isFourDigits yyyy = true → isTwoDigits mm = true → isTwoDigits dd = true →
  isTwoDigits hh = true → isTwoDigits mi = true → isTwoDigits ss = true →
  rest = EmptyString ∨ (∃ tz, rest = String GoString.space tz) →
  parseEPGTime Local
    (String.append yyyy (String.append mm (String.append dd
       (String.append hh (String.append mi (String.append ss rest))))))
  = Ok (time.Date (GoString.digitsVal 0 yyyy) (GoString.digitsVal 0 mm)
          (GoString.digitsVal 0 dd) (GoString.digitsVal 0 hh)
          (GoString.digitsVal 0 mi) (GoString.digitsVal 0 ss) Local).
Proof.
  intros Hy Hm Hd Hh Hmi Hs Hrest.
  destruct yyyy as [|y1 [|y2 [|y3 [|y4 [|]]]]]; try done.
  destruct mm as [|m1 [|m2 [|]]]; try done.
  destruct dd as [|d1 [|d2 [|]]]; try done.
  destruct hh as [|h1 [|h2 [|]]]; try done.
  destruct mi as [|i1 [|i2 [|]]]; try done.
  destruct ss as [|s1 [|s2 [|]]]; try done.
  unfold isFourDigits, isTwoDigits in *.
  repeat match goal with
         | H : _ && _ = true |- _ => apply andb_true_iff in H as [? ?]
         end.
  set (base := String y1 (String y2 (String y3 (String y4 (String m1 (String m2
                 (String d1 (String d2 (String h1 (String h2 (String i1 (String i2
                 (String s1 (String s2 EmptyString)))))))))))))).
  assert (Hsp : GoString.contains GoString.space base = false).
  { subst base. cbn [GoString.contains]. by rewrite !digit_not_space. }
  assert (Hbefore : GoString.before GoString.space (String.append base rest) = base).
  { destruct Hrest as [->|[tz ->]].
    - replace (String.append base "") with base by (by subst base).
      by apply before_no_sep.
    - by apply before_app_sep. }
  change (String.append (String y1 (String y2 (String y3 (String y4 ""))))
            (String.append (String m1 (String m2 "")) (String.append (String d1 (String d2 ""))
               (String.append (String h1 (String h2 "")) (String.append (String i1 (String i2 ""))
                  (String.append (String s1 (String s2 "")) rest))))))
    with (String.append base rest).
  rewrite parseEPGTime_unfold, Hbefore.
  replace (GoString.len base =? 14) with true by done.
  unfold dateOfFields. subst base. unfold GoString.slice.
  cbn [String.substring Nat.sub].
  assert (Hall : ∀ a b, GoString.isDigit a = true → GoString.isDigit b = true →
            GoString.allDigits (String a (String b "")) = true)
    by (intros a b Ha Hb; cbn [GoString.allDigits]; by rewrite Ha, Hb).
  assert (Hy4 : GoString.allDigits (String y1 (String y2 (String y3 (String y4 "")))) = true).
  { cbn [GoString.allDigits]. rewrite !andb_true_iff. by repeat split. }
  rewrite (Atoi_digits _ Hy4) by (simpl; lia).
  rewrite !Atoi_digits by (first [by apply Hall | simpl; lia]).
  done.
Qed.

(** X2: a timestamp of fourteen digits is never refused for a field out of its
    range: the day, hour, minute and second are counted on from the first
    day of the month at 00:00:00, so that an hour 24 is the first hour of
    the next day and a day 00 the last day of the month before (zone of
    constant offset). *)
Theorem parseEPGTime_carries_fields (off : Z) (yyyy mm dd hh mi ss : string) :
  isFourDigits yyyy = true → isTwoDigits mm = true → isTwoDigits dd = true →
  isTwoDigits hh = true → isTwoDigits mi = true → isTwoDigits ss = true →
  ∃ t t0,
    parseEPGTime (time.FixedZone off)
      (String.append yyyy (String.append mm (String.append dd
         (String.append hh (String.append mi ss))))) = Ok t
    ∧ parseEPGTime (time.FixedZone off)
        (String.append yyyy (String.append mm "01000000")) = Ok t0
    ∧ time.unix t
      = time.unix t0 + 86400 * (GoString.digitsVal 0 dd - 1)
        + 3600 * GoString.digitsVal 0 hh + 60 * GoString.digitsVal 0 mi
        + GoString.digitsVal 0 ss.
Proof.
  intros Hy Hm Hd Hh Hmi Hs.
  pose proof (parseEPGTime_digits (time.FixedZone off) yyyy mm dd hh mi ss ""
                Hy Hm Hd Hh Hmi Hs (or_introl eq_refl)) as Ht.
  pose proof (parseEPGTime_digits (time.FixedZone off) yyyy mm "01" "00" "00" "00" ""
                Hy Hm eq_refl eq_refl eq_refl eq_refl (or_introl eq_refl)) as Ht0.
  assert (Happ : ∀ s, String.append s "" = s).
  { induction s as [|c s IH]; [done|].
    change (String.append (String c s) "") with (String c (String.append s "")).
    by rewrite IH. }
  rewrite Happ in Ht.
  change (String.append "01" (String.append "00" (String.append "00" (String.append "00" ""))))
    with "01000000"%string in Ht0.
  eexists _, _. split; [exact Ht|]. split; [exact Ht0|].
  change (GoString.digitsVal 0 "01") with 1.
  change (GoString.digitsVal 0 "00") with 0.
  apply Date_fixed_linear.
Qed.

Lemma parseEPGTime_carries_fields_witness :
  ∃ t t0,
    parseEPGTime (time.FixedZone 28800) "20240131240000" = Ok t
    ∧ parseEPGTime (time.FixedZone 28800) "20240101000000" = Ok t0
    ∧ time.unix t = time.unix t0 + 86400 * (31 - 1) + 3600 * 24 + 60 * 0 + 0.
Proof.
  apply (parseEPGTime_carries_fields 28800 "2024" "01" "31" "24" "00" "00");
    reflexivity.
Defined.

(** ** From the feed to the answer *)

Section IndexLevels.
Variable Local : time.Location.

Lemma addProgramme_lookup (pd : gmap string (gmap string (list ProgramItem)))
    (prog : Programme) (ch : string) :
  is_Some (addProgramme Local pd prog !! ch)
  ↔ is_Some (pd !! ch) ∨ hasProgrammes Local ch [prog] = true.
Proof.
  rewrite addProgramme_itemOf. unfold hasProgrammes. simpl. rewrite orb_false_r.
  destruct (itemOf Local prog) as [[d it]|].
  - destruct (decide (prog_Channel prog = ch)) as [Hc|Hc].
    + rewrite Hc, lookup_insert_eq, bool_decide_eq_true_2 by done.
      split; [by right|by eexists].
    + rewrite lookup_insert_ne, bool_decide_eq_false_2 by done.
      split; [by left|by intros [?|?]].
  - rewrite andb_false_r. split; [by left|by intros [?|?]].
Qed.

Lemma buildProgramData_lookup (progs : list Programme)
    (pd : gmap string (gmap string (list ProgramItem))) (ch : string) :
  is_Some (buildProgramData Local progs pd !! ch)
  ↔ is_Some (pd !! ch) ∨ hasProgrammes Local ch progs = true.
Proof.
  revert pd. induction progs as [|prog progs IH]; intros pd.
  - simpl. split; [by left|by intros [?|?]].
  - change (buildProgramData Local (prog :: progs) pd)
      with (buildProgramData Local progs (addProgramme Local pd prog)).
    rewrite IH, addProgramme_lookup.
    unfold hasProgrammes. simpl. rewrite orb_false_r, orb_true_iff. tauto.
Qed.

Lemma addProgramme_noEmptyLevel (pd : gmap string (gmap string (list ProgramItem)))
    (prog : Programme) :
  noEmptyLevel pd → noEmptyLevel (addProgramme Local pd prog).
Proof.
  intros Hpd. rewrite addProgramme_itemOf.
  destruct (itemOf Local prog) as [[d it]|]; [|done].
  apply map_Forall_insert_2; [|done]. split.
  - apply insert_non_empty.
  - apply map_Forall_insert_2.
    + by destruct (default [] _).
    + destruct (pd !! prog_Channel prog) as [byDate|] eqn:E; simpl.
      * by destruct (Hpd _ _ E).
      * apply map_Forall_empty.
Qed.

Lemma buildProgramData_noEmptyLevel (progs : list Programme)
    (pd : gmap string (gmap string (list ProgramItem))) :
  noEmptyLevel pd → noEmptyLevel (buildProgramData Local progs pd).
Proof.
  revert pd. induction progs as [|prog progs IH]; intros pd Hpd; [done|].
  apply IH. by apply addProgramme_noEmptyLevel.
Qed.

End IndexLevels.

(** X3: every level of the index that a build leaves holds something: a
    channel id is there with at least one date, a date with at least one
    programme.  A query that the built index answers with data therefore
    never answers with an empty list. *)
Theorem buildEPGCache_no_empty_level (Local : time.Location) (tv : TV) (c : EPGCache) :
  noEmptyLevel (ProgramData (fst (buildEPGCache Local tv c)))
  ∧ (∀ chName dateStr r,
       epgQueryHandler (fst (buildEPGCache Local tv c)) chName dateStr = DataResponse r →
       resp_EPGData r ≠ []).
Proof.
  assert (Hne : noEmptyLevel (ProgramData (fst (buildEPGCache Local tv c)))).
  { apply buildProgramData_noEmptyLevel, map_Forall_empty. }
  split; [done|].
  intros chName dateStr r. unfold epgQueryHandler.
  destruct (_ || _); [done|].
  destruct (time.ParseDate dateStr); [|done].
  destruct (ChannelMap _ !! chName) as [chID|]; [|done].
  destruct (ProgramData _ !! chID) as [datePrograms|] eqn:E1; [|done].
  destruct (datePrograms !! dateStr) as [programs|] eqn:E2; [|done].
  intros [= <-]. simpl.
  destruct (Hne _ _ E1) as [_ Hd]. by apply (Hd _ _ E2).
Qed.

Lemma matchesLayout_inv (s : string) :
  matchesLayout s = true →
  ∃ y1 y2 y3 y4 m1 m2 a1 a2,
    s = String y1 (String y2 (String y3 (String y4 (String "-"%char
          (String m1 (String m2 (String "-"%char (String a1 (String a2 "")))))))))
    ∧ GoString.isDigit y1 = true ∧ GoString.isDigit y2 = true
    ∧ GoString.isDigit y3 = true ∧ GoString.isDigit y4 = true
    ∧ GoString.isDigit m1 = true ∧ GoString.isDigit m2 = true
    ∧ GoString.isDigit a1 = true ∧ GoString.isDigit a2 = true.
Proof.
  destruct s as [|y1 [|y2 [|y3 [|y4 [|d1 [|m1 [|m2 [|d2 [|a1 [|a2 [|]]]]]]]]]]]; try done.
  unfold matchesLayout. rewrite !andb_true_iff.
  intros [[[[[[[[[? ?] ?] ?] ?%Ascii.eqb_eq] ?] ?] ?%Ascii.eqb_eq] ?] ?]. subst.
  by exists y1, y2, y3, y4, m1, m2, a1, a2.
Qed.

Lemma ParseDate_digits (y1 y2 y3 y4 m1 m2 a1 a2 : ascii) :
  GoString.isDigit y1 = true → GoString.isDigit y2 = true →
  GoString.isDigit y3 = true → GoString.isDigit y4 = true →
  GoString.isDigit m1 = true → GoString.isDigit m2 = true →
  GoString.isDigit a1 = true → GoString.isDigit a2 = true →
  let year := GoString.digitsVal 0 (String y1 (String y2 (String y3 (String y4 "")))) in
  let month := GoString.digitVal m1 * 10 + GoString.digitVal m2 in
  let day := GoString.digitVal a1 * 10 + GoString.digitVal a2 in
  time.ParseDate (String y1 (String y2 (String y3 (String y4 (String "-"%char
          (String m1 (String m2 (String "-"%char (String a1 (String a2 ""))))))))))
  = if (month <=? 0) || (12 <? month) then inr time.errMonthRange
    else if (day <? 1) || (time.daysIn month year <? day) then inr time.errDayRange
    else inl (time.Date year month day 0 0 0 (time.FixedZone 0)).
Proof.
  intros Hy1 Hy2 Hy3 Hy4 Hm1 Hm2 Ha1 Ha2 year month day.
  unfold time.ParseDate, time.isDigitAt, GoString.slice, time.drop.
  cbn [String.length String.get String.substring Nat.sub Nat.ltb Nat.leb orb negb
       GoString.allDigits].
  rewrite Hy1, Hy2, Hy3, Hy4. cbn [andb negb orb time.skipDash].
  replace (Ascii.eqb "-" "-") with true by done.
  unfold time.getnum, time.isDigitAt, time.byteAt, time.drop.
  cbn [String.length String.get String.substring Nat.sub].
  rewrite Hm1, Hm2. cbn [negb time.skipDash].
  fold month. destruct ((month <=? 0) || (12 <? month)); [done|].
  replace (Ascii.eqb "-" "-") with true by done.
  cbn [String.length String.get String.substring Nat.sub].
  rewrite Ha1, Ha2. cbn [negb String.length Nat.eqb]. done.
Qed.

Lemma digitsVal_four (y1 y2 y3 y4 : ascii) :
  GoString.digitsVal 0 (String y1 (String y2 (String y3 (String y4 ""))))
  = ((GoString.digitVal y1 * 10 + GoString.digitVal y2) * 10 + GoString.digitVal y3) * 10
    + GoString.digitVal y4.
Proof. cbn [GoString.digitsVal]. by rewrite Z.mul_0_l, Z.add_0_l. Qed.

Lemma ParseDate_calendar (s : string) :
  (isCalendarDate s = true → ∃ t, time.ParseDate s = inl t)
  ∧ (∀ t, time.ParseDate s = inl t → isCalendarDate s = true).
Proof.
  split.
  - unfold isCalendarDate. intros [Hl Hr]%andb_true_iff.
    destruct (matchesLayout_inv s Hl)
      as (y1 & y2 & y3 & y4 & m1 & m2 & a1 & a2 & -> & ? & ? & ? & ? & ? & ? & ? & ?).
    rewrite ParseDate_digits, digitsVal_four by done.
    revert Hr. unfold GoString.slice. cbn [Nat.sub String.substring GoString.digitsVal].
    rewrite !andb_true_iff, !Z.leb_le, !Z.mul_0_l, !Z.add_0_l. intros [[[? ?] ?] ?].
    destruct ((_ <=? 0) || _) eqn:E1.
    { apply orb_true_iff in E1 as [?%Z.leb_le|?%Z.ltb_lt]; lia. }
    destruct ((_ <? 1) || _) eqn:E2; [|by eexists].
    apply orb_true_iff in E2 as [?%Z.ltb_lt|?%Z.ltb_lt]; lia.
  - intros t Ht. pose proof (ParseDate_matchesLayout s t Ht) as Hl.
    unfold isCalendarDate. rewrite Hl. simpl.
    destruct (matchesLayout_inv s Hl)
      as (y1 & y2 & y3 & y4 & m1 & m2 & a1 & a2 & -> & ? & ? & ? & ? & ? & ? & ? & ?).
    rewrite ParseDate_digits, digitsVal_four in Ht by done.
    unfold GoString.slice. cbn [Nat.sub String.substring GoString.digitsVal].
    rewrite !Z.mul_0_l, !Z.add_0_l.
    destruct ((_ <=? 0) || _) eqn:E1; [done|].
    destruct ((_ <? 1) || _) eqn:E2; [done|].
    apply orb_false_iff in E1 as [?%Z.leb_gt ?%Z.ltb_ge].
    apply orb_false_iff in E2 as [?%Z.ltb_ge ?%Z.ltb_ge].
    rewrite !andb_true_iff, !Z.leb_le. lia.
Qed.

(** *** The decimal digits of a number *)

Lemma of_uint_acc_bound (d : Decimal.uint) (acc : positive) :
  Z.pos (Pos.of_uint_acc d acc) < (Z.pos acc + 1) * 10 ^ Z.of_nat (Decimal.nb_digits d).
Proof.
  revert acc. induction d as [|d IH|d IH|d IH|d IH|d IH|d IH|d IH|d IH|d IH|d IH];
    intros acc; cbn [Pos.of_uint_acc Decimal.nb_digits];
    [simpl; lia|..];
    rewrite Nat2Z.inj_succ, Z.pow_succ_r by lia;
    match goal with
    | |- context [Pos.of_uint_acc d ?a] => specialize (IH a)
    end;
    assert (0 < 10 ^ Z.of_nat (Decimal.nb_digits d)) by (apply Z.pow_pos_nonneg; lia);
    nia.
Qed.

Lemma of_uint_bound (d : Decimal.uint) :
  Z.of_N (N.of_uint d) < 10 ^ Z.of_nat (Decimal.nb_digits d).
Proof.
  unfold N.of_uint.
  induction d as [|d IH|d IH|d IH|d IH|d IH|d IH|d IH|d IH|d IH|d IH];
    cbn [Pos.of_uint Decimal.nb_digits]; [simpl; lia|..];
    rewrite Nat2Z.inj_succ, Z.pow_succ_r by lia;
    assert (0 < 10 ^ Z.of_nat (Decimal.nb_digits d)) by (apply Z.pow_pos_nonneg; lia);
    [lia|..];
    match goal with
    | |- context [Pos.of_uint_acc d ?a] => pose proof (of_uint_acc_bound d a)
    end; rewrite N2Z.inj_pos; nia.
Qed.

Lemma string_of_uint_length (d : Decimal.uint) :
  String.length (NilEmpty.string_of_uint d) = Decimal.nb_digits d.
Proof. induction d; simpl; congruence. Qed.

Lemma decimal_bound (u : Z) : 0 ≤ u → u < 10 ^ Z.of_nat (String.length (time.decimal u)).
Proof.
  intros Hu. unfold time.decimal.
  pose proof (of_uint_bound (N.to_uint (Z.to_N u))) as Hb.
  rewrite DecimalN.Unsigned.of_to, Z2N.id in Hb by done.
  destruct (N.to_uint (Z.to_N u)) eqn:E;
    try (unfold NilZero.string_of_uint; rewrite string_of_uint_length; exact Hb).
  simpl in *. lia.
Qed.

Lemma append_length (s1 s2 : string) :
  String.length (String.append s1 s2) = (String.length s1 + String.length s2)%nat.
Proof.
  induction s1 as [|c s1 IH]; [done|].
  change (String.append (String c s1) s2) with (String c (String.append s1 s2)).
  cbn [String.length]. by rewrite IH.
Qed.

Lemma appendInt_long (x : Z) : 10000 ≤ x → (5 ≤ String.length (time.appendInt x 4))%nat.
Proof.
  intros Hx. unfold time.appendInt.
  rewrite Z.abs_eq by lia.
  replace (x <? 0) with false by (symmetry; apply Z.ltb_ge; lia).
  cbn [Nat.eqb andb].
  rewrite !append_length. cbn [String.length].
  pose proof (decimal_bound x ltac:(lia)) as Hb.
  destruct (le_lt_dec 5 (String.length (time.decimal x))) as [|Hlt]; [lia|exfalso].
  assert (10 ^ Z.of_nat (String.length (time.decimal x)) ≤ 10 ^ 4)
    by (apply Z.pow_le_mono_r; lia).
  lia.
Qed.

Lemma appendInt_negative (x : Z) (w : nat) :
  x < 0 → ∃ body, time.appendInt x w = String "-"%char body.
Proof.
  intros Hx. unfold time.appendInt.
  replace (x <? 0) with true by (symmetry; apply Z.ltb_lt; lia).
  by eexists.
Qed.

Lemma matchesLayout_length (s : string) : matchesLayout s = true → String.length s = 10%nat.
Proof.
  intros H. destruct (matchesLayout_inv s H) as (?&?&?&?&?&?&?&?&->&_). done.
Qed.

(** The digits that [appendInt] writes are read back as the number. *)
Lemma digitsVal_appendInt_two (x : Z) :
  0 ≤ x < 100 → GoString.digitsVal 0 (time.appendInt x 2) = x.
Proof.
  intros Hx.
  assert (Hall : forallb (fun x => GoString.digitsVal 0 (time.appendInt x 2) =? x)
                   (seqZ 0 100) = true) by (by vm_compute).
  rewrite forallb_forall in Hall.
  apply Z.eqb_eq, Hall, list_elem_of_In, elem_of_seqZ. lia.
Qed.

Lemma digitsVal_appendInt_four (x : Z) :
  0 ≤ x ≤ 9999 → GoString.digitsVal 0 (time.appendInt x 4) = x.
Proof.
  intros Hx.
  assert (Hall : forallb (fun h => forallb (fun l =>
                     GoString.digitsVal 0 (time.appendInt (100 * h + l) 4) =? 100 * h + l)
                   (seqZ 0 100)) (seqZ 0 100) = true) by (by vm_compute).
  pose proof (Z.mod_pos_bound x 100 ltac:(lia)).
  assert (0 ≤ x / 100 < 100)
    by (split; [apply Z.div_pos; lia|apply Z.div_lt_upper_bound; lia]).
  rewrite forallb_forall in Hall.
  assert (Hh : In (x / 100) (seqZ 0 100)) by (apply list_elem_of_In, elem_of_seqZ; lia).
  apply Hall in Hh. rewrite forallb_forall in Hh.
  assert (Hl : In (x mod 100) (seqZ 0 100)) by (apply list_elem_of_In, elem_of_seqZ; lia).
  apply Hh, Z.eqb_eq in Hl. by rewrite <- Z.div_mod in Hl by lia.
Qed.

Lemma isCalendarDate_parts (y m d : string) :
  isFourDigits y = true → isTwoDigits m = true → isTwoDigits d = true →
  isCalendarDate (String.append y (String "-"%char (String.append m (String "-"%char d))))
  = (1 <=? GoString.digitsVal 0 m) && (GoString.digitsVal 0 m <=? 12)
    && (1 <=? GoString.digitsVal 0 d)
    && (GoString.digitsVal 0 d <=? time.daysIn (GoString.digitsVal 0 m) (GoString.digitsVal 0 y)).
Proof.
  intros Hy Hm Hd. unfold isCalendarDate.
  rewrite matchesLayout_parts by done.
  destruct y as [|y1 [|y2 [|y3 [|y4 [|]]]]]; try done.
  destruct m as [|m1 [|m2 [|]]]; try done.
  destruct d as [|d1 [|d2 [|]]]; try done.
Qed.

Lemma daysIn_le_31 (m y : Z) : 1 ≤ m ≤ 12 → time.daysIn m y ≤ 31.
Proof.
  intros Hm. unfold time.daysIn. destruct (_ && _); [lia|].
  assert (Hall : forallb (fun m => time.daysBefore m - time.daysBefore (m - 1) <=? 31)
                   (seqZ 1 12) = true) by (by vm_compute).
  rewrite forallb_forall in Hall. apply Z.leb_le, Hall, list_elem_of_In, elem_of_seqZ. lia.
Qed.

Lemma FormatDate_calendar (t : time.Time) :
  isCalendarDate (time.FormatDate t) = true ↔ 0 ≤ time.cyear (time.fields t) ≤ 9999.
Proof.
  destruct (fields_date_range t) as [Hm Hd].
  pose proof (daysIn_le_31 _ (time.cyear (time.fields t)) Hm) as H31.
  split.
  - intros [Hl _]%andb_true_iff.
    destruct (Z.lt_ge_cases (time.cyear (time.fields t)) 0) as [Hneg|Hpos].
    { exfalso. unfold time.FormatDate in Hl.
      destruct (appendInt_negative _ 4%nat Hneg) as [body Hb]. rewrite Hb in Hl.
      destruct (matchesLayout_inv _ Hl) as (y1&?&?&?&?&?&?&?&Heq&Hy1&_).
      injection Heq as <-. by vm_compute in Hy1. }
    split; [done|].
    destruct (Z.le_gt_cases (time.cyear (time.fields t)) 9999) as [|Hbig]; [done|exfalso].
    apply matchesLayout_length in Hl. unfold time.FormatDate in Hl.
    pose proof (appendInt_long (time.cyear (time.fields t)) ltac:(lia)).
    rewrite append_length in Hl. cbn [String.length] in Hl.
    rewrite append_length in Hl. cbn [String.length] in Hl.
    pose proof (appendInt_two_digits (time.cmonth (time.fields t)) ltac:(lia)) as H2.
    pose proof (appendInt_two_digits (time.cday (time.fields t)) ltac:(lia)) as H3.
    destruct (time.appendInt (time.cmonth (time.fields t)) 2) as [|? [|? [|]]]; try done.
    destruct (time.appendInt (time.cday (time.fields t)) 2) as [|? [|? [|]]]; try done.
    cbn [String.length] in Hl. lia.
  - intros Hy. unfold time.FormatDate.
    rewrite isCalendarDate_parts
      by (first [by apply appendInt_four_digits | apply appendInt_two_digits; lia]).
    rewrite digitsVal_appendInt_four, !digitsVal_appendInt_two by lia.
    rewrite !andb_true_iff, !Z.leb_le. lia.
Qed.

(** X4: a query against the index built from a feed is answered from the feed
    itself: the channel is the last one in the document whose lookup name
    is the requested name; the channel has no programme data when no
    programme of its id has two timestamps that parse; and the data are the
    items of that id on the requested date, in feed order. *)
Theorem query_after_build (Local : time.Location) (tv : TV) (c : EPGCache)
    (chName dateStr : string) :
  epgQueryHandler (fst (buildEPGCache Local tv c)) chName dateStr
  = answerFromFeed Local tv chName dateStr.
Proof.
  unfold epgQueryHandler, answerFromFeed.
  destruct (_ || _); [done|].
  destruct (time.ParseDate dateStr); [|done].
  assert (Hcm : ChannelMap (fst (buildEPGCache Local tv c)) !! chName
                = last (idsNamed chName (tv_Channels tv)))
    by apply buildChannelMap_lookup.
  rewrite Hcm. destruct (last _) as [chID|]; [|done].
  pose proof (buildProgramData_lookup Local (tv_Programmes tv) ∅ chID) as Hpd.
  pose proof (buildEPGCache_entry Local tv c chID dateStr) as He.
  unfold entry in He.
  change (ProgramData (fst (buildEPGCache Local tv c)))
    with (buildProgramData Local (tv_Programmes tv) ∅) in *.
  destruct (buildProgramData Local (tv_Programmes tv) ∅ !! chID) as [datePrograms|].
  - destruct (hasProgrammes Local chID (tv_Programmes tv)).
    + simpl in *. rewrite He. by destruct (itemsFor _ _ _ _).
    + destruct Hpd as [Hpd _]. destruct (Hpd ltac:(by eexists)) as [[? H]|H]; [|done].
      by rewrite lookup_empty in H.
  - destruct (hasProgrammes Local chID (tv_Programmes tv)); [|done].
    destruct Hpd as [_ Hpd]. by destruct (Hpd (or_intror eq_refl)).
Qed.

Lemma ParseDate_parts (y m d : string) :
  isFourDigits y = true → isTwoDigits m = true → isTwoDigits d = true →
  isCalendarDate (String.append y (String "-"%char (String.append m (String "-"%char d))))
  = true →
  time.ParseDate (String.append y (String "-"%char (String.append m (String "-"%char d))))
  = inl (time.Date (GoString.digitsVal 0 y) (GoString.digitsVal 0 m)
           (GoString.digitsVal 0 d) 0 0 0 (time.FixedZone 0)).
Proof.
  intros Hy Hm Hd. rewrite isCalendarDate_parts by done.
  destruct y as [|y1 [|y2 [|y3 [|y4 [|]]]]]; try done.
  destruct m as [|m1 [|m2 [|]]]; try done.
  destruct d as [|d1 [|d2 [|]]]; try done.
  unfold isFourDigits, isTwoDigits in *.
  repeat match goal with
         | H : _ && _ = true |- _ => apply andb_true_iff in H as [? ?]
         end.
  change (String.append (String y1 (String y2 (String y3 (String y4 ""))))
            (String "-" (String.append (String m1 (String m2 "")) (String "-" (String d1 (String d2 ""))))))
    with (String y1 (String y2 (String y3 (String y4 (String "-"%char
            (String m1 (String m2 (String "-"%char (String d1 (String d2 "")))))))))).
  rewrite ParseDate_digits by done.
  cbn [GoString.digitsVal]. rewrite !Z.mul_0_l, !Z.add_0_l.
  rewrite !andb_true_iff, !Z.leb_le. intros [[[? ?] ?] ?].
  destruct ((_ <=? 0) || _) eqn:E1.
  { apply orb_true_iff in E1 as [?%Z.leb_le|?%Z.ltb_lt]; lia. }
  destruct ((_ <? 1) || _) eqn:E2; [|done].
  apply orb_true_iff in E2 as [?%Z.ltb_lt|?%Z.ltb_lt]; lia.
Qed.

(** X5: the handler reports a date format error exactly for a request that
    names a channel and gives a date that is not a date of the calendar
    written YYYY-MM-DD: the pattern alone is not enough, the month has to
    exist and the day has to exist in that month of that year. *)
Theorem epgQueryHandler_rejects_date_iff (c : EPGCache) (chName dateStr : string) :
  epgQueryHandler c chName dateStr = ErrorResponse msgInvalidDateFormat
  ↔ chName ≠ "" ∧ dateStr ≠ "" ∧ isCalendarDate dateStr = false.
Proof.
  destruct (ParseDate_calendar dateStr) as [Hacc Href].
  unfold epgQueryHandler. split.
  - case_bool_decide as Hch; [by intros [=]|].
    case_bool_decide as Hd; [by intros [=]|]. cbn [orb].
    destruct (time.ParseDate dateStr) as [t|e] eqn:Hp.
    + intros Hresp. exfalso. revert Hresp.
      destruct (ChannelMap c !! chName) as [chID|];
        [|unfold msgChannelNotFound; cbv [String.append]; by intros [=]].
      destruct (ProgramData c !! chID) as [datePrograms|];
        [|unfold msgNoProgramData; cbv [String.append]; by intros [=]].
      destruct (datePrograms !! dateStr);
        [done|unfold msgNoProgramDataForDate; cbv [String.append]; by intros [=]].
    + intros _. split; [done|split; [done|]].
      destruct (isCalendarDate dateStr); [|done].
      destruct (Hacc eq_refl) as [t Ht]. congruence.
  - intros (Hch & Hd & Hcal).
    rewrite !bool_decide_eq_false_2 by done. cbn [orb].
    destruct (time.ParseDate dateStr) as [t|e] eqn:Hp; [|done].
    rewrite (Href t eq_refl) in Hcal. done.
Qed.

Lemma FormatDate_nonempty (t : time.Time) : time.FormatDate t ≠ "".
Proof.
  unfold time.FormatDate. intros H%(f_equal String.length).
  rewrite append_length in H. cbn [String.length] in H. lia.
Qed.

(** X6: the date under which the build files a programme is a date the
    handler accepts exactly when the year of the start instant, as shown in
    [time.Local], is between 0 and 9999; it is then read back as midnight
    UTC of the same calendar day.  A bucket whose year lies outside this
    range is in the index and no request can name it. *)
Theorem bucket_date_accepted_iff (t : time.Time) :
  ((∃ t', time.ParseDate (time.FormatDate t) = inl t')
   ↔ 0 ≤ time.cyear (time.fields t) ≤ 9999)
  ∧ (0 ≤ time.cyear (time.fields t) ≤ 9999 →
     time.ParseDate (time.FormatDate t)
     = inl (time.Date (time.cyear (time.fields t)) (time.cmonth (time.fields t))
              (time.cday (time.fields t)) 0 0 0 (time.FixedZone 0)))
  ∧ (¬ 0 ≤ time.cyear (time.fields t) ≤ 9999 →
     ∀ c chName, chName ≠ "" →
       epgQueryHandler c chName (time.FormatDate t) = ErrorResponse msgInvalidDateFormat).
Proof.
  destruct (ParseDate_calendar (time.FormatDate t)) as [Hacc Href].
  pose proof (FormatDate_calendar t) as Hcal.
  destruct (fields_date_range t) as [Hm Hd].
  pose proof (daysIn_le_31 _ (time.cyear (time.fields t)) Hm) as H31.
  assert (Hread : 0 ≤ time.cyear (time.fields t) ≤ 9999 →
     time.ParseDate (time.FormatDate t)
     = inl (time.Date (time.cyear (time.fields t)) (time.cmonth (time.fields t))
              (time.cday (time.fields t)) 0 0 0 (time.FixedZone 0))).
  { intros Hy. apply Hcal in Hy as Hc. unfold time.FormatDate in *.
    rewrite ParseDate_parts
      by (first [done | by apply appendInt_four_digits | apply appendInt_two_digits; lia]).
    by rewrite digitsVal_appendInt_four, !digitsVal_appendInt_two by lia. }
  split; [|split; [done|]].
  - split.
    + intros [t' Ht']. by apply Hcal, (Href t').
    + intros Hy. eexists. by apply Hread.
  - intros Hy c chName Hch.
    destruct (time.ParseDate (time.FormatDate t)) as [t'|e] eqn:Hp.
    { exfalso. by apply Hy, Hcal, (Href t'). }
    unfold epgQueryHandler. rewrite (bool_decide_eq_false_2 _ Hch). cbn [orb].
    rewrite (bool_decide_eq_false_2 _ (FormatDate_nonempty t)). by rewrite Hp.
Qed.

Lemma idsNamed_nonempty_name (name id : string) (chs : list Channel) :
  last (idsNamed name chs) = Some id → name ≠ "".
Proof.
  intros Hl%last_Some_elem_of. unfold idsNamed in Hl.
  apply list_elem_of_fmap in Hl as (ch & _ & Hch).
  rewrite list_elem_of_In in Hch. apply List.filter_In in Hch as [_ Hz].
  apply bool_decide_eq_true_1 in Hz. unfold zhName in Hz.
  destruct (List.find isZhName (ch_DisplayName ch)) as [dn|] eqn:Hf; [|done].
  apply List.find_some in Hf as [_ Hdn]. injection Hz as <-.
  unfold isZhName in Hdn. apply andb_true_iff in Hdn as [_ Hv%negb_true_iff].
  by apply bool_decide_eq_false_1 in Hv.
Qed.

(** X7: what the build files, a request gets back: a programme of the feed
    whose two timestamps parse and whose start falls in a year from 0 to
    9999 is in the answer to the request that names its channel (by the
    lookup name that the name index maps to its channel id) and the date of
    its start. *)
Theorem programme_is_served (Local : time.Location) (tv : TV) (c : EPGCache)
    (prog : Programme) (chName : string) (startTime stopTime : time.Time) :
  prog ∈ tv_Programmes tv →
  parseEPGTime Local (prog_Start prog) = Ok startTime →
  parseEPGTime Local (prog_Stop prog) = Ok stopTime →
  0 ≤ time.cyear (time.fields startTime) ≤ 9999 →
  last (idsNamed chName (tv_Channels tv)) = Some (prog_Channel prog) →
  ∃ programs,
    epgQueryHandler (fst (buildEPGCache Local tv c)) chName (time.FormatDate startTime)
    = DataResponse {| resp_ChannelName := chName;
                      resp_Date := time.FormatDate startTime;
                      resp_EPGData := programs |}
    ∧ {| item_Start := time.FormatHHMM startTime;
         item_End := time.FormatHHMM stopTime;
         item_Title := prog_Title prog |} ∈ programs.
Proof.
  intros Hin Hs He Hy Hid.
  unfold epgQueryHandler.
  rewrite (bool_decide_eq_false_2 _ (idsNamed_nonempty_name _ _ _ Hid)),
    (bool_decide_eq_false_2 _ (FormatDate_nonempty startTime)).
  cbn [orb].
  apply FormatDate_calendar in Hy as Hcal.
  destruct (ParseDate_calendar (time.FormatDate startTime)) as [Hacc _].
  destruct (Hacc Hcal) as [t' ->].
  assert (Hcm : ChannelMap (fst (buildEPGCache Local tv c)) !! chName
                = Some (prog_Channel prog))
    by (rewrite <- Hid; apply buildChannelMap_lookup).
  rewrite Hcm.
  assert (Hitem : itemOf Local prog
            = Some (time.FormatDate startTime,
                    {| item_Start := time.FormatHHMM startTime;
                       item_End := time.FormatHHMM stopTime;
                       item_Title := prog_Title prog |}))
    by (unfold itemOf; by rewrite Hs, He).
  assert (Hmem : {| item_Start := time.FormatHHMM startTime;
                    item_End := time.FormatHHMM stopTime;
                    item_Title := prog_Title prog |}
                 ∈ itemsFor Local (prog_Channel prog) (time.FormatDate startTime)
                     (tv_Programmes tv)).
  { unfold itemsFor. apply list_elem_of_omap. exists prog. split; [done|].
    by rewrite Hitem, bool_decide_eq_true_2. }
  pose proof (buildEPGCache_entry Local tv c (prog_Channel prog)
                (time.FormatDate startTime)) as Hentry.
  destruct (itemsFor _ _ _ _) as [|i l] eqn:E; [by apply elem_of_nil in Hmem|].
  unfold entry in Hentry.
  destruct (ProgramData (fst (buildEPGCache Local tv c)) !! prog_Channel prog)
    as [datePrograms|]; [|done].
  cbn in Hentry. rewrite Hentry. by eexists.
Qed.

Lemma programme_is_served_witness :
  ∃ programs,
    epgQueryHandler (fst (buildEPGCache (time.FixedZone 28800) sampleTV epgCache0))
      "CCTV1" "2024-01-01"
    = DataResponse {| resp_ChannelName := "CCTV1"; resp_Date := "2024-01-01";
                      resp_EPGData := programs |}
    ∧ {| item_Start := "12:00"; item_End := "13:00"; item_Title := "News" |} ∈ programs.
Proof.
  apply (programme_is_served (time.FixedZone 28800) sampleTV epgCache0
           {| prog_Start := "20240101120000 +0800"; prog_Stop := "20240101130000 +0800";
              prog_Channel := "c1"; prog_Title := "News" |} "CCTV1"
           {| time.unix := 1704081600; time.loc := time.FixedZone 28800 |}
           {| time.unix := 1704085200; time.loc := time.FixedZone 28800 |}).
  - apply list_elem_of_here.
  - vm_compute. reflexivity.
  - vm_compute. reflexivity.
  - vm_compute. split; discriminate.
  - vm_compute. reflexivity.
Defined.

(** ** Configuration and logging *)

Lemma setDefaultConfig_configured (config : Config) : configured (setDefaultConfig config).
Proof.
  destruct config as [[port cron tz] [url dir file] [level]].
  unfold setDefaultConfig, configured.
  cbn [cfg_Server cfg_Cache cfg_Log srv_ListenPort srv_CronSchedule srv_TimeZone
       cc_DownloadURL cc_DownloadDir cc_CacheFile log_Level].
  repeat split;
    destruct (Z.eqb_spec port 0); cbn; repeat (case_bool_decide; cbn); done.
Qed.

Lemma setDefaultConfig_fixed (config : Config) :
  configured config → setDefaultConfig config = config.
Proof.
  destruct config as [[port cron tz] [url dir file] [level]].
  unfold setDefaultConfig, configured. cbn.
  intros (? & ? & ? & ? & ? & ? & ?).
  destruct (Z.eqb_spec port 0); [done|]. cbn.
  repeat case_bool_decide; done.
Qed.

(** X10: [setDefaultConfig] leaves no setting at its zero value and changes
    only the settings that are: a port that is not 0 and a string that is
    not empty are kept as they are, so a configuration with every setting
    given is returned unchanged, and applying the defaults twice is
    applying them once.  A port of 0 cannot be chosen: it becomes 8090. *)
Theorem setDefaultConfig_fills_blanks (config : Config) :
  let config' := setDefaultConfig config in
  configured config'
  ∧ (srv_ListenPort (cfg_Server config) ≠ 0 →
     srv_ListenPort (cfg_Server config') = srv_ListenPort (cfg_Server config))
  ∧ (srv_CronSchedule (cfg_Server config) ≠ "" →
     srv_CronSchedule (cfg_Server config') = srv_CronSchedule (cfg_Server config))
  ∧ (srv_TimeZone (cfg_Server config) ≠ "" →
     srv_TimeZone (cfg_Server config') = srv_TimeZone (cfg_Server config))
  ∧ (cc_DownloadURL (cfg_Cache config) ≠ "" →
     cc_DownloadURL (cfg_Cache config') = cc_DownloadURL (cfg_Cache config))
  ∧ (cc_DownloadDir (cfg_Cache config) ≠ "" →
     cc_DownloadDir (cfg_Cache config') = cc_DownloadDir (cfg_Cache config))
  ∧ (cc_CacheFile (cfg_Cache config) ≠ "" →
     cc_CacheFile (cfg_Cache config') = cc_CacheFile (cfg_Cache config))
  ∧ (log_Level (cfg_Log config) ≠ "" →
     log_Level (cfg_Log config') = log_Level (cfg_Log config))
  ∧ (configured config → config' = config)
  ∧ setDefaultConfig config' = config'
  ∧ (srv_ListenPort (cfg_Server config) = 0 → srv_ListenPort (cfg_Server config') = 8090).
Proof.
  intros config'. subst config'.
  split; [apply setDefaultConfig_configured|].
  repeat (split; [
    destruct config as [[port cron tz] [url dir file] [level]];
    unfold setDefaultConfig; cbn; intros H;
    destruct (Z.eqb_spec port 0); cbn;
    repeat case_bool_decide; cbn; done|]).
  split; [apply setDefaultConfig_fixed|].
  split; [apply setDefaultConfig_fixed, setDefaultConfig_configured|].
  destruct config as [[port cron tz] [url dir file] [level]].
  unfold setDefaultConfig; cbn. intros ->. cbn. by repeat case_bool_decide.
Qed.

(** X11: [loadConfig] returns no error exactly when the file is read and
    decoded; the configuration is then what the decoder left with the
    defaults filled in, so that no setting is at its zero value and every
    setting the file gives (other than a port of 0 or an empty string) is
    in force.  When the file cannot be read the configuration is untouched;
    when it cannot be decoded the defaults are not filled in.  The error
    names the step that failed. *)
Theorem loadConfig_outcomes (readFile : string → result string)
    (yamlUnmarshal : string → Config → Config * option error)
    (filePath : string) (config : Config) :
  let r := loadConfig readFile yamlUnmarshal filePath config in
  (snd r = None ↔
     ∃ data, readFile filePath = Ok data ∧ snd (yamlUnmarshal data config) = None)
  ∧ (snd r = None → configured (fst r))
  ∧ (∀ data, readFile filePath = Ok data → snd (yamlUnmarshal data config) = None →
       fst r = setDefaultConfig (fst (yamlUnmarshal data config)))
  ∧ (∀ err, readFile filePath = Err err →
       r = (config, Some (Wrap "读取配置文件失败" err)))
  ∧ (∀ data err, readFile filePath = Ok data →
       snd (yamlUnmarshal data config) = Some err →
       r = (fst (yamlUnmarshal data config), Some (Wrap "解析YAML配置失败" err))).
Proof.
  intros r. subst r. unfold loadConfig.
  destruct (readFile filePath) as [data|err].
  - destruct (yamlUnmarshal data config) as [parsed [err|]] eqn:Hy; cbn [fst snd].
    + split; [split; [done|intros (? & [= <-] & H); by rewrite Hy in H]|].
      split; [done|]. split; [intros ? [= <-]; by rewrite Hy|].
      split; [done|]. intros ? ? [= <-]. rewrite Hy. by intros [= <-].
    + split; [split; [intros _; exists data; by rewrite Hy|done]|].
      split; [intros _; apply setDefaultConfig_configured|].
      split; [intros ? [= <-]; by rewrite Hy|]. split; [done|].
      intros ? ? [= <-]. by rewrite Hy.
  - cbn [fst snd]. split; [split; [done|by intros (? & ? & ?)]|].
    split; [done|]. split; [done|]. split; [by intros ? [= <-]|done].
Qed.

(** X12: the log levels are nested, and the level is compared as it is
    written: what [logDebug] prints [logInfo] prints, what [logInfo]
    prints [logWarn] prints, and [logError] always prints.  A level other
    than debug, info and warn (error, an unknown word, a word with a
    capital) silences all but [logError].  With no level configured the
    default is info: [logInfo] prints and [logDebug] does not. *)
Theorem log_levels_nested (config : Config) (now msg : string) :
  (is_Some (logDebug config now msg) → is_Some (logInfo config now msg))
  ∧ (is_Some (logInfo config now msg) → is_Some (logWarn config now msg))
  ∧ is_Some (logError config now msg)
  ∧ (is_Some (logDebug config now msg) ↔ log_Level (cfg_Log config) = "debug")
  ∧ (is_Some (logInfo config now msg)
     ↔ log_Level (cfg_Log config) = "debug" ∨ log_Level (cfg_Log config) = "info")
  ∧ (is_Some (logWarn config now msg)
     ↔ log_Level (cfg_Log config) = "debug" ∨ log_Level (cfg_Log config) = "info"
       ∨ log_Level (cfg_Log config) = "warn")
  ∧ (log_Level (cfg_Log config) = "" →
     is_Some (logInfo (setDefaultConfig config) now msg)
     ∧ logDebug (setDefaultConfig config) now msg = None).
Proof.
  unfold logDebug, logInfo, logWarn, logError,
    LogLevelDebug, LogLevelInfo, LogLevelWarn.
  destruct config as [server cache [level]]. cbn [cfg_Log log_Level].
  assert (Hs : ∀ (b : bool) (x : string), is_Some (if b then Some x else None) ↔ b = true).
  { intros [] x; split; [done|by eexists|by intros [? ?]|done]. }
  rewrite !Hs, !orb_true_iff, !bool_decide_eq_true.
  split; [by left|]. split; [by left|]. split; [by eexists|].
  split; [done|]. split; [done|]. split; [tauto|].
  intros ->. split; [by right|].
  by rewrite bool_decide_eq_false_2.
Qed.

(** ** Start and scheduled runs *)

Lemma downloadAndParseEPG_cache (Local : time.Location) (w : World) (st : State) :
  cache (fst (downloadAndParseEPG Local w st))
  = match fetched w with
    | Some tv => fst (buildEPGCache Local tv epgCache0)
    | None => cache st
    end.
Proof.
  unfold downloadAndParseEPG, fetched, saveCache.
  destruct (httpGet w) as [tmpFile|]; [|done].
  destruct (gunzip w tmpFile) as [xmlFilePath|]; [|done].
  destruct (decodeXML w xmlFilePath) as [tv|]; [|done].
  cbn. by destruct (writeFile w) as [[e remains]|].
Qed.

Lemma scheduledRuns_cache (Local : time.Location) (ws : list World) (st : State) :
  cache (scheduledRuns Local ws st)
  = match last (omap fetched ws) with
    | Some tv => fst (buildEPGCache Local tv epgCache0)
    | None => cache st
    end.
Proof.
  induction ws as [|w ws IH] using rev_ind; [done|].
  unfold scheduledRuns in *. rewrite foldl_app. cbn [foldl].
  rewrite downloadAndParseEPG_cache, omap_app. simpl.
  destruct (fetched w) as [tv|]; simpl.
  - by rewrite last_snoc.
  - by rewrite app_nil_r.
Qed.

(** X8: after the start and any number of scheduled runs, whatever failed in
    between, the index is the one built from the feed of the latest run
    that got a document (fetched, decompressed and decoded); a failure to
    write the cache file changes nothing to this.  When no run got a document the index is what the
    start left: the loaded cache file, or the index of the first download
    when the file could not be loaded. *)
Theorem index_follows_latest_feed (Local : time.Location) (w0 : World) (ws : list World)
    (st : State) :
  let st1 := startup Local w0 st in
  let stn := scheduledRuns Local ws st1 in
  (∀ tv, last (omap fetched ws) = Some tv →
     cache stn = fst (buildEPGCache Local tv epgCache0))
  ∧ (last (omap fetched ws) = None → cache stn = cache st1)
  ∧ (snd (loadCache st) = None → st1 = fst (loadCache st))
  ∧ (is_Some (snd (loadCache st)) →
     cache st1 = match fetched w0 with
                 | Some tv => fst (buildEPGCache Local tv epgCache0)
                 | None => cache (fst (loadCache st))
                 end).
Proof.
  intros st1 stn. subst st1 stn.
  split; [|split; [|split]].
  - intros tv Hlast. by rewrite scheduledRuns_cache, Hlast.
  - intros Hlast. by rewrite scheduledRuns_cache, Hlast.
  - unfold startup. destruct (loadCache st) as [st' [e|]]; [done|done].
  - unfold startup. destruct (loadCache st) as [st' [e|]]; cbn [fst snd].
    + intros _. apply downloadAndParseEPG_cache.
    + by intros [? ?].
Qed.

(** X9: a run that ends without error leaves a cache file from which a
    restarted server loads the very index the run built, without a
    download, and so gives every request the answer it had before the
    restart. *)
Theorem restart_keeps_answers (Local : time.Location) (w w' : World) (st : State) (tv : TV) :
  fetched w = Some tv →
  validTV tv →
  snd (downloadAndParseEPG Local w st) = None →
  let st' := fst (downloadAndParseEPG Local w st) in
  let fresh := {| cache := epgCache0; cacheFile := cacheFile st' |} in
  loadCache fresh = (st', None)
  ∧ startup Local w' fresh = st'
  ∧ ∀ chName dateStr,
      epgQueryHandler (cache (startup Local w' fresh)) chName dateStr
      = epgQueryHandler (cache st') chName dateStr.
Proof.
  intros Hf Hv. unfold fetched in Hf.
  unfold startup, downloadAndParseEPG, saveCache.
  destruct (httpGet w) as [tmpFile|]; [|done].
  destruct (gunzip w tmpFile) as [xmlFilePath|]; [|done].
  destruct (decodeXML w xmlFilePath) as [tv'|]; [|done].
  injection Hf as ->.
  pose proof (buildEPGCache_valid Local tv (cache st) Hv) as Hvalid.
  destruct (buildEPGCache Local tv (cache st)) as [c [e|]] eqn:Hb; [done|].
  cbn [fst] in Hvalid.
  destruct (writeFile w) as [[e remains]|]; [done|].
  intros _. cbn [fst cache cacheFile].
  assert (Hload : loadCache {| cache := epgCache0;
                               cacheFile := Some (Document (json.Marshal c)) |}
                  = ({| cache := c; cacheFile := Some (Document (json.Marshal c)) |}, None)).
  { unfold loadCache. cbn [cache cacheFile]. by rewrite (Unmarshal_Marshal c Hvalid). }
  rewrite Hload. cbv iota. split; [reflexivity|]. split; [reflexivity|].
  intros chName dateStr. reflexivity.
Qed.

Lemma restart_keeps_answers_witness :
  let st' := fst (downloadAndParseEPG (time.FixedZone 28800) feedWorld
                    {| cache := epgCache0; cacheFile := None |}) in
  let fresh := {| cache := epgCache0; cacheFile := cacheFile st' |} in
  loadCache fresh = (st', None)
  ∧ startup (time.FixedZone 28800) diskFull fresh = st'
  ∧ ∀ chName dateStr,
      epgQueryHandler (cache (startup (time.FixedZone 28800) diskFull fresh)) chName dateStr
      = epgQueryHandler (cache st') chName dateStr.
Proof.
  apply (restart_keeps_answers (time.FixedZone 28800) feedWorld diskFull
           {| cache := epgCache0; cacheFile := None |} sampleTV).
  - reflexivity.
  - exact sampleTV_valid.
  - vm_compute. reflexivity.
Defined.

(** ** The name of the extracted file *)

Section SuffixFacts.

Lemma substring_app_r (s1 s2 : string) :
  String.substring (String.length s1) (String.length s2) (String.append s1 s2) = s2.
Proof.
  induction s1 as [|c s1 IH]; [apply substring_all|].
  change (String.append (String c s1) s2) with (String c (String.append s1 s2)).
  cbn [String.length String.substring]. exact IH.
Qed.

Lemma substring_app_l (s1 s2 : string) :
  String.substring 0 (String.length s1) (String.append s1 s2) = s1.
Proof.
  induction s1 as [|c s1 IH]; [apply substring_none|].
  change (String.append (String c s1) s2) with (String c (String.append s1 s2)).
  cbn [String.length String.substring]. by rewrite IH.
Qed.

Lemma HasSuffix_app (s suffix : string) : HasSuffix (String.append s suffix) suffix = true.
Proof.
  unfold HasSuffix. rewrite append_length.
  replace (String.length s + String.length suffix - String.length suffix)%nat
    with (String.length s) by lia.
  rewrite substring_app_r, bool_decide_eq_true_2 by done.
  rewrite andb_true_r. apply Nat.leb_le. lia.
Qed.

Lemma TrimSuffix_app (s suffix : string) : TrimSuffix (String.append s suffix) suffix = s.
Proof.
  unfold TrimSuffix. rewrite HasSuffix_app, append_length.
  replace (String.length s + String.length suffix - String.length suffix)%nat
    with (String.length s) by lia.
  apply substring_app_l.
Qed.

Lemma mapBytes_app (f : ascii → ascii) (s1 s2 : string) :
  mapBytes f (String.append s1 s2) = String.append (mapBytes f s1) (mapBytes f s2).
Proof.
  induction s1 as [|c s1 IH]; [done|].
  change (String.append (String c s1) s2) with (String c (String.append s1 s2)).
  cbn [mapBytes]. rewrite IH. done.
Qed.

Lemma allBytes_app (p : ascii → bool) (s1 s2 : string) :
  allBytes p (String.append s1 s2) = allBytes p s1 && allBytes p s2.
Proof.
  induction s1 as [|c s1 IH]; [done|].
  change (String.append (String c s1) s2) with (String c (String.append s1 s2)).
  cbn [allBytes]. rewrite IH. by rewrite andb_assoc.
Qed.

Lemma mapBytes_id (s : string) :
  allBytes (fun c => negb (isUpper c)) s = true → mapBytes toLowerByte s = s.
Proof.
  induction s as [|c s IH]; [done|]. cbn [allBytes mapBytes].
  intros [Hc Hs]%andb_true_iff. rewrite (IH Hs). unfold toLowerByte.
  by rewrite (negb_true_iff _), Hc in *.
Qed.

Variable mapUnicodeToLower : string → string.

Lemma ToLower_ascii (s : string) :
  allBytes (fun c => (Ascii.nat_of_ascii c <? 128)%nat) s = true →
  ToLower mapUnicodeToLower s = mapBytes toLowerByte s.
Proof.
  intros Hs. unfold ToLower. rewrite Hs.
  destruct (allBytes (fun c => negb (isUpper c)) s) eqn:E; [|done].
  by rewrite mapBytes_id.
Qed.

End SuffixFacts.

Section BaseFacts.
Import filepath.

Lemma stripTrailing_not_sep (s : string) (c : ascii) :
  isSep c = false →
  stripTrailing (String.append s (String c "")) = String.append s (String c "").
Proof.
  intros Hc. induction s as [|a s IH].
  - change (stripTrailing (String.append "" (String c "")))
      with (if isSep c then EmptyString else String c EmptyString).
    by rewrite Hc.
  - change (String.append (String a s) (String c ""))
      with (String a (String.append s (String c ""))).
    cbn [stripTrailing]. rewrite IH.
    destruct s; done.
Qed.

Lemma contains_app (sep : ascii) (s1 s2 : string) :
  GoString.contains sep (String.append s1 s2)
  = GoString.contains sep s1 || GoString.contains sep s2.
Proof.
  induction s1 as [|c s1 IH]; [done|].
  change (String.append (String c s1) s2) with (String c (String.append s1 s2)).
  cbn [GoString.contains]. by rewrite IH, orb_assoc.
Qed.

Lemma lastElement_no_sep (s : string) :
  GoString.contains "/" s = false → lastElement s = s.
Proof.
  destruct s as [|c s]; [done|]. cbn [GoString.contains lastElement].
  intros [Hc Hs]%orb_false_iff. rewrite Hs. unfold isSep. by rewrite Hc.
Qed.

Lemma lastElement_app (dir name : string) :
  GoString.contains "/" name = false →
  lastElement (String.append dir (String "/" name)) = name.
Proof.
  intros Hn. induction dir as [|c dir IH].
  - change (String.append "" (String "/" name)) with (String "/"%char name).
    cbn [lastElement]. by rewrite Hn.
  - change (String.append (String c dir) (String "/" name))
      with (String c (String.append dir (String "/" name))).
    cbn [lastElement]. rewrite contains_app. cbn [GoString.contains].
    replace (Ascii.eqb "/" "/") with true by done.
    by rewrite orb_true_r.
Qed.

End BaseFacts.

Section NameFacts.
Import filepath.

Lemma stripTrailing_no_sep (s : string) :
  GoString.contains "/" s = false → stripTrailing s = s.
Proof.
  induction s as [|c s IH]; [done|]. cbn [GoString.contains stripTrailing].
  intros [Hc Hs]%orb_false_iff. rewrite (IH Hs). unfold isSep. rewrite Hc.
  by destruct s.
Qed.

Lemma stripTrailing_app (s1 s2 : string) :
  s2 ≠ "" → stripTrailing s2 = s2 →
  stripTrailing (String.append s1 s2) = String.append s1 s2.
Proof.
  intros Hne Hs2. induction s1 as [|c s1 IH]; [done|].
  change (String.append (String c s1) s2) with (String c (String.append s1 s2)).
  cbn [stripTrailing]. rewrite IH.
  destruct (String.append s1 s2) eqn:E; [|done].
  destruct s1; [|done]. by destruct Hne.
Qed.

Lemma Base_file (dir name : string) :
  name ≠ "" → GoString.contains "/" name = false →
  Base (String.append dir (String "/" name)) = name.
Proof.
  intros Hne Hn. unfold Base.
  rewrite bool_decide_eq_false_2 by (by destruct dir).
  assert (Hs : stripTrailing (String "/" name) = String "/"%char name).
  { cbn [stripTrailing]. rewrite (stripTrailing_no_sep name Hn). by destruct name. }
  rewrite stripTrailing_app, lastElement_app by done.
  by rewrite bool_decide_eq_false_2.
Qed.

Lemma substring_split (s : string) (n : nat) :
  (n ≤ String.length s)%nat →
  s = String.append (String.substring 0 n s) (String.substring n (String.length s - n) s).
Proof.
  revert n. induction s as [|c s IH]; intros n Hn.
  - by destruct n.
  - destruct n as [|n].
    + cbn [String.substring String.length Nat.sub]. by rewrite substring_all.
    + cbn [String.length] in *. cbn [String.substring Nat.sub].
      change (String.append (String c ?a) ?b) with (String c (String.append a b)).
      rewrite <- IH by lia. done.
Qed.

Lemma HasSuffix_inv (s suffix : string) :
  HasSuffix s suffix = true → ∃ pre, s = String.append pre suffix.
Proof.
  unfold HasSuffix. intros [Hl%Nat.leb_le Hs%bool_decide_eq_true_1]%andb_true_iff.
  exists (String.substring 0 (String.length s - String.length suffix) s).
  rewrite (substring_split s (String.length s - String.length suffix)) at 1 by lia.
  replace (String.length s - (String.length s - String.length suffix))%nat
    with (String.length suffix) by lia.
  by rewrite Hs.
Qed.

Lemma tempByte_facts (c : ascii) :
  tempByte c = true →
  (Ascii.nat_of_ascii c <? 128)%nat = true ∧ isUpper c = false ∧ Ascii.eqb c "/" = false
  ∧ c ≠ "."%char.
Proof.
  unfold tempByte. intros [Hd|Hc%bool_decide_eq_true_1]%orb_true_iff.
  - split; [|split; [|split]].
    + unfold GoString.isDigit in Hd.
      apply andb_true_iff in Hd as [_ H2%Nat.leb_le]. apply Nat.ltb_lt. lia.
    + unfold GoString.isDigit in Hd. unfold isUpper.
      apply andb_true_iff in Hd as [_ H2%Nat.leb_le].
      apply andb_false_iff. left. apply Nat.leb_gt. lia.
    + apply Ascii.eqb_neq. intros ->. by vm_compute in Hd.
    + intros ->. by vm_compute in Hd.
  - repeat (apply elem_of_cons in Hc as [->|Hc]; [by vm_compute|]).
    by apply elem_of_nil in Hc.
Qed.

Lemma allBytes_impl (p q : ascii → bool) (s : string) :
  (∀ c, p c = true → q c = true) → allBytes p s = true → allBytes q s = true.
Proof.
  intros Hpq. induction s as [|c s IH]; [done|]. cbn [allBytes].
  intros [Hc Hs]%andb_true_iff. by rewrite (Hpq c Hc), IH.
Qed.

Lemma allBytes_contains (s : string) :
  allBytes (fun c => negb (Ascii.eqb c "/")) s = true → GoString.contains "/" s = false.
Proof.
  induction s as [|c s IH]; [done|]. cbn [allBytes GoString.contains].
  intros [Hc%negb_true_iff Hs]%andb_true_iff. by rewrite Hc, IH.
Qed.

Variable mapUnicodeToLower : string → string.

Lemma xmlFileName_file (dir stem : string) :
  GoString.contains "/" stem = false →
  allBytes (fun c => (Ascii.nat_of_ascii c <? 128)%nat) stem = true →
  xmlFileName mapUnicodeToLower
    (String.append dir (String "/" (String.append stem ".gz")))
  = if HasSuffix (mapBytes toLowerByte stem) ".xml" then stem
    else String.append stem ".xml".
Proof.
  intros Hsep Hascii. unfold xmlFileName.
  rewrite Base_file.
  - rewrite TrimSuffix_app, ToLower_ascii by done. by destruct (HasSuffix _ _).
  - by destruct stem.
  - rewrite contains_app, Hsep. done.
Qed.

End NameFacts.

(** X13: the decompressed document of an archive [dir/stem.gz] is named
    [stem.xml], or [stem] when the stem ends in [.xml] already, in any case
    of the letters (a stem of ASCII bytes).  For the temporary archive of
    [downloadFile], whose name is made from the pattern [epg_*.gz] with
    decimal digits for the star, the document is named with the same digits
    and the extension [.xml], so it differs from the archive's name. *)
Theorem xmlFileName_of_archive (mapUnicodeToLower : string → string)
    (dir stem : string) :
  GoString.contains "/" stem = false →
  allBytes (fun c => (Ascii.nat_of_ascii c <? 128)%nat) stem = true →
  xmlFileName mapUnicodeToLower
    (String.append dir (String "/" (String.append stem ".gz")))
  = (if HasSuffix (mapBytes toLowerByte stem) ".xml" then stem
     else String.append stem ".xml")
  ∧ HasSuffix (mapBytes toLowerByte
                 (xmlFileName mapUnicodeToLower
                    (String.append dir (String "/" (String.append stem ".gz")))))
      ".xml" = true
  ∧ (allBytes tempByte stem = true →
     xmlFileName mapUnicodeToLower
       (String.append dir (String "/" (String.append stem ".gz")))
     = String.append stem ".xml").
Proof.
  intros Hsep Hascii. rewrite xmlFileName_file by done.
  split; [done|split].
  - destruct (HasSuffix (mapBytes toLowerByte stem) ".xml") eqn:E; [done|].
    rewrite mapBytes_app. apply HasSuffix_app.
  - intros Htemp.
    destruct (HasSuffix (mapBytes toLowerByte stem) ".xml") eqn:E; [exfalso|done].
    rewrite mapBytes_id in E
      by (revert Htemp; apply allBytes_impl; intros c Hc;
          destruct (tempByte_facts c Hc) as (_ & -> & _); done).
    apply HasSuffix_inv in E as [pre ->].
    rewrite allBytes_app in Htemp. apply andb_true_iff in Htemp as [_ Hx].
    by vm_compute in Hx.
Qed.

Lemma xmlFileName_of_archive_witness :
  xmlFileName (fun s => s) "./epg_download/epg_123456789.gz" = "epg_123456789.xml"%string
  ∧ HasSuffix (mapBytes toLowerByte
                 (xmlFileName (fun s => s) "./epg_download/epg_123456789.gz")) ".xml" = true
  ∧ (allBytes tempByte "epg_123456789" = true →
     xmlFileName (fun s => s) "./epg_download/epg_123456789.gz" = "epg_123456789.xml"%string).
Proof.
  apply (xmlFileName_of_archive (fun s => s) "./epg_download" "epg_123456789");
    reflexivity.
Defined.

(** ** Progress under the read-write lock *)

Section Progress.
Import Concurrent.
Variable Local : time.Location.

Lemma tstep_holder (writeHeld anyHeld : bool) (s : EPGCache) (t : thread) :
  holds t = true → is_Some (tstep Local writeHeld anyHeld s t).
Proof.
  destruct t as [chName dateStr [| | |chID|chID dps|r|r]|tv [| | |[|ch rest]|[|prog rest]|]];
    try done; intros _; cbn [tstep]; try (by eexists).
  - by destruct (ChannelMap s !! chName).
  - by destruct (ProgramData s !! chID).
  - by destruct (dps !! dateStr).
Qed.

Lemma tstep_free (s : EPGCache) (t : thread) :
  holds t = false → finished t = false → is_Some (tstep Local false false s t).
Proof.
  destruct t as [chName dateStr [| | |chID|chID dps|r|r]|tv [| | |rest|rest|]];
    try done; intros _ _; cbn [tstep]; try (by eexists).
  destruct (_ || _); [by eexists|]. by destruct (time.ParseDate dateStr).
Qed.

Lemma step_progress (cfg : config) (i : nat) (t : thread) :
  threads cfg !! i = Some t → finished t = false →
  ∃ j cfg', step Local j cfg = Some cfg'.
Proof.
  intros Hi Hfin. unfold step.
  destruct (existsb holds (threads cfg)) eqn:Hany.
  - apply existsb_exists in Hany as (h & Hin & Hh).
    apply list_elem_of_In, list_elem_of_lookup in Hin as [j Hj].
    exists j. rewrite Hj.
    destruct (tstep_holder (existsb holdsWrite (threads cfg)) true (shared cfg) h Hh)
      as [[s' t'] ->].
    by eexists.
  - assert (Hw : existsb holdsWrite (threads cfg) = false).
    { apply existsb_false_lookup. intros j x Hx.
      pose proof (proj1 (existsb_false_lookup holds (threads cfg)) Hany j x Hx) as Hh.
      unfold holds in Hh. by apply orb_false_iff in Hh as [_ ?]. }
    rewrite Hw. exists i. rewrite Hi.
    pose proof (proj1 (existsb_false_lookup holds (threads cfg)) Hany i t Hi) as Hh.
    destruct (tstep_free (shared cfg) t Hh Hfin) as [[s' t'] ->].
    by eexists.
Qed.

Lemma tstep_stepsLeft (writeHeld anyHeld : bool) (s s' : EPGCache) (t t' : thread) :
  tstep Local writeHeld anyHeld s t = Some (s', t') → (stepsLeft t' < stepsLeft t)%nat.
Proof.
  unfold tstep;
  destruct t as [chName dateStr [| | |chID|chID dps|r|r]|tv [| | |[|ch rest]|[|prog rest]|]];
  intros H;
  repeat match type of H with
    | context [if ?b then _ else _] => destruct b eqn:?
    | context [match ?x with _ => _ end] => destruct x eqn:?
    end;
  try discriminate H; injection H as <- <-; cbn [stepsLeft List.length]; lia.
Qed.

Lemma workLeft_insert (ts : list thread) (i : nat) (t t' : thread) :
  ts !! i = Some t → (stepsLeft t' < stepsLeft t)%nat →
  (workLeft (<[i := t']> ts) < workLeft ts)%nat.
Proof.
  revert i. induction ts as [|x ts IH]; intros i Hi Hlt; [done|].
  destruct i as [|i].
  - injection Hi as ->.
    change (stepsLeft t' + workLeft ts < stepsLeft t + workLeft ts)%nat. lia.
  - change (stepsLeft x + workLeft (<[i := t']> ts) < stepsLeft x + workLeft ts)%nat.
    specialize (IH i Hi Hlt). lia.
Qed.

Lemma step_workLeft (cfg cfg' : config) (i : nat) :
  step Local i cfg = Some cfg' → (workLeft (threads cfg') < workLeft (threads cfg))%nat.
Proof.
  unfold step. destruct (threads cfg !! i) as [t|] eqn:Hi; [|done].
  destruct (tstep _ _ _ _ _) as [[s' t']|] eqn:Hs; [|done].
  intros [= <-]. cbn [threads].
  eapply workLeft_insert; [done|]. by eapply tstep_stepsLeft.
Qed.

Lemma run_workLeft (schedule : list nat) (cfg cfg' : config) :
  run Local schedule cfg = Some cfg' →
  (List.length schedule + workLeft (threads cfg') ≤ workLeft (threads cfg))%nat.
Proof.
  revert cfg. induction schedule as [|i rest IH]; intros cfg; cbn [run List.length].
  - intros [= <-]. lia.
  - destruct (step Local i cfg) as [cfg1|] eqn:Hs; [|done].
    intros Hr. apply IH in Hr. apply step_workLeft in Hs. lia.
Qed.

Lemma unfinished_dec (ts : list thread) :
  forallb finished ts = true ∨ ∃ i t, ts !! i = Some t ∧ finished t = false.
Proof.
  destruct (forallb finished ts) eqn:E; [by left|right].
  assert (Hex : existsb (fun t => negb (finished t)) ts = true).
  { clear -E. induction ts as [|t ts IH]; [done|]. cbn in *.
    destruct (finished t); [by apply IH|done]. }
  apply existsb_exists in Hex as (t & Hin & Ht%negb_true_iff).
  apply list_elem_of_In, list_elem_of_lookup in Hin as [i Hi]. by exists i, t.
Qed.

Lemma run_to_completion (n : nat) (cfg : config) :
  (workLeft (threads cfg) ≤ n)%nat →
  ∃ schedule cfg', run Local schedule cfg = Some cfg'
                   ∧ forallb finished (threads cfg') = true.
Proof.
  revert cfg. induction n as [|n IH]; intros cfg Hn.
  - destruct (unfinished_dec (threads cfg)) as [Hall|(i & t & Hi & Hfin)].
    + by exists [], cfg.
    + destruct (step_progress cfg i t Hi Hfin) as (j & cfg1 & Hs).
      apply step_workLeft in Hs. lia.
  - destruct (unfinished_dec (threads cfg)) as [Hall|(i & t & Hi & Hfin)].
    + by exists [], cfg.
    + destruct (step_progress cfg i t Hi Hfin) as (j & cfg1 & Hs).
      pose proof (step_workLeft _ _ _ Hs) as Hlt.
      destruct (IH cfg1 ltac:(lia)) as (schedule & cfg' & Hr & Hall).
      exists (j :: schedule), cfg'. cbn [run]. by rewrite Hs.
Qed.

End Progress.

(** X14: handlers and builds cannot block one another for ever.  In every
    configuration in which some goroutine has not returned, some goroutine
    can take a step: the holder of the lock if there is one, since no
    goroutine waits for anything while it holds the lock, and any goroutine
    otherwise.  Every step uses up work, so an interleaving is never longer
    than the work there was at its start, and from every configuration some
    interleaving brings every goroutine to its return. *)
Theorem no_deadlock (Local : time.Location) (cfg : Concurrent.config) :
  ((∃ i t, Concurrent.threads cfg !! i = Some t ∧ finished t = false) →
   ∃ j cfg', Concurrent.step Local j cfg = Some cfg')
  ∧ (∀ schedule cfg', Concurrent.run Local schedule cfg = Some cfg' →
       (List.length schedule + workLeft (Concurrent.threads cfg')
        ≤ workLeft (Concurrent.threads cfg))%nat)
  ∧ (∃ schedule cfg', Concurrent.run Local schedule cfg = Some cfg'
                      ∧ forallb finished (Concurrent.threads cfg') = true).
Proof.
  split; [|split].
  - intros (i & t & Hi & Hfin). by apply (step_progress Local cfg i t).
  - intros schedule cfg'. apply run_workLeft.
  - by apply (run_to_completion Local (workLeft (Concurrent.threads cfg))).
Qed.

(** ** The files of a run *)

(** X15: [downloadFile] returns a path exactly when the request succeeds
    with status 200, the temporary file is created and the body is copied
    into it; the path is then that of the new file, in the download
    directory, named [epg_], the digits, [.gz].  Any other status, 2xx
    included, is an error that names the status.  When the copy fails the
    file has been created: it stays where it is and its path is not
    returned.  In every other case of failure no file is created. *)
Theorem downloadFile_outcomes (config : Config) (out : Outside) (url : string)
    (disk : gset string) :
  let r := downloadFile config out url disk in
  (∀ p, fst r = Ok p ↔
     out_Get out = Ok 200 ∧ out_CreateTemp out = None ∧ out_CopyBody out = None
     ∧ p = archiveOf config out)
  ∧ (∀ p, fst r = Ok p → snd r = {[ p ]} ∪ disk)
  ∧ (∀ status, out_Get out = Ok status → status ≠ 200 →
       r = (Err (New (String.append "HTTP请求失败，状态码: " (itoa status))), disk))
  ∧ (∀ err, out_Get out = Ok 200 → out_CreateTemp out = None →
       out_CopyBody out = Some err →
       r = (Err err, {[ archiveOf config out ]} ∪ disk))
  ∧ (out_Get out ≠ Ok 200 ∨ is_Some (out_CreateTemp out) → snd r = disk).
Proof.
  intros r. subst r. unfold downloadFile, archiveOf.
  destruct (out_Get out) as [status|err]; cbn [fst snd].
  2: { split; [intros p; split; [done|by intros (? & _)]|].
       split; [done|]. split; [done|]. split; [done|done]. }
  destruct (Z.eqb_spec status 200) as [->|Hne]; cbn [negb fst snd].
  2: { split; [intros p; split; [done|intros ([= ?] & _); done]|].
       split; [done|]. split; [by intros ? [= <-]|]. split; [by intros ? [= ?]|done]. }
  destruct (out_CreateTemp out) as [err|]; cbn [fst snd].
  { split; [intros p; split; [done|by intros (_ & ? & _)]|].
    split; [done|]. split; [by intros ? [= <-]|]. split; [done|done]. }
  destruct (out_CopyBody out) as [err|]; cbn [fst snd].
  - split; [intros p; split; [done|by intros (_ & _ & ? & _)]|].
    split; [done|]. split; [by intros ? [= <-]|].
    split; [by intros ? _ _ [= <-]|]. intros [?|[? ?]]; done.
  - split; [intros p; split; [by intros [= <-]|by intros (_ & _ & _ & ->)]|].
    split; [by intros ? [= <-]|]. split; [by intros ? [= <-]|].
    split; [done|]. intros [?|[? ?]]; done.
Qed.

Ltac sets :=
  rewrite ?elem_of_difference, ?elem_of_union, ?elem_of_singleton; intuition congruence.

Section DiskFacts.
Variable config : Config.
Variable out : Outside.
Variable Join : string → string → string.
Variable mapUnicodeToLower : string → string.

Lemma downloadAndParseEPG_download_error (Local : time.Location) (disk : gset string)
    (st : State) (err : error) :
  fst (downloadFile config out (cc_DownloadURL (cfg_Cache config)) disk) = Err err →
  downloadAndParseEPG Local (worldOf config out Join mapUnicodeToLower disk) st
  = (st, Some (Wrap "下载失败" err)).
Proof.
  intros H. unfold downloadAndParseEPG, worldOf. cbn [httpGet]. by rewrite H.
Qed.

End DiskFacts.

(** X16: the files a run of [downloadAndParseEPG] leaves behind.  Files
    other than the archive and the document of the run are as before.  The
    archive is gone at the end of every run in which [downloadFile]
    returned its path (and [os.Remove] worked); when the copy of the
    response body failed, the run ends with the download error and the
    archive stays.  The document, once created, is never removed, whether
    the rest of the run succeeds or fails (its path being another one than
    the archive's). *)
Theorem run_leaves_files (Local : time.Location) (config : Config) (out : Outside)
    (Join : string → string → string) (mapUnicodeToLower : string → string)
    (disk : gset string) (st : State) :
  let archive := archiveOf config out in
  let document := documentOf config out Join mapUnicodeToLower in
  let disk' := diskAfterRun config out Join mapUnicodeToLower disk in
  (∀ p, p ≠ archive → p ≠ document → (p ∈ disk' ↔ p ∈ disk))
  ∧ (fst (downloadFile config out (cc_DownloadURL (cfg_Cache config)) disk) = Ok archive →
     out_Remove out = None → archive ∉ disk')
  ∧ (∀ err, out_Get out = Ok 200 → out_CreateTemp out = None →
       out_CopyBody out = Some err →
       archive ∈ disk'
       ∧ downloadAndParseEPG Local (worldOf config out Join mapUnicodeToLower disk) st
         = (st, Some (Wrap "下载失败" err)))
  ∧ (fst (downloadFile config out (cc_DownloadURL (cfg_Cache config)) disk) = Ok archive →
     out_OpenGz out = None → out_GzipReader out = None → out_CreateXml out = None →
     document ≠ archive → document ∈ disk').
Proof.
  intros archive document disk'. subst archive document disk'.
  unfold diskAfterRun, downloadFile, extractTarGz, documentOf, archiveOf.
  set (archive := tempPath out (cc_DownloadDir (cfg_Cache config))).
  set (document := Join (cc_DownloadDir (cfg_Cache config))
                     (xmlFileName mapUnicodeToLower archive)).
  split; [|split; [|split]].
  - intros p Hp1 Hp2.
    destruct (out_Get out) as [status|]; [|done].
    destruct (negb (status =? 200)); [done|].
    destruct (out_CreateTemp out); [done|].
    destruct (out_CopyBody out); [sets|].
    destruct (out_OpenGz out), (out_GzipReader out), (out_CreateXml out),
      (out_CopyXml out), (out_Remove out); sets.
  - destruct (out_Get out) as [status|]; [|done].
    destruct (negb (status =? 200)); [done|].
    destruct (out_CreateTemp out); [done|].
    destruct (out_CopyBody out); [done|]. intros _ ->.
    destruct (out_OpenGz out), (out_GzipReader out), (out_CreateXml out),
      (out_CopyXml out); sets.
  - intros err Hg Hc Hb. split.
    + rewrite Hg, Hc, Hb. cbn [Z.eqb Pos.eqb negb]. sets.
    + apply downloadAndParseEPG_download_error.
      unfold downloadFile. by rewrite Hg, Hc, Hb.
  - destruct (out_Get out) as [status|]; [|done].
    destruct (negb (status =? 200)); [done|].
    destruct (out_CreateTemp out); [done|].
    destruct (out_CopyBody out); [done|]. intros _ -> -> -> Hne.
    destruct (out_CopyXml out), (out_Remove out); sets.
Qed.

(** ** The calendar date and the time of day of an instant *)

(** [daysSinceEpoch] inverts [yearDay]: the year and the day of the year
    that [yearDay] gives for a day number add up to that number. *)
Lemma daysSinceEpoch_yearDay (days : Z) :
  time.daysSinceEpoch (fst (time.yearDay days)) + snd (time.yearDay days) = days.
Proof.
  unfold time.yearDay, time.daysSinceEpoch. cbn [fst snd].
  set (d0 := days + 719162).
  set (a := d0 / 146097).
  set (d1 := d0 mod 146097).
  set (b := Z.min 3 (d1 / 36524)).
  set (d2 := d1 - 36524 * b).
  set (c := d2 / 1461).
  set (d3 := d2 mod 1461).
  set (e := Z.min 3 (d3 / 365)).
  assert (H0 : d0 = 146097 * a + d1) by (subst a d1; apply Z.div_mod; lia).
  assert (H1 : 0 ≤ d1 < 146097) by (apply Z.mod_pos_bound; lia).
  assert (Hb : 0 ≤ b ≤ 3) by (subst b; Z.div_mod_to_equations; lia).
  assert (H2 : 0 ≤ d2 ≤ 36524) by (subst d2 b; Z.div_mod_to_equations; lia).
  assert (H2' : d2 = 1461 * c + d3) by (subst c d3; apply Z.div_mod; lia).
  assert (H3 : 0 ≤ d3 < 1461) by (apply Z.mod_pos_bound; lia).
  assert (Hc : 0 ≤ c ≤ 24) by (subst c; Z.div_mod_to_equations; lia).
  assert (He : 0 ≤ e ≤ 3) by (subst e; Z.div_mod_to_equations; lia).
  replace (400 * a + 100 * b + 4 * c + e + 1 - 1) with (400 * a + 100 * b + 4 * c + e) by lia.
  assert (Q4 : (400 * a + 100 * b + 4 * c + e) / 4 = 100 * a + 25 * b + c)
    by (symmetry; apply Z.div_unique with (r := e); lia).
  assert (Q100 : (400 * a + 100 * b + 4 * c + e) / 100 = 4 * a + b)
    by (symmetry; apply Z.div_unique with (r := 4 * c + e); lia).
  assert (Q400 : (400 * a + 100 * b + 4 * c + e) / 400 = a)
    by (symmetry; apply Z.div_unique with (r := 100 * b + 4 * c + e); lia).
  rewrite Q4, Q100, Q400. subst d2 d0. lia.
Qed.

(** Month and day as [dayOfYear] must count them for the day [yday]. *)
Lemma dayOfYear_monthDay (leap : bool) (yday : Z) :
  0 ≤ yday ≤ (if leap then 365 else 364) →
  dayOfYear leap (fst (time.monthDay leap yday)) (snd (time.monthDay leap yday)) = yday.
Proof.
  intros H.
  assert (Hall : forallb (fun yd => dayOfYear true (fst (time.monthDay true yd))
                                      (snd (time.monthDay true yd)) =? yd) (seqZ 0 366)
                 && forallb (fun yd => dayOfYear false (fst (time.monthDay false yd))
                                         (snd (time.monthDay false yd)) =? yd) (seqZ 0 365)
                 = true)
    by (by vm_compute).
  apply andb_true_iff in Hall as [Ht Hf]. rewrite forallb_forall in Ht, Hf.
  destruct leap; apply Z.eqb_eq; [apply Ht|apply Hf];
    apply list_elem_of_In, elem_of_seqZ; lia.
Qed.

(** The fields of an instant name the day of its wall clock. *)
Lemma fields_isDateOfDay (t : time.Time) :
  isDateOfDay (time.cyear (time.fields t)) (time.cmonth (time.fields t))
    (time.cday (time.fields t)) (wallClock t / 86400).
Proof.
  destruct (fields_date_range t) as [Hm Hd].
  split; [done|split; [done|]].
  unfold time.fields, wallClock.
  set (wall := time.unix t + _).
  pose proof (yearDay_range (wall / 86400)) as Hyd.
  pose proof (daysSinceEpoch_yearDay (wall / 86400)) as Hinv.
  destruct (time.yearDay (wall / 86400)) as [year yday]. cbn [fst snd] in Hinv.
  destruct Hyd as [Hyd Hleap].
  assert (Hok : 0 ≤ yday ≤ (if time.isLeap year then 365 else 364)).
  { destruct (time.isLeap year); [lia|]. specialize (Hleap eq_refl). lia. }
  pose proof (dayOfYear_monthDay (time.isLeap year) yday Hok) as Hmd.
  destruct (time.monthDay (time.isLeap year) yday) as [month day].
  cbn [fst snd time.cyear time.cmonth time.cday] in *. lia.
Qed.

Lemma fields_time (t : time.Time) :
  time.chour (time.fields t) = wallClock t mod 86400 / 3600
  ∧ time.cmin (time.fields t) = wallClock t mod 3600 / 60.
Proof.
  unfold time.fields, wallClock.
  set (wall := time.unix t + _).
  destruct (time.yearDay _) as [year yday].
  destruct (time.monthDay _ _) as [month day]. cbn [time.chour time.cmin].
  split; [done|]. f_equal. clear. Z.div_mod_to_equations. lia.
Qed.

Lemma appendInt_twoDigits (x : Z) : 0 ≤ x < 100 → time.appendInt x 2 = twoDigits x.
Proof.
  intros Hx. unfold time.appendInt, twoDigits.
  rewrite Z.abs_eq by lia.
  replace (x <? 0) with false by (symmetry; apply Z.ltb_ge; lia).
  replace (x <? 100) with true by (symmetry; apply Z.ltb_lt; lia).
  done.
Qed.

Lemma appendInt_fourDigits (x : Z) : 0 ≤ x ≤ 9999 → time.appendInt x 4 = fourDigits x.
Proof.
  intros Hx.
  assert (Hall : forallb (fun h => forallb (fun l =>
                    bool_decide (time.appendInt (100 * h + l) 4 = fourDigits (100 * h + l)))
                    (seqZ 0 100)) (seqZ 0 100) = true) by (by vm_compute).
  pose proof (Z.mod_pos_bound x 100 ltac:(lia)).
  assert (0 ≤ x / 100 < 100)
    by (split; [apply Z.div_pos; lia|apply Z.div_lt_upper_bound; lia]).
  rewrite forallb_forall in Hall.
  assert (Hh : In (x / 100) (seqZ 0 100)) by (apply list_elem_of_In, elem_of_seqZ; lia).
  apply Hall in Hh. rewrite forallb_forall in Hh.
  assert (Hl : In (x mod 100) (seqZ 0 100)) by (apply list_elem_of_In, elem_of_seqZ; lia).
  apply Hh, bool_decide_eq_true_1 in Hl. by rewrite <- Z.div_mod in Hl by lia.
Qed.

(** The date reads YYYY-MM-DD exactly when the year has four digits. *)
Lemma FormatDate_layout_iff (t : time.Time) :
  matchesLayout (time.FormatDate t) = true ↔ 0 ≤ time.cyear (time.fields t) ≤ 9999.
Proof.
  split; [|apply FormatDate_shape].
  intros Hl.
  destruct (fields_date_range t) as [Hm Hd].
  pose proof (daysIn_le_31 _ (time.cyear (time.fields t)) Hm) as H31.
  { destruct (Z.lt_ge_cases (time.cyear (time.fields t)) 0) as [Hneg|Hpos].
    { exfalso. unfold time.FormatDate in Hl.
      destruct (appendInt_negative _ 4%nat Hneg) as [body Hb]. rewrite Hb in Hl.
      destruct (matchesLayout_inv _ Hl) as (y1&?&?&?&?&?&?&?&Heq&Hy1&_).
      injection Heq as <-. by vm_compute in Hy1. }
    split; [done|].
    destruct (Z.le_gt_cases (time.cyear (time.fields t)) 9999) as [|Hbig]; [done|exfalso].
    apply matchesLayout_length in Hl. unfold time.FormatDate in Hl.
    pose proof (appendInt_long (time.cyear (time.fields t)) ltac:(lia)).
    rewrite append_length in Hl. cbn [String.length] in Hl.
    rewrite append_length in Hl. cbn [String.length] in Hl.
    pose proof (appendInt_two_digits (time.cmonth (time.fields t)) ltac:(lia)) as H2.
    pose proof (appendInt_two_digits (time.cday (time.fields t)) ltac:(lia)) as H3.
    destruct (time.appendInt (time.cmonth (time.fields t)) 2) as [|? [|? [|]]]; try done.
    destruct (time.appendInt (time.cday (time.fields t)) 2) as [|? [|? [|]]]; try done.
    cbn [String.length] in Hl. lia. }
Qed.

Lemma FormatDate_dateText (t : time.Time) :
  0 ≤ time.cyear (time.fields t) ≤ 9999 →
  time.FormatDate t
  = dateText (time.cyear (time.fields t)) (time.cmonth (time.fields t))
      (time.cday (time.fields t)).
Proof.
  intros Hy. destruct (fields_date_range t) as [Hm Hd].
  pose proof (daysIn_le_31 _ (time.cyear (time.fields t)) Hm) as H31.
  unfold time.FormatDate, dateText.
  by rewrite appendInt_fourDigits, !appendInt_twoDigits by lia.
Qed.

Lemma FormatHHMM_timeText (t : time.Time) :
  time.FormatHHMM t = timeText (wallClock t mod 86400 / 3600) (wallClock t mod 3600 / 60).
Proof.
  destruct (fields_time_range t) as [Hh Hmi]. destruct (fields_time t) as [Eh Em].
  unfold time.FormatHHMM, timeText.
  rewrite !appendInt_twoDigits by lia. by rewrite Eh, Em.
Qed.

Lemma parseEPGTime_loc (Local : time.Location) (s : string) (t : time.Time) :
  parseEPGTime Local s = Ok t → time.loc t = Local.
Proof.
  rewrite parseEPGTime_unfold. destruct (_ =? 14); [|done].
  by intros [= <-].
Qed.

(** ** The buckets of the index *)

(** C5, counterexample: the feed whose programme starts at
    [99991301000000] is indexed, in UTC, under the date [10000-01-01],
    which does not read YYYY-MM-DD. *)
Lemma bucket_date_beyond_9999 : ¬ bucketDatesMatchLayout.
Proof.
  intros H.
  specialize (H (time.FixedZone 0) farFeed epgCache0 "c1" "10000-01-01"
                [ {| item_Start := "00:00"; item_End := "01:00"; item_Title := "Far" |} ]).
  assert (He : entry (ProgramData (fst (buildEPGCache (time.FixedZone 0) farFeed epgCache0)))
                 "c1" "10000-01-01"
               = Some [ {| item_Start := "00:00"; item_End := "01:00";
                           item_Title := "Far" |} ])
    by (vm_compute; reflexivity).
  specialize (H He). vm_compute in H. discriminate H.
Qed.

(** C5, amended: in the index built from a document, the bucket at
    [[ch][date]] holds, in feed order, one item for each programme of
    channel [ch] whose two timestamps parse and whose start instant is on
    [date]; there is no bucket when there is no such programme.  One step of
    the loop appends the item at the end of its bucket, creating the two
    levels when they are missing.  For every item of a bucket, [date] is the
    calendar date of the day on which the start instant falls on the clock
    of [time.Local], written by the layout 2006-01-02: YYYY-MM-DD, digit by
    digit, when the year of that date is between 0 and 9999, and a text that
    does not read YYYY-MM-DD otherwise; start and end are the hour and the
    minute of the start and stop instants on that clock, as zero-padded
    HH:MM. *)
Theorem buildEPGCache_buckets (Local : time.Location) (tv : TV) (c : EPGCache)
    (ch date : string) :
  let pd := ProgramData (fst (buildEPGCache Local tv c)) in
  entry pd ch date
    = match itemsFor Local ch date (tv_Programmes tv) with
      | [] => None
      | l => Some l
      end
  ∧ (∀ pd0 prog startTime stopTime,
       parseEPGTime Local (prog_Start prog) = Ok startTime →
       parseEPGTime Local (prog_Stop prog) = Ok stopTime →
       entry (addProgramme Local pd0 prog) (prog_Channel prog) (time.FormatDate startTime)
       = Some (default [] (entry pd0 (prog_Channel prog) (time.FormatDate startTime))
               ++ [ {| item_Start := time.FormatHHMM startTime;
                       item_End := time.FormatHHMM stopTime;
                       item_Title := prog_Title prog |} ]))
  ∧ (∀ l it, entry pd ch date = Some l → it ∈ l →
       isHHMM (item_Start it) = true ∧ isHHMM (item_End it) = true
       ∧ ∃ prog startTime stopTime y m d,
           prog ∈ tv_Programmes tv ∧ prog_Channel prog = ch
           ∧ parseEPGTime Local (prog_Start prog) = Ok startTime
           ∧ parseEPGTime Local (prog_Stop prog) = Ok stopTime
           ∧ time.loc startTime = Local ∧ time.loc stopTime = Local
           ∧ isDateOfDay y m d (wallClock startTime / 86400)
           ∧ date = time.FormatDate startTime
           ∧ (0 ≤ y ≤ 9999 → date = dateText y m d ∧ matchesLayout date = true)
           ∧ (¬ 0 ≤ y ≤ 9999 → matchesLayout date = false)
           ∧ item_Start it = time.FormatHHMM startTime
           ∧ item_Start it
             = timeText (wallClock startTime mod 86400 / 3600)
                 (wallClock startTime mod 3600 / 60)
           ∧ item_End it = time.FormatHHMM stopTime
           ∧ item_End it
             = timeText (wallClock stopTime mod 86400 / 3600)
                 (wallClock stopTime mod 3600 / 60)
           ∧ item_Title it = prog_Title prog).
Proof.
  intros pd. subst pd. split; [apply buildEPGCache_entry|split].
  - intros pd0 prog startTime stopTime Hs He.
    rewrite addProgramme_itemOf. unfold itemOf. rewrite Hs, He.
    unfold entry at 1. rewrite lookup_insert_eq. simpl. by rewrite lookup_insert_eq.
  - intros l it. rewrite buildEPGCache_entry. intros Hl Hin.
    assert (Hit : it ∈ itemsFor Local ch date (tv_Programmes tv)).
    { destruct (itemsFor Local ch date (tv_Programmes tv)); [done|]. by injection Hl as <-. }
    apply itemsFor_inv in Hit as (prog & Hp & Hch & Hit).
    apply itemOf_inv in Hit as (startTime & stopTime & Hs & He & -> & ->).
    cbn [item_Start item_End item_Title].
    split; [apply FormatHHMM_shape|]. split; [apply FormatHHMM_shape|].
    exists prog, startTime, stopTime, (time.cyear (time.fields startTime)),
      (time.cmonth (time.fields startTime)), (time.cday (time.fields startTime)).
    split; [done|]. split; [done|]. split; [done|]. split; [done|].
    split; [by apply (parseEPGTime_loc Local (prog_Start prog))|].
    split; [by apply (parseEPGTime_loc Local (prog_Stop prog))|].
    split; [apply fields_isDateOfDay|]. split; [done|].
    split; [intros Hy; split; [by apply FormatDate_dateText|by apply FormatDate_shape]|].
    split.
    { intros Hy. destruct (matchesLayout (time.FormatDate startTime)) eqn:E; [|done].
      by apply FormatDate_layout_iff in E. }
    split; [done|]. split; [apply FormatHHMM_timeText|].
    split; [done|]. split; [apply FormatHHMM_timeText|done].
Qed.

(** C7: the build returns no error, whatever the document.  A programme
    whose start or stop fails to parse leaves the index as if it were not in
    the feed and puts no item in it; the programmes before and after it are
    indexed: each of them whose two timestamps parse has its item in the
    bucket of its channel and date, every bucket holds the items of these
    programmes in feed order, and every item of the index comes from one of
    them. *)
Theorem buildEPGCache_skips_unparsable (Local : time.Location)
    (chs : list Channel) (before after : list Programme) (prog : Programme)
    (c : EPGCache) :
  isErr (parseEPGTime Local (prog_Start prog))
    || isErr (parseEPGTime Local (prog_Stop prog)) = true →
  let built := buildEPGCache Local
                 {| tv_Channels := chs; tv_Programmes := before ++ prog :: after |} c in
  snd built = None
  ∧ built = buildEPGCache Local
              {| tv_Channels := chs; tv_Programmes := before ++ after |} c
  ∧ itemOf Local prog = None
  ∧ (∀ ch date,
       entry (ProgramData (fst built)) ch date
       = match itemsFor Local ch date (before ++ after) with
         | [] => None
         | l => Some l
         end)
  ∧ (∀ other date it,
       other ∈ before ++ after → itemOf Local other = Some (date, it) →
       ∃ l, entry (ProgramData (fst built)) (prog_Channel other) date = Some l ∧ it ∈ l)
  ∧ (∀ ch date l it,
       entry (ProgramData (fst built)) ch date = Some l → it ∈ l →
       ∃ other, other ∈ before ++ after ∧ prog_Channel other = ch
                ∧ itemOf Local other = Some (date, it))
  ∧ (∀ tv c', snd (buildEPGCache Local tv c') = None).
Proof.
  intros Hbad built.
  assert (Hnone : itemOf Local prog = None).
  { unfold itemOf.
    destruct (parseEPGTime Local (prog_Start prog)); [|done].
    by destruct (parseEPGTime Local (prog_Stop prog)). }
  assert (Hsame : built = buildEPGCache Local
                            {| tv_Channels := chs; tv_Programmes := before ++ after |} c).
  { subst built. unfold buildEPGCache. simpl. do 2 f_equal.
    unfold buildProgramData. rewrite !foldl_app. simpl. f_equal.
    by rewrite addProgramme_itemOf, Hnone. }
  assert (Hentry : ∀ ch date,
            entry (ProgramData (fst built)) ch date
            = match itemsFor Local ch date (before ++ after) with
              | [] => None
              | l => Some l
              end).
  { intros ch date. rewrite Hsame. apply buildEPGCache_entry. }
  split; [done|]. split; [done|]. split; [done|]. split; [done|].
  split; [|split; [|done]].
  - intros other date it Hin Hit.
    assert (Hmem : it ∈ itemsFor Local (prog_Channel other) date (before ++ after)).
    { unfold itemsFor. apply list_elem_of_omap. exists other. split; [done|].
      by rewrite Hit, bool_decide_eq_true_2. }
    rewrite Hentry.
    destruct (itemsFor _ _ _ _) as [|i l]; [by apply elem_of_nil in Hmem|].
    by eexists.
  - intros ch date l it. rewrite Hentry. intros Hl Hin.
    assert (Hit : it ∈ itemsFor Local ch date (before ++ after)).
    { destruct (itemsFor Local ch date (before ++ after)); [done|]. by injection Hl as <-. }
    by apply itemsFor_inv in Hit.
Qed.

Lemma buildEPGCache_skips_unparsable_witness :
  isErr (parseEPGTime (time.FixedZone 28800) (prog_Start shortStart))
    || isErr (parseEPGTime (time.FixedZone 28800) (prog_Stop shortStart)) = true
  ∧ entry (ProgramData (fst (buildEPGCache (time.FixedZone 28800)
             {| tv_Channels := tv_Channels sampleTV;
                tv_Programmes := [morning] ++ shortStart :: tv_Programmes sampleTV |}
             epgCache0))) "c1" "2024-01-01"
    = Some [ {| item_Start := "10:00"; item_End := "11:00"; item_Title := "Morning" |};
             {| item_Start := "12:00"; item_End := "13:00"; item_Title := "News" |} ].
Proof.
  split; [reflexivity|].
  pose proof (buildEPGCache_skips_unparsable (time.FixedZone 28800)
                (tv_Channels sampleTV) [morning] (tv_Programmes sampleTV) shortStart
                epgCache0 eq_refl) as (_ & _ & _ & Hentry & _).
  rewrite Hentry. vm_compute. reflexivity.
Defined.

(** ** The date check of the handler *)

(** C4, counterexample: [2024-02-30] matches the pattern YYYY-MM-DD and is
    refused with the date format error. *)
Lemma date_pattern_is_not_enough : ¬ patternPassesDateCheck.
Proof.
  intros H.
  apply (H epgCache0 "X" "2024-02-30"); [done|reflexivity|].
  vm_compute. reflexivity.
Qed.

(** C4, amended: the handler answers with the first check that fails, in
    this order: a parameter is empty; the date is not a date of the
    calendar written YYYY-MM-DD (the pattern, a month from 01 to 12, a day
    that the month has in that year), and this whatever the cache holds; the
    channel name is not in the name index; its id is not in the programme
    index; the date is not among the dates of that id.  Otherwise it answers
    with the name, the date and the stored list as it is.  The five error
    messages differ. *)
Theorem epgQueryHandler_checks_in_order (c : EPGCache) (chName dateStr : string) :
  (chName = "" ∨ dateStr = "" →
     epgQueryHandler c chName dateStr = ErrorResponse msgMissingParameter)
  ∧ (chName ≠ "" → dateStr ≠ "" →
     (matchesLayout dateStr = false →
        ∀ c', epgQueryHandler c' chName dateStr = ErrorResponse msgInvalidDateFormat)
     ∧ (isCalendarDate dateStr = false →
        ∀ c', epgQueryHandler c' chName dateStr = ErrorResponse msgInvalidDateFormat)
     ∧ (isCalendarDate dateStr = true →
          (ChannelMap c !! chName = None →
             epgQueryHandler c chName dateStr
             = ErrorResponse (msgChannelNotFound chName))
          ∧ (∀ chID, ChannelMap c !! chName = Some chID →
               (ProgramData c !! chID = None →
                  epgQueryHandler c chName dateStr
                  = ErrorResponse (msgNoProgramData chName))
               ∧ (∀ datePrograms, ProgramData c !! chID = Some datePrograms →
                    (datePrograms !! dateStr = None →
                       epgQueryHandler c chName dateStr
                       = ErrorResponse (msgNoProgramDataForDate chName dateStr))
                    ∧ (∀ programs, datePrograms !! dateStr = Some programs →
                         epgQueryHandler c chName dateStr
                         = DataResponse {| resp_ChannelName := chName;
                                           resp_Date := dateStr;
                                           resp_EPGData := programs |})))))
  ∧ NoDup [ msgMissingParameter; msgInvalidDateFormat; msgChannelNotFound chName;
            msgNoProgramData chName; msgNoProgramDataForDate chName dateStr ].
Proof.
  split; [|split; [|apply messages_distinct]].
  - unfold epgQueryHandler.
    intros [-> | ->].
    + by rewrite (bool_decide_eq_true_2 ("" = "")).
    + rewrite (bool_decide_eq_true_2 ("" = "")), orb_true_r; done.
  - intros Hch Hd.
    destruct (ParseDate_calendar dateStr) as [Hacc Href].
    assert (Hrefused : isCalendarDate dateStr = false →
              ∀ c', epgQueryHandler c' chName dateStr = ErrorResponse msgInvalidDateFormat).
    { intros Hcal c'. unfold epgQueryHandler.
      rewrite !bool_decide_eq_false_2 by done. cbn [orb].
      destruct (time.ParseDate dateStr) as [t|e] eqn:Hp; [|done].
      rewrite (Href t eq_refl) in Hcal. done. }
    split; [|split; [exact Hrefused|]].
    + intros Hshape. apply Hrefused. unfold isCalendarDate. by rewrite Hshape.
    + intros Hcal. destruct (Hacc Hcal) as [t Ht]. unfold epgQueryHandler.
      rewrite !bool_decide_eq_false_2 by done. cbn [orb]. rewrite Ht.
      split; [by intros ->|].
      intros chID ->. split; [by intros ->|].
      intros datePrograms ->. split; [by intros ->|].
      by intros programs ->.
Qed.

(** ** The zone in which a timestamp is read *)




(** ** Examples *)

Example date_utc8 :
  time.unix (time.Date 2024 1 1 12 0 0 (time.FixedZone 28800)) = 1704081600.
Proof. vm_compute. reflexivity. Qed.

Example fmt_utc8 :
  let t := time.Date 2024 2 29 23 59 59 (time.FixedZone 28800) in
  (time.FormatDate t, time.FormatHHMM t) = ("2024-02-29"%string, "23:59"%string).
Proof. vm_compute. reflexivity. Qed.

Example fmt_norm :
  let t := time.Date 9999 13 0 24 60 60 (time.FixedZone 0) in
  (time.FormatDate t, time.FormatHHMM t) = ("10000-01-01"%string, "01:01"%string).
Proof. vm_compute. reflexivity. Qed.

Example parse_with_offset :
  parseEPGTime (time.FixedZone 28800) "20240101120000 +0800"
  = Ok {| time.unix := 1704081600; time.loc := time.FixedZone 28800 |}.
Proof. vm_compute. reflexivity. Qed.

Example parse_short :
  parseEPGTime (time.FixedZone 28800) "2024010112000 +0800" = Err errTimeLength.
Proof. vm_compute. reflexivity. Qed.

Example parse_letters :
  parseEPGTime (time.FixedZone 0) "abcdefghijklmn"
  = Ok (time.Date 0 0 0 0 0 0 (time.FixedZone 0)).
Proof. vm_compute. reflexivity. Qed.

Example build_sample :
  fst (buildEPGCache (time.FixedZone 28800) sampleTV epgCache0)
  = {| ChannelMap := {[ "CCTV1" := "c1" ]};
       ProgramData :=
         {[ "c1" := {[ "2024-01-01" :=
              [ {| item_Start := "12:00"; item_End := "13:00"; item_Title := "News" |} ] ]} ]} |}.
Proof. vm_compute. reflexivity. Qed.

(** The feed's offset plays no part: the digits are read in [time.Local]. *)
Example parse_other_offset :
  parseEPGTime (time.FixedZone 28800) "20240101120000 +0000"
  = Ok {| time.unix := 1704081600; time.loc := time.FixedZone 28800 |}.
Proof. vm_compute. reflexivity. Qed.

(** A month 13 carries into the year: the bucket date has five year digits. *)
Example bucket_year_overflow :
  ProgramData (fst (buildEPGCache (time.FixedZone 0)
    {| tv_Channels := [];
       tv_Programmes := [ {| prog_Start := "99991301000000"; prog_Stop := "99991301010000";
                             prog_Channel := "c1"; prog_Title := "Far" |} ] |} epgCache0))
  = {[ "c1" := {[ "10000-01-01" :=
         [ {| item_Start := "00:00"; item_End := "01:00"; item_Title := "Far" |} ] ]} ]}.
Proof. vm_compute. reflexivity. Qed.

Example ParseDate_cases :
  time.ParseDate "2024-1-1" = inr time.errBad
  ∧ time.ParseDate "2024-13-01" = inr time.errMonthRange
  ∧ time.ParseDate "2024-02-30" = inr time.errDayRange
  ∧ time.ParseDate "2024-01-01 " = inr time.errExtraText
  ∧ time.ParseDate "2024-02-29"
    = inl {| time.unix := 1709164800; time.loc := time.FixedZone 0 |}.
Proof. vm_compute. done. Qed.

Example query_found :
  epgQueryHandler sampleIndex "CCTV1" "2024-01-01"
  = DataResponse {| resp_ChannelName := "CCTV1"; resp_Date := "2024-01-01";
                    resp_EPGData := [ {| item_Start := "12:00"; item_End := "13:00";
                                         item_Title := "News" |} ] |}.
Proof. vm_compute. reflexivity. Qed.

Example query_errors :
  epgQueryHandler sampleIndex "" "2024-01-01" = ErrorResponse msgMissingParameter
  ∧ epgQueryHandler sampleIndex "X" "2024-1-1" = ErrorResponse msgInvalidDateFormat
  ∧ epgQueryHandler sampleIndex "UnknownChannel" "2024-01-01"
    = ErrorResponse (msgChannelNotFound "UnknownChannel")
  ∧ epgQueryHandler oldIndex "Old" "2024-01-01" = ErrorResponse (msgNoProgramData "Old")
  ∧ epgQueryHandler sampleIndex "CCTV1" "2024-01-02"
    = ErrorResponse (msgNoProgramDataForDate "CCTV1" "2024-01-02").
Proof. vm_compute. done. Qed.

(** A byte that is not UTF-8 does not survive the snapshot: it comes back
    as U+FFFD. *)
Example invalid_utf8_is_coerced :
  let c := {| ChannelMap := {[ String (Ascii.ascii_of_nat 255) "" := "c1" ]};
              ProgramData := ∅ |} in
  fst (json.Unmarshal (json.Marshal c) epgCache0)
  = {| ChannelMap := {[ utf8.RuneError := "c1" ]}; ProgramData := ∅ |}.
Proof. vm_compute. reflexivity. Qed.

(** [Unmarshal] keeps the entries of the map it decodes into. *)
Example load_merges :
  ChannelMap (fst (json.Unmarshal (json.Marshal sampleIndex) oldIndex))
  = {[ "Old" := "o1"; "CCTV1" := "c1" ]}.
Proof. vm_compute. reflexivity. Qed.

(** An hour 24 on the last day of January is filed under the first of
    February, at 00:00. *)
Example hour_24_is_next_day :
  itemOf (time.FixedZone 28800)
    {| prog_Start := "20240131240000 +0800"; prog_Stop := "20240131250000 +0800";
       prog_Channel := "c1"; prog_Title := "Late" |}
  = Some ("2024-02-01"%string,
          {| item_Start := "00:00"; item_End := "01:00"; item_Title := "Late" |}).
Proof. vm_compute. reflexivity. Qed.

Example xmlFileName_cases :
  xmlFileName (fun s => s) "/tmp/feed.xml.gz" = "feed.xml"%string
  ∧ xmlFileName (fun s => s) "/tmp/FEED.XML.gz" = "FEED.XML"%string
  ∧ xmlFileName (fun s => s) "feed.gz" = "feed.xml"%string
  ∧ xmlFileName (fun s => s) "feed.tar.gz" = "feed.tar.xml"%string
  ∧ xmlFileName (fun s => s) "feed.xml" = "feed.xml"%string
  ∧ xmlFileName (fun s => s) "dir/" = "dir.xml"%string
  ∧ xmlFileName (fun s => s) "" = "..xml"%string
  ∧ xmlFileName (fun s => s) "/" = "/.xml"%string.
Proof. vm_compute. done. Qed.

Example failed_copy_leaves_archive :
  diskAfterRun sampleConfig brokenCopy joinPlain (fun s => s) ∅
  = {[ "epg_download/epg_123456789.gz"%string ]}.
Proof. vm_compute. reflexivity. Qed.

Example run_leaves_document :
  diskAfterRun sampleConfig allWell joinPlain (fun s => s) ∅
  = {[ "epg_download/epg_123456789.xml"%string ]}.
Proof. vm_compute. reflexivity. Qed.

(** A timestamp of zeros is the day before the first of December of the
    year before the year 0. *)
Example bucket_year_negative :
  itemOf (time.FixedZone 0)
    {| prog_Start := "00000000000000"; prog_Stop := "00000000010000";
       prog_Channel := "c1"; prog_Title := "Zero" |}
  = Some ("-0001-11-30"%string,
          {| item_Start := "00:00"; item_End := "01:00"; item_Title := "Zero" |}).
Proof. vm_compute. reflexivity. Qed.
